(** * primrose-mcp-1password: the Connect client adapter, the tenant
      credential resolver and the response formatter, embedded in Rocq.

    The TypeScript sources are embedded shallowly:
    - JavaScript values are the inductive type [value]; objects are
      association lists (property order matters to [JSON.stringify]),
      header records are finite maps;
    - a method that may throw returns an [Outcome];
    - a method of the client that awaits [fetch] is a computation in the
      monad [M], which reads the behaviour of the network and writes the
      list of calls made to [fetch].

    Numbers are modelled by [Z] (exact for integers below 2^53), strings
    by [string] (code units below 256), and the properties of an object
    are kept in insertion order (no property name is an array index).
    What [parseInt] returns is a [number]: an integer that a double holds,
    NaN or an infinity. *)

From Stdlib Require Import ZArith List Ascii String Bool Lia DecimalZ.
From stdpp Require Import base option list strings gmap.
Import ListNotations.

Local Open Scope Z_scope.
Local Open Scope list_scope.

(* ===================================================================== *)
(** ** JavaScript values *)
(* ===================================================================== *)

Module JS.

(** A JavaScript number without a fraction: NaN (what [parseInt] returns
    when there is nothing to parse), an integer that a double holds, or an
    infinity. The two zeros are one. *)
Inductive number :=
| NaN
| Num (z : Z)
| Infinity (negative : bool).

(** The number of an integer (the conversion that ECMA-262 writes as a
    double-struck F): the integer itself below 2^53 in magnitude; beyond,
    the nearest integer with 53 significant bits, the even one of two that
    are as near, and an infinity from 2^1024 on. *)
Definition round_to_double (z : Z) : number :=
  let a := Z.abs z in
  if a <? 2 ^ 53 then Num z
  else
    let e := Z.log2 a - 52 in
    let q := a / 2 ^ e in
    let r := a mod 2 ^ e in
    let half := 2 ^ (e - 1) in
    let q' := if (half <? r) || ((r =? half) && Z.odd q) then q + 1 else q in
    let m := q' * 2 ^ e in
    if 2 ^ 1024 <=? m then Infinity (z <? 0)
    else Num (if z <? 0 then - m else m).

Unset Elimination Schemes.
Inductive value :=
| VUndefined
| VNull
| VBool (b : bool)
| VNum (n : Z)
| VStr (s : string)
| VArr (l : list value)
| VObj (l : list (string * value)).
Set Elimination Schemes.

(** Induction over values, with the hypotheses for the elements of an
    array and for the property values of an object. *)
Section value_ind.
Variable P : value -> Prop.
Hypothesis Hundef : P VUndefined.
Hypothesis Hnull : P VNull.
Hypothesis Hbool : forall b, P (VBool b).
Hypothesis Hnum : forall n, P (VNum n).
Hypothesis Hstr : forall s, P (VStr s).
Hypothesis Harr : forall l, Forall P l -> P (VArr l).
Hypothesis Hobj : forall l, Forall (fun kv => P (snd kv)) l -> P (VObj l).

Fixpoint value_ind (v : value) : P v :=
  match v with
  | VUndefined => Hundef
  | VNull => Hnull
  | VBool b => Hbool b
  | VNum n => Hnum n
  | VStr s => Hstr s
  | VArr l =>
      Harr l ((fix go (l : list value) : Forall P l :=
                 match l with
                 | [] => @List.Forall_nil _ P
                 | x :: r => @List.Forall_cons _ P x r (value_ind x) (go r)
                 end) l)
  | VObj l =>
      Hobj l ((fix go (l : list (string * value))
                 : Forall (fun kv => P (snd kv)) l :=
                 match l with
                 | [] => @List.Forall_nil _ _
                 | kv :: r =>
                     @List.Forall_cons _ (fun kv => P (snd kv)) kv r
                       (value_ind (snd kv)) (go r)
                 end) l)
  end.
End value_ind.

(** [o[k]] on the own properties of an object literal. *)
Fixpoint obj_get (k : string) (o : list (string * value)) : option value :=
  match o with
  | [] => None
  | (k', v) :: r => if String.eqb k k' then Some v else obj_get k r
  end.

(** [o[k] = v]: an existing property keeps its place, a new one goes
    last. *)
Fixpoint obj_set (k : string) (v : value) (o : list (string * value))
  : list (string * value) :=
  match o with
  | [] => [(k, v)]
  | (k', v') :: r =>
      if String.eqb k k' then (k, v) :: r else (k', v') :: obj_set k v r
  end.

(** Decimal digits of an unsigned integer. *)
Fixpoint uint_chars (u : Decimal.uint) : list ascii :=
  match u with
  | Decimal.Nil => []
  | Decimal.D0 r => "0"%char :: uint_chars r
  | Decimal.D1 r => "1"%char :: uint_chars r
  | Decimal.D2 r => "2"%char :: uint_chars r
  | Decimal.D3 r => "3"%char :: uint_chars r
  | Decimal.D4 r => "4"%char :: uint_chars r
  | Decimal.D5 r => "5"%char :: uint_chars r
  | Decimal.D6 r => "6"%char :: uint_chars r
  | Decimal.D7 r => "7"%char :: uint_chars r
  | Decimal.D8 r => "8"%char :: uint_chars r
  | Decimal.D9 r => "9"%char :: uint_chars r
  end.

(** [String(n)] for an integer [n]. *)
Definition Z_chars (z : Z) : list ascii :=
  match Z.to_int z with
  | Decimal.Pos u => uint_chars u
  | Decimal.Neg u => "-"%char :: uint_chars u
  end.

Definition String_of_Z (z : Z) : string := string_of_list_ascii (Z_chars z).

Definition String_of_bool (b : bool) : string :=
  if b then "true"%string else "false"%string.

End JS.
Export JS.

(* ===================================================================== *)
(** ** The built-in JSON object (ECMA-262, 25.5), on the values above *)
(* ===================================================================== *)

Module Json.

Definition chars (s : string) : list ascii := list_ascii_of_string s.

Definition code_unit (c : ascii) : N := N_of_ascii c.

Definition hex_digit (n : N) : ascii :=
  match n with
  | 0 => "0" | 1 => "1" | 2 => "2" | 3 => "3" | 4 => "4" | 5 => "5"
  | 6 => "6" | 7 => "7" | 8 => "8" | 9 => "9" | 10 => "a" | 11 => "b"
  | 12 => "c" | 13 => "d" | 14 => "e" | _ => "f"
  end%N%char.

(** QuoteJSONString, one code unit. *)
Definition quote_char (c : ascii) : list ascii :=
  if Ascii.eqb c "034" then ["\"%char; "034"%char]
  else if Ascii.eqb c "\" then chars "\\"
  else if Ascii.eqb c "008" then chars "\b"
  else if Ascii.eqb c "012" then chars "\f"
  else if Ascii.eqb c "010" then chars "\n"
  else if Ascii.eqb c "013" then chars "\r"
  else if Ascii.eqb c "009" then chars "\t"
  else if (code_unit c <? 32)%N then
    chars "\u00"
      ++ [hex_digit (code_unit c / 16); hex_digit (code_unit c mod 16)]
  else [c].

Definition quote (s : string) : list ascii :=
  "034"%char :: flat_map quote_char (chars s) ++ ["034"%char].

Fixpoint join (sep : list ascii) (l : list (list ascii)) : list ascii :=
  match l with
  | [] => []
  | [x] => x
  | x :: r => x ++ sep ++ join sep r
  end.

(** The text of an array or of an object from the texts of its parts:
    the last step of SerializeJSONArray and SerializeJSONObject. Without a
    gap the parts are joined by commas; with one, each part goes on a line
    of its own at the new indentation. *)
Definition wrap (opening closing : ascii) (gap stepback indent : list ascii)
    (partial : list (list ascii)) : list ascii :=
  match partial with
  | [] => [opening; closing]
  | _ =>
      match gap with
      | [] => opening :: join (chars ",") partial ++ [closing]
      | _ =>
          opening :: "010"%char :: indent
            ++ join ("," :: "010" :: indent)%char partial
            ++ "010"%char :: stepback ++ [closing]
      end
  end.

(** SerializeJSONProperty: [None] is JavaScript's [undefined] (the value is
    left out of an object and becomes [null] in an array). *)
Fixpoint ser (gap indent : list ascii) (v : value) : option (list ascii) :=
  match v with
  | VUndefined => None
  | VNull => Some (chars "null")
  | VBool true => Some (chars "true")
  | VBool false => Some (chars "false")
  | VNum n => Some (Z_chars n)
  | VStr s => Some (quote s)
  | VArr l =>
      let indent' := indent ++ gap in
      let partial :=
        map (fun x => match ser gap indent' x with
                      | Some s => s
                      | None => chars "null"
                      end) l in
      Some (wrap "[" "]" gap indent indent' partial)
  | VObj l =>
      let indent' := indent ++ gap in
      let partial :=
        (fix members (l : list (string * value)) : list (list ascii) :=
           match l with
           | [] => []
           | (k, x) :: r =>
               match ser gap indent' x with
               | Some s =>
                   (quote k ++ ":"%char
                      :: match gap with [] => [] | _ => [" "%char] end ++ s)
                     :: members r
               | None => members r
               end
           end) l in
      Some (wrap "{" "}" gap indent indent' partial)
  end.

(** The gap of [JSON.stringify(value, null, space)] for a number
    [space]: that many spaces, ten at most. *)
Definition gap_of (space : nat) : list ascii :=
  repeat " "%char (Nat.min 10 space).

(** [JSON.stringify(v, null, space)]. *)
Definition stringify_indent (space : nat) (v : value) : option string :=
  string_of_list_ascii <$> ser (gap_of space) [] v.

(** [JSON.stringify(v)]. *)
Definition stringify (v : value) : option string := stringify_indent 0 v.

(** *** JSON.parse *)

Definition is_ws (c : ascii) : bool :=
  Ascii.eqb c " " || Ascii.eqb c "009" || Ascii.eqb c "010"
  || Ascii.eqb c "013".

Fixpoint skip_ws (s : list ascii) : list ascii :=
  match s with
  | c :: r => if is_ws c then skip_ws r else s
  | [] => []
  end.

Definition digit_of (c : ascii) : option (Decimal.uint -> Decimal.uint) :=
  if Ascii.eqb c "0" then Some Decimal.D0
  else if Ascii.eqb c "1" then Some Decimal.D1
  else if Ascii.eqb c "2" then Some Decimal.D2
  else if Ascii.eqb c "3" then Some Decimal.D3
  else if Ascii.eqb c "4" then Some Decimal.D4
  else if Ascii.eqb c "5" then Some Decimal.D5
  else if Ascii.eqb c "6" then Some Decimal.D6
  else if Ascii.eqb c "7" then Some Decimal.D7
  else if Ascii.eqb c "8" then Some Decimal.D8
  else if Ascii.eqb c "9" then Some Decimal.D9
  else None.

(** The longest run of digits at the head of [s]. *)
Fixpoint parse_digits (s : list ascii) : Decimal.uint * list ascii :=
  match s with
  | c :: r =>
      match digit_of c with
      | Some d => let '(u, r') := parse_digits r in (d u, r')
      | None => (Decimal.Nil, s)
      end
  | [] => (Decimal.Nil, [])
  end.

(** JSON's integer part: one digit at least, no leading zero. *)
Definition int_ok (u : Decimal.uint) : bool :=
  match u with
  | Decimal.Nil => false
  | Decimal.D0 Decimal.Nil => true
  | Decimal.D0 _ => false
  | _ => true
  end.

(** A number literal. Only integer literals denote a value of the model:
    a fraction or an exponent is left in the input, where the caller
    rejects it. *)
Definition parse_number (s : list ascii) : option (Z * list ascii) :=
  match s with
  | c :: r =>
      if Ascii.eqb c "-" then
        let '(u, r') := parse_digits r in
        if int_ok u then Some (Z.of_int (Decimal.Neg u), r') else None
      else
        let '(u, r') := parse_digits s in
        if int_ok u then Some (Z.of_int (Decimal.Pos u), r') else None
  | [] => None
  end.

Definition hex_of (c : ascii) : option N :=
  let n := code_unit c in
  if (48 <=? n)%N && (n <=? 57)%N then Some (n - 48)%N
  else if (97 <=? n)%N && (n <=? 102)%N then Some (n - 87)%N
  else if (65 <=? n)%N && (n <=? 70)%N then Some (n - 55)%N
  else None.

(** The code unit of [\uXXXX]; one above 255 is outside the model. *)
Definition unicode_escape (a b c d : ascii) : option ascii :=
  match hex_of a, hex_of b, hex_of c, hex_of d with
  | Some x, Some y, Some z, Some w =>
      let n := (((x * 16 + y) * 16 + z) * 16 + w)%N in
      if (n <? 256)%N then Some (ascii_of_N n) else None
  | _, _, _, _ => None
  end.

(** The characters of a string literal after its opening quote. *)
Fixpoint parse_string (s : list ascii) : option (list ascii * list ascii) :=
  let cons_to c r :=
    match parse_string r with
    | Some (t, r') => Some (c :: t, r')
    | None => None
    end in
  match s with
  | [] => None
  | c :: r =>
      if Ascii.eqb c "034" then Some ([], r)
      else if Ascii.eqb c "\" then
        match r with
        | e :: r1 =>
            if Ascii.eqb e "034" then cons_to "034"%char r1
            else if Ascii.eqb e "\" then cons_to "\"%char r1
            else if Ascii.eqb e "/" then cons_to "/"%char r1
            else if Ascii.eqb e "b" then cons_to "008"%char r1
            else if Ascii.eqb e "f" then cons_to "012"%char r1
            else if Ascii.eqb e "n" then cons_to "010"%char r1
            else if Ascii.eqb e "r" then cons_to "013"%char r1
            else if Ascii.eqb e "t" then cons_to "009"%char r1
            else if Ascii.eqb e "u" then
              match r1 with
              | h1 :: h2 :: h3 :: h4 :: r2 =>
                  match unicode_escape h1 h2 h3 h4 with
                  | Some u => cons_to u r2
                  | None => None
                  end
              | _ => None
              end
            else None
        | [] => None
        end
      else if (code_unit c <? 32)%N then None
      else cons_to c r
  end.

Fixpoint strip (p s : list ascii) : option (list ascii) :=
  match p, s with
  | [], _ => Some s
  | a :: p', b :: s' => if Ascii.eqb a b then strip p' s' else None
  | _ :: _, [] => None
  end.

Fixpoint parse_value (fuel : nat) (s : list ascii)
  : option (value * list ascii) :=
  match fuel with
  | O => None
  | S f =>
      match skip_ws s with
      | [] => None
      | c :: r =>
          if Ascii.eqb c "n" then
            r' ← strip (chars "ull") r; Some (VNull, r')
          else if Ascii.eqb c "t" then
            r' ← strip (chars "rue") r; Some (VBool true, r')
          else if Ascii.eqb c "f" then
            r' ← strip (chars "alse") r; Some (VBool false, r')
          else if Ascii.eqb c "034" then
            '(t, r') ← parse_string r;
            Some (VStr (string_of_list_ascii t), r')
          else if Ascii.eqb c "[" then
            match skip_ws r with
            | c' :: r' =>
                if Ascii.eqb c' "]" then Some (VArr [], r')
                else '(l, r'') ← parse_elems f (c' :: r'); Some (VArr l, r'')
            | [] => None
            end
          else if Ascii.eqb c "{" then
            match skip_ws r with
            | c' :: r' =>
                if Ascii.eqb c' "}" then Some (VObj [], r')
                else
                  '(o, r'') ← parse_members f (c' :: r') []; Some (VObj o, r'')
            | [] => None
            end
          else
            '(n, r') ← parse_number (c :: r); Some (VNum n, r')
      end
  end
(** The elements of an array, after [[] or a comma, up to []]. *)
with parse_elems (fuel : nat) (s : list ascii)
  : option (list value * list ascii) :=
  match fuel with
  | O => None
  | S f =>
      '(v, r) ← parse_value f s;
      match skip_ws r with
      | c :: r' =>
          if Ascii.eqb c "," then
            '(vs, r'') ← parse_elems f r'; Some (v :: vs, r'')
          else if Ascii.eqb c "]" then Some ([v], r')
          else None
      | [] => None
      end
  end
(** The members of an object, after [{] or a comma, up to [}]; a repeated
    key overwrites the earlier value. *)
with parse_members (fuel : nat) (s : list ascii)
    (acc : list (string * value))
  : option (list (string * value) * list ascii) :=
  match fuel with
  | O => None
  | S f =>
      match skip_ws s with
      | c :: r =>
          if Ascii.eqb c "034" then
            '(k, r1) ← parse_string r;
            match skip_ws r1 with
            | c1 :: r2 =>
                if Ascii.eqb c1 ":" then
                  '(v, r3) ← parse_value f r2;
                  let acc' := obj_set (string_of_list_ascii k) v acc in
                  match skip_ws r3 with
                  | c3 :: r4 =>
                      if Ascii.eqb c3 "," then parse_members f r4 acc'
                      else if Ascii.eqb c3 "}" then Some (acc', r4)
                      else None
                  | [] => None
                  end
                else None
            | [] => None
            end
          else None
      | [] => None
      end
  end.

(** [JSON.parse(text)]; [None] is a thrown SyntaxError. *)
Definition parse (text : string) : option value :=
  let s := chars text in
  '(v, r) ← parse_value (S (length s)) s;
  match skip_ws r with
  | [] => Some v
  | _ :: _ => None
  end.

End Json.

(* ===================================================================== *)
(** ** Conversions and property access of the language *)
(* ===================================================================== *)

Module Lang.

(** ToBoolean: what [if (v)], [!v] and [v || w] test. *)
Definition truthy (v : value) : bool :=
  match v with
  | VUndefined | VNull => false
  | VBool b => b
  | VNum n => negb (n =? 0)
  | VStr s => negb (String.eqb s "")
  | VArr _ | VObj _ => true
  end.

(** Truthiness of an optional string ([undefined] or a string). *)
Definition truthy_str (o : option string) : bool :=
  match o with
  | Some s => negb (String.eqb s "")
  | None => false
  end.

(** ASCII lower case, as header names are compared. *)
Definition lower_char (c : ascii) : ascii :=
  let n := N_of_ascii c in
  if (65 <=? n)%N && (n <=? 90)%N then ascii_of_N (n + 32) else c.

Fixpoint lower (s : string) : string :=
  match s with
  | EmptyString => EmptyString
  | String c r => String (lower_char c) (lower r)
  end.

(** StrWhiteSpaceChar among the code units below 256. *)
Definition is_str_ws (c : ascii) : bool :=
  let n := N_of_ascii c in
  ((9 <=? n)%N && (n <=? 13)%N) || (n =? 32)%N || (n =? 160)%N.

Fixpoint trim_start (s : list ascii) : list ascii :=
  match s with
  | c :: r => if is_str_ws c then trim_start r else s
  | [] => []
  end.

(** [parseInt(s, 10)]: leading white space, a sign, then the longest run
    of decimal digits; NaN when there is no digit, and otherwise the number
    of the integer that the digits denote (ECMA-262 lets an implementation
    read zeros for the digits after the twentieth; V8, on which the worker
    runs, reads them all). *)
Definition parseInt10 (s : string) : number :=
  let s1 := trim_start (Json.chars s) in
  let '(negative, s2) :=
    match s1 with
    | c :: r =>
        if Ascii.eqb c "-" then (true, r)
        else if Ascii.eqb c "+" then (false, r)
        else (false, s1)
    | [] => (false, s1)
    end in
  match fst (Json.parse_digits s2) with
  | Decimal.Nil => NaN
  | u => round_to_double (if negative then - Z.of_uint u else Z.of_uint u)
  end.

(** [s.replace(/\/$/, '')]: one final slash is removed. *)
Fixpoint replace_final_slash (s : string) : string :=
  match s with
  | EmptyString => EmptyString
  | String c EmptyString => if Ascii.eqb c "/" then EmptyString else s
  | String c r => String c (replace_final_slash r)
  end.

End Lang.
Export Lang.

(* ===================================================================== *)
(** ** utils/errors.ts: the error taxonomy *)
(* ===================================================================== *)

Module Errors.

(** The constructor an error object was built by ([instanceof]). *)
Inductive ErrorClass :=
| ErrorC
| TypeErrorC
| SyntaxErrorC
| OnePasswordApiErrorC
| RateLimitErrorC
| AuthenticationErrorC
| AuthorizationErrorC
| NotFoundErrorC
| ValidationErrorC.

Global Instance ErrorClass_eq_dec : EqDecision ErrorClass.
Proof. solve_decision. Defined.

(** An error object. The fields after [message] exist on the instances of
    OnePasswordApiError only, [retryAfterSeconds] on those of
    RateLimitError. *)
Record Error := mkError {
  cls : ErrorClass;
  name : string;
  message : string;
  statusCode : option Z;
  code : option string;
  retryable : option bool;
  retryAfterSeconds : option number;
}.

Definition new_Error (message : string) : Error :=
  {| cls := ErrorC; name := "Error"; message := message;
     statusCode := None; code := None; retryable := None;
     retryAfterSeconds := None |}.

Definition new_TypeError (message : string) : Error :=
  {| cls := TypeErrorC; name := "TypeError"; message := message;
     statusCode := None; code := None; retryable := None;
     retryAfterSeconds := None |}.

(** [new OnePasswordApiError(message, statusCode?, code?, retryable = false)] *)
Definition new_OnePasswordApiError (message : string) (statusCode : option Z)
    (code : option string) (retryable : option bool) : Error :=
  {| cls := OnePasswordApiErrorC;
     name := "OnePasswordApiError";
     message := message;
     statusCode := statusCode;
     code := Some (if truthy_str code then default "" code
                   else "ONEPASSWORD_ERROR");
     retryable := Some (default false retryable);
     retryAfterSeconds := None |}.

Definition new_RateLimitError (msg : string) (seconds : number)
  : Error :=
  let super :=
    new_OnePasswordApiError msg (Some 429) (Some "RATE_LIMIT_EXCEEDED")
      (Some true) in
  {| cls := RateLimitErrorC;
     name := "RateLimitError";
     message := super.(message);
     statusCode := super.(statusCode);
     code := super.(code);
     retryable := super.(retryable);
     retryAfterSeconds := Some seconds |}.

Definition new_AuthenticationError (msg : string) : Error :=
  let super :=
    new_OnePasswordApiError msg (Some 401) (Some "AUTHENTICATION_FAILED")
      (Some false) in
  {| cls := AuthenticationErrorC;
     name := "AuthenticationError";
     message := super.(message);
     statusCode := super.(statusCode);
     code := super.(code);
     retryable := super.(retryable);
     retryAfterSeconds := None |}.

Definition new_AuthorizationError (msg : string) : Error :=
  let super :=
    new_OnePasswordApiError msg (Some 403) (Some "AUTHORIZATION_FAILED")
      (Some false) in
  {| cls := AuthorizationErrorC;
     name := "AuthorizationError";
     message := super.(message);
     statusCode := super.(statusCode);
     code := super.(code);
     retryable := super.(retryable);
     retryAfterSeconds := None |}.

Definition new_NotFoundError (entityType id : string) : Error :=
  let super :=
    new_OnePasswordApiError
      (entityType +:+ " with ID '" +:+ id +:+ "' not found")
      (Some 404) (Some "NOT_FOUND") (Some false) in
  {| cls := NotFoundErrorC;
     name := "NotFoundError";
     message := super.(message);
     statusCode := super.(statusCode);
     code := super.(code);
     retryable := super.(retryable);
     retryAfterSeconds := None |}.

(** What a [throw] carries: an error object, or any other value. *)
Inductive Thrown :=
| ThrowError (e : Error)
| ThrowValue (v : value).

(** The result of running code that may throw. *)
Inductive Outcome (A : Type) :=
| Returned (a : A)
| Threw (t : Thrown).
Arguments Returned {A} a.
Arguments Threw {A} t.

(** [error instanceof Error ? error.message : fallback] *)
Definition message_or (fallback : string) (t : Thrown) : string :=
  match t with
  | ThrowError e => e.(message)
  | ThrowValue _ => fallback
  end.

(** [v[k]] for a property name [k] that no prototype defines, such as
    [message] and [error], and for [length]: an own property of an object
    literal, the length of an array or of a string, [undefined] otherwise;
    on [undefined] and [null] the access throws. *)
Definition get_prop (v : value) (k : string) : Outcome value :=
  match v with
  | VUndefined =>
      Threw (ThrowError (new_TypeError
        ("Cannot read properties of undefined (reading '" +:+ k +:+ "')")))
  | VNull =>
      Threw (ThrowError (new_TypeError
        ("Cannot read properties of null (reading '" +:+ k +:+ "')")))
  | VObj o => Returned (default VUndefined (obj_get k o))
  | VArr l =>
      Returned (if String.eqb k "length" then VNum (Z.of_nat (length l))
                else VUndefined)
  | VStr s =>
      Returned (if String.eqb k "length" then VNum (Z.of_nat (String.length s))
                else VUndefined)
  | VBool _ | VNum _ => Returned VUndefined
  end.

(** The TypeError of a conversion that finds no primitive value. *)
Definition no_primitive_value : Error :=
  new_TypeError "Cannot convert object to primitive value".

(** ToString, as template literals, [String(v)] and the constructor of
    [Error] apply it. An array is joined by commas, with nothing for its
    [null] and [undefined] elements. An object of data is
    ["[object Object]"] by the [toString] it inherits; an own property
    [toString] hides that one and, being no function, leaves the
    conversion without a primitive value: a TypeError. *)
Fixpoint ToString (v : value) : Outcome string :=
  match v with
  | VUndefined => Returned "undefined"%string
  | VNull => Returned "null"%string
  | VBool b => Returned (String_of_bool b)
  | VNum n => Returned (String_of_Z n)
  | VStr s => Returned s
  | VArr l =>
      (fix elems (l : list value) : Outcome string :=
         match l with
         | [] => Returned ""%string
         | x :: r =>
             match match x with
                   | VUndefined | VNull => Returned ""%string
                   | _ => ToString x
                   end with
             | Threw t => Threw t
             | Returned s =>
                 match r with
                 | [] => Returned s
                 | _ =>
                     match elems r with
                     | Threw t => Threw t
                     | Returned rest => Returned (s +:+ "," +:+ rest)
                     end
                 end
             end
         end) l
  | VObj o =>
      match obj_get "toString" o with
      | Some _ => Threw (ThrowError no_primitive_value)
      | None => Returned "[object Object]"%string
      end
  end.

End Errors.
Export Errors.

(* ===================================================================== *)
(** ** The platform: fetch, Response, computations that await it *)
(* ===================================================================== *)

Module Runtime.

(** The options of a request ([RequestInit]), as far as the client sets
    them. *)
Record RequestInit := mkInit {
  method : option string;
  headers : option (gmap string string);
  body : option string;
}.

Definition no_options : RequestInit :=
  {| method := None; headers := None; body := None |}.

(** One call [fetch(url, init)]. *)
Record FetchCall := mkCall {
  url : string;
  init : RequestInit;
}.

(** A [Headers] object: the values by lower-case name. *)
Definition Headers_get (name : string) (h : gmap string string)
  : option string := h !! lower name.

(** A response, as the client and the worker read or build it. *)
Record Response := mkResponse {
  status : Z;
  resp_headers : gmap string string;
  resp_body : string;
}.

(** [response.ok] *)
Definition ok (r : Response) : bool :=
  (200 <=? r.(status)) && (r.(status) <=? 299).

Global Instance Outcome_ret : MRet Outcome := fun A a => Returned a.
Global Instance Outcome_bind : MBind Outcome := fun A B f o =>
  match o with
  | Returned a => f a
  | Threw t => Threw t
  end.

(** [try { block } catch (error) { handler }] without awaits. *)
Definition try_catch {A} (block : Outcome A) (handler : Thrown -> Outcome A)
  : Outcome A :=
  match block with
  | Returned a => Returned a
  | Threw t => handler t
  end.

(** The network: what [fetch] resolves or rejects with. *)
Definition Net : Type := FetchCall -> Outcome Response.

(** An asynchronous computation: given the network, its outcome and the
    calls to [fetch] it made, in order. *)
Definition M (A : Type) : Type := Net -> Outcome A * list FetchCall.

Global Instance M_ret : MRet M := fun A a _ => (Returned a, []).
Global Instance M_bind : MBind M := fun A B f m net =>
  match m net with
  | (Returned a, log) => let '(o, log') := f a net in (o, log ++ log')
  | (Threw t, log) => (Threw t, log)
  end.

Definition lift {A} (o : Outcome A) : M A := fun _ => (o, []).

Definition throw {A} (e : Error) : M A := lift (Threw (ThrowError e)).

Definition fetch (call : FetchCall) : M Response :=
  fun net => (net call, [call]).

(** [try { block } catch (error) { handler }] around awaits. *)
Definition try_catch_async {A} (block : M A) (handler : Thrown -> M A) : M A :=
  fun net =>
    match block net with
    | (Returned a, log) => (Returned a, log)
    | (Threw t, log) => let '(o, log') := handler t net in (o, log ++ log')
    end.

(** [URLSearchParams]: [set] and [toString], given the
    application/x-www-form-urlencoded serializer of one string. *)
Section URLSearchParams.
Variable form_urlencode : string -> string.

Fixpoint usp_set (k v : string) (q : list (string * string))
  : list (string * string) :=
  match q with
  | [] => [(k, v)]
  | (k', v') :: r =>
      if String.eqb k k' then (k, v) :: r else (k', v') :: usp_set k v r
  end.

Fixpoint usp_toString (q : list (string * string)) : string :=
  match q with
  | [] => ""
  | [(k, v)] => form_urlencode k +:+ "=" +:+ form_urlencode v
  | (k, v) :: r =>
      form_urlencode k +:+ "=" +:+ form_urlencode v +:+ "&"
        +:+ usp_toString r
  end.
End URLSearchParams.

End Runtime.
Export Runtime.

(* ===================================================================== *)
(** ** types/env.ts: tenant credentials *)
(* ===================================================================== *)

Module Env.

Record TenantCredentials := mkCredentials {
  connectToken : option string;
  connectHost : option string;
}.

(** An inbound request, as the worker reads it: its method, the path of
    its URL and its headers. *)
Record Request := mkRequest {
  req_method : string;
  req_pathname : string;
  req_headers : gmap string string;
}.

(** [headers.get(name) || undefined] *)
Definition or_undefined (o : option string) : option string :=
  if truthy_str o then o else None.

Definition parseTenantCredentials (request : Request) : TenantCredentials :=
  let headers := request.(req_headers) in
  {| connectToken :=
       or_undefined (Headers_get "X-1Password-Connect-Token" headers);
     connectHost :=
       or_undefined (Headers_get "X-1Password-Connect-Host" headers) |}.

Definition validateCredentials (credentials : TenantCredentials)
  : Outcome unit :=
  if negb (truthy_str credentials.(connectToken)) then
    Threw (ThrowError (new_Error
      "Missing X-1Password-Connect-Token header. Provide your Connect server token."))
  else if negb (truthy_str credentials.(connectHost)) then
    Threw (ThrowError (new_Error
      "Missing X-1Password-Connect-Host header. Provide your Connect server URL (e.g., http://localhost:8080)."))
  else Returned tt.

End Env.
Export Env.

(* ===================================================================== *)
(** ** client.ts: the Connect client *)
(* ===================================================================== *)

Module Client.

Record PaginationParams := mkParams {
  limit : option Z;
  offset : option Z;
}.

Record PaginatedResponse := mkPage {
  items : value;
  count : value;
  hasMore : bool;
}.

Record ConnectionStatus := mkStatus {
  connected : bool;
  status_message : string;
}.

Record OnePasswordClientImpl := mkClient {
  credentials : TenantCredentials;
  baseUrl : string;
}.

(** The constructor: the host without one final slash, or the local
    placeholder when that is missing or empty, then the [/v1] prefix. *)
Definition new_OnePasswordClientImpl (credentials : TenantCredentials)
  : OnePasswordClientImpl :=
  let host :=
    let replaced := replace_final_slash <$> credentials.(connectHost) in
    if truthy_str replaced then default "" replaced
    else "http://localhost:8080" in
  {| credentials := credentials; baseUrl := host +:+ "/v1" |}.

Definition createOnePasswordClient (credentials : TenantCredentials)
  : OnePasswordClientImpl :=
  new_OnePasswordClientImpl credentials.

Definition getAuthHeaders (self : OnePasswordClientImpl)
  : Outcome (gmap string string) :=
  if negb (truthy_str self.(credentials).(connectToken)) then
    Threw (ThrowError (new_AuthenticationError
      "No Connect token provided. Include X-1Password-Connect-Token header."))
  else
    Returned {[ "Authorization" :=
                  "Bearer " +:+ default "" self.(credentials).(connectToken);
                "Content-Type" := "application/json" ]}.

(** [{ ...options, headers: { ...auth, ...(options.headers || {}) } }] *)
Definition with_auth (options : RequestInit) (auth : gmap string string)
  : RequestInit :=
  {| method := options.(method);
     headers := Some (default ∅ options.(headers) ∪ auth);
     body := options.(body) |}.

Section Platform.
(** Built-ins of the platform the client calls: [encodeURIComponent],
    the serializer behind [URLSearchParams.toString] and [JSON.parse]
    (here with its SyntaxError as a thrown outcome). *)
Variable encodeURIComponent : string -> string.
Variable form_urlencode : string -> string.
Variable JSON_parse : string -> Outcome value.

(** The lookup [errorJson.message || errorJson.error || message] inside
    the [try] of [request]. *)
Definition error_message (errorBody : string) (message : value)
  : Outcome value :=
  errorJson ← JSON_parse errorBody;
  m ← get_prop errorJson "message";
  if truthy m then Returned m
  else
    e ← get_prop errorJson "error";
    if truthy e then Returned e else Returned message.

(** The message of the error for another status is what the lookup
    gave, a value of any type; the constructor of [Error] converts it to a
    string, which throws for a value without one. *)
Definition request (self : OnePasswordClientImpl) (endpoint : string)
    (options : RequestInit) : M value :=
  let url := self.(baseUrl) +:+ endpoint in
  auth ← lift (getAuthHeaders self);
  response ← fetch {| url := url; init := with_auth options auth |};
  if response.(status) =? 429 then
    let retryAfter := Headers_get "Retry-After" response.(resp_headers) in
    throw (new_RateLimitError "Rate limit exceeded"
             (if truthy_str retryAfter
              then parseInt10 (default "" retryAfter)
              else Num 60))
  else if response.(status) =? 401 then
    throw (new_AuthenticationError
             "Authentication failed. Check your Connect token.")
  else if response.(status) =? 403 then
    throw (new_AuthorizationError
             "Authorization failed. Check your service account permissions.")
  else if response.(status) =? 404 then
    throw (new_NotFoundError "Resource" endpoint)
  else if negb (ok response) then
    let errorBody := response.(resp_body) in
    let message := VStr ("API error: " +:+ String_of_Z response.(status)) in
    message ← lift (try_catch (error_message errorBody message)
                              (fun _ => Returned message));
    text ← lift (ToString message);
    throw (new_OnePasswordApiError text (Some response.(status)) None None)
  else if response.(status) =? 204 then mret VUndefined
  else lift (JSON_parse response.(resp_body)).

(** The body of a response as an [ArrayBuffer]: its bytes. *)
Definition requestRaw (self : OnePasswordClientImpl) (endpoint : string)
    (options : RequestInit) : M string :=
  let url := self.(baseUrl) +:+ endpoint in
  auth ← lift (getAuthHeaders self);
  response ← fetch {| url := url; init := with_auth options auth |};
  if negb (ok response) then
    if response.(status) =? 401 then
      throw (new_AuthenticationError
               "Authentication failed. Check your Connect token.")
    else if response.(status) =? 403 then
      throw (new_AuthorizationError
               "Authorization failed. Check your service account permissions.")
    else if response.(status) =? 404 then
      throw (new_NotFoundError "File" endpoint)
    else
      throw (new_OnePasswordApiError
               ("API error: " +:+ String_of_Z response.(status))
               (Some response.(status)) None None)
  else mret response.(resp_body).

Definition getHealth (self : OnePasswordClientImpl) : M value :=
  request self "/health" no_options.

(** The template literal reads and converts the name, then the version,
    inside the [try]. *)
Definition testConnection (self : OnePasswordClientImpl)
  : M ConnectionStatus :=
  try_catch_async
    (health ← getHealth self;
     name ← lift (get_prop health "name");
     name ← lift (ToString name);
     version ← lift (get_prop health "version");
     version ← lift (ToString version);
     mret {| connected := true;
             status_message :=
               "Successfully connected to 1Password Connect server ("
                 +:+ name +:+ " v" +:+ version +:+ ")" |})
    (fun error =>
       mret {| connected := false;
               status_message := message_or "Connection failed" error |}).

Definition heartbeat (self : OnePasswordClientImpl) : M string :=
  let url := self.(baseUrl) +:+ "/heartbeat" in
  auth ← lift (getAuthHeaders self);
  response ← fetch {| url := url;
                      init := {| method := None; headers := Some auth;
                                 body := None |} |};
  if negb (ok response) then
    throw (new_OnePasswordApiError
             ("Heartbeat failed: " +:+ String_of_Z response.(status))
             (Some response.(status)) None None)
  else mret response.(resp_body).

(** [queryParams.set('filter', filter)] when [filter] is truthy, then
    [toString]. *)
Definition filter_query (filter : option string) : string :=
  let queryParams := [] in
  let queryParams :=
    if truthy_str filter then usp_set "filter" (default "" filter) queryParams
    else queryParams in
  usp_toString form_urlencode queryParams.

Definition listVaults (self : OnePasswordClientImpl)
    (filter : option string) : M value :=
  let query := filter_query filter in
  let endpoint :=
    if truthy_str (Some query) then "/vaults?" +:+ query else "/vaults" in
  request self endpoint no_options.

Definition getVault (self : OnePasswordClientImpl) (vaultId : string)
  : M value :=
  request self ("/vaults/" +:+ encodeURIComponent vaultId) no_options.

Definition listItems (self : OnePasswordClientImpl) (vaultId : string)
    (filter : option string) : M value :=
  let query := filter_query filter in
  let endpoint :=
    if truthy_str (Some query)
    then "/vaults/" +:+ encodeURIComponent vaultId +:+ "/items?" +:+ query
    else "/vaults/" +:+ encodeURIComponent vaultId +:+ "/items" in
  request self endpoint no_options.

Definition item_path (vaultId itemId : string) : string :=
  "/vaults/" +:+ encodeURIComponent vaultId +:+ "/items/"
    +:+ encodeURIComponent itemId.

Definition getItem (self : OnePasswordClientImpl) (vaultId itemId : string)
  : M value :=
  request self (item_path vaultId itemId) no_options.

(** [item] is the list of the own properties of the input object. *)
Definition createItem (self : OnePasswordClientImpl) (vaultId : string)
    (item : list (string * value)) : M value :=
  let itemWithVault :=
    VObj (obj_set "vault" (VObj [("id"%string, VStr vaultId)]) item) in
  request self ("/vaults/" +:+ encodeURIComponent vaultId +:+ "/items")
    {| method := Some "POST"%string; headers := None;
       body := Json.stringify itemWithVault |}.

Definition updateItem (self : OnePasswordClientImpl)
    (vaultId itemId : string) (item : list (string * value)) : M value :=
  let itemWithIds :=
    VObj (obj_set "vault" (VObj [("id"%string, VStr vaultId)])
            (obj_set "id" (VStr itemId) item)) in
  request self (item_path vaultId itemId)
    {| method := Some "PUT"%string; headers := None;
       body := Json.stringify itemWithIds |}.

Definition patchItem (self : OnePasswordClientImpl)
    (vaultId itemId : string) (operations : list value) : M value :=
  request self (item_path vaultId itemId)
    {| method := Some "PATCH"%string;
       headers :=
         Some {[ "Content-Type"%string :=
                   "application/json-patch+json"%string ]};
       body := Json.stringify (VArr operations) |}.

Definition deleteItem (self : OnePasswordClientImpl)
    (vaultId itemId : string) : M unit :=
  _ ← request self (item_path vaultId itemId)
        {| method := Some "DELETE"%string; headers := None; body := None |};
  mret tt.

(** [queryParams.set('inline_content', String(inlineContent))] when
    [inlineContent] is given, then [toString]. *)
Definition inline_query (inlineContent : option bool) : string :=
  let queryParams := [] in
  let queryParams :=
    match inlineContent with
    | Some b => usp_set "inline_content" (String_of_bool b) queryParams
    | None => queryParams
    end in
  usp_toString form_urlencode queryParams.

Definition listFiles (self : OnePasswordClientImpl)
    (vaultId itemId : string) (inlineContent : option bool) : M value :=
  let query := inline_query inlineContent in
  let endpoint :=
    if truthy_str (Some query)
    then item_path vaultId itemId +:+ "/files?" +:+ query
    else item_path vaultId itemId +:+ "/files" in
  request self endpoint no_options.

Definition getFile (self : OnePasswordClientImpl)
    (vaultId itemId fileId : string) (inlineContent : option bool)
  : M value :=
  let query := inline_query inlineContent in
  let endpoint :=
    if truthy_str (Some query)
    then item_path vaultId itemId +:+ "/files/"
           +:+ encodeURIComponent fileId +:+ "?" +:+ query
    else item_path vaultId itemId +:+ "/files/"
           +:+ encodeURIComponent fileId in
  request self endpoint no_options.

Definition getFileContent (self : OnePasswordClientImpl)
    (vaultId itemId fileId : string) : M string :=
  requestRaw self
    (item_path vaultId itemId +:+ "/files/" +:+ encodeURIComponent fileId
       +:+ "/content")
    no_options.

(** The endpoint of [listActivity]: [limit] and [offset] go into the
    query when they are truthy. *)
Definition activity_endpoint (params : option PaginationParams) : string :=
  let queryParams := [] in
  let queryParams :=
    match params ≫= limit with
    | Some n =>
        if truthy (VNum n) then usp_set "limit" (String_of_Z n) queryParams
        else queryParams
    | None => queryParams
    end in
  let queryParams :=
    match params ≫= offset with
    | Some n =>
        if truthy (VNum n) then usp_set "offset" (String_of_Z n) queryParams
        else queryParams
    | None => queryParams
    end in
  let query := usp_toString form_urlencode queryParams in
  if truthy_str (Some query) then "/activity?" +:+ query else "/activity".

Definition listActivity (self : OnePasswordClientImpl)
    (params : option PaginationParams) : M PaginatedResponse :=
  let endpoint := activity_endpoint params in
  items ← request self endpoint no_options;
  len ← lift (get_prop items "length");
  mret {| items := items; count := len; hasMore := false |}.

(** The calls of the interface [OnePasswordClient]. *)
Inductive Call :=
| TestConnection
| GetHealth
| Heartbeat
| ListVaults (filter : option string)
| GetVault (vaultId : string)
| ListItems (vaultId : string) (filter : option string)
| GetItem (vaultId itemId : string)
| CreateItem (vaultId : string) (item : list (string * value))
| UpdateItem (vaultId itemId : string) (item : list (string * value))
| PatchItem (vaultId itemId : string) (operations : list value)
| DeleteItem (vaultId itemId : string)
| ListFiles (vaultId itemId : string) (inlineContent : option bool)
| GetFile (vaultId itemId fileId : string) (inlineContent : option bool)
| GetFileContent (vaultId itemId fileId : string)
| ListActivity (params : option PaginationParams).

(** The calls to [fetch] that one call of the interface makes. *)
Definition outbound (self : OnePasswordClientImpl) (call : Call) (net : Net)
  : list FetchCall :=
  match call with
  | TestConnection => snd (testConnection self net)
  | GetHealth => snd (getHealth self net)
  | Heartbeat => snd (heartbeat self net)
  | ListVaults filter => snd (listVaults self filter net)
  | GetVault vaultId => snd (getVault self vaultId net)
  | ListItems vaultId filter => snd (listItems self vaultId filter net)
  | GetItem vaultId itemId => snd (getItem self vaultId itemId net)
  | CreateItem vaultId item => snd (createItem self vaultId item net)
  | UpdateItem vaultId itemId item =>
      snd (updateItem self vaultId itemId item net)
  | PatchItem vaultId itemId operations =>
      snd (patchItem self vaultId itemId operations net)
  | DeleteItem vaultId itemId => snd (deleteItem self vaultId itemId net)
  | ListFiles vaultId itemId inlineContent =>
      snd (listFiles self vaultId itemId inlineContent net)
  | GetFile vaultId itemId fileId inlineContent =>
      snd (getFile self vaultId itemId fileId inlineContent net)
  | GetFileContent vaultId itemId fileId =>
      snd (getFileContent self vaultId itemId fileId net)
  | ListActivity params => snd (listActivity self params net)
  end.

End Platform.

End Client.
Export Client.

(* ===================================================================== *)
(** ** utils/formatters.ts: tool responses *)
(* ===================================================================== *)

Module Formatters.


(** A text block; [text] is what [JSON.stringify] returned, which is
    [undefined] ([None]) for an [undefined] payload. *)
Record ContentBlock := mkBlock {
  type : string;
  text : option string;
}.

Record ToolResponse := mkToolResponse {
  content : list ContentBlock;
  isError : option bool;
}.

Section formatResponse.
(** The Markdown renderer of the same file. *)
Variable formatAsMarkdown : value -> string -> string.

End formatResponse.

End Formatters.
Export Formatters.

(* ===================================================================== *)
(** ** tools/items.ts: the handlers of create_item and patch_item *)
(* ===================================================================== *)

Module ItemTools.

Section Handlers.
Variable encodeURIComponent : string -> string.
Variable JSON_parse : string -> Outcome value.
(** [formatError] of utils/formatters.ts, which throws when it finds no
    text for what was thrown. *)
Variable formatError : Thrown -> Outcome ToolResponse.

(** The handler of [1password_create_item]; an argument the caller left
    out is [undefined]. *)
Definition create_item_handler (client : OnePasswordClientImpl)
    (vaultId title category : string)
    (fields sections urls tags favorite : value) : M ToolResponse :=
  try_catch_async
    (item ← createItem encodeURIComponent JSON_parse client vaultId
              [("title"%string, VStr title);
               ("category"%string, VStr category);
               ("vault"%string, VObj [("id"%string, VStr vaultId)]);
               ("fields"%string, fields);
               ("sections"%string, sections);
               ("urls"%string, urls);
               ("tags"%string, tags);
               ("favorite"%string, favorite)];
     mret {| content :=
               [{| type := "text";
                   text := Json.stringify_indent 2
                             (VObj [("success"%string, VBool true);
                                    ("message"%string, VStr "Item created");
                                    ("item"%string, item)]) |}];
             isError := None |})
    (fun error => lift (formatError error)).

(** The handler of [1password_patch_item]. *)
Definition patch_item_handler (client : OnePasswordClientImpl)
    (vaultId itemId : string) (operations : list value) : M ToolResponse :=
  try_catch_async
    (item ← patchItem encodeURIComponent JSON_parse client vaultId itemId
              operations;
     mret {| content :=
               [{| type := "text";
                   text := Json.stringify_indent 2
                             (VObj [("success"%string, VBool true);
                                    ("message"%string, VStr "Item patched");
                                    ("item"%string, item)]) |}];
             isError := None |})
    (fun error => lift (formatError error)).
End Handlers.

End ItemTools.
Export ItemTools.

(* ===================================================================== *)
(** ** index.ts: the worker *)
(* ===================================================================== *)

Module Worker.

Definition SERVER_NAME : string := "primrose-mcp-1password".
Definition SERVER_VERSION : string := "1.0.0".

(** [new Response(body, { status, headers })]: a text body has the
    content type of plain text unless the headers give one. *)
Definition new_Response (body : option string) (status : Z)
    (headers : gmap string string) : Response :=
  {| status := status;
     resp_headers :=
       match body with
       | Some _ => headers ∪ {[ "content-type" := "text/plain;charset=UTF-8" ]}
       | None => headers
       end;
     resp_body := default "" body |}.

Definition json_headers : gmap string string :=
  {[ "content-type" := "application/json" ]}.

(** The stateless server of one request: its tools all call the one client
    built from the credentials of that request. *)
Record McpServer := mkServer {
  server_name : string;
  server_version : string;
  client : OnePasswordClientImpl;
}.

Definition createStatelessServer (credentials : TenantCredentials)
  : McpServer :=
  {| server_name := SERVER_NAME;
     server_version := SERVER_VERSION;
     client := createOnePasswordClient credentials |}.

(** What the fetch handler does with a request: it answers itself, or it
    hands the request to the MCP handler of a server. *)
Inductive FetchResult :=
| Respond (response : Response)
| Handle (server : McpServer) (request : Request).

Definition unauthorized_body (error : Thrown) : value :=
  VObj [("error"%string, VStr "Unauthorized");
        ("message"%string, VStr (message_or "Invalid credentials" error));
        ("required_headers"%string,
         VArr [VStr "X-1Password-Connect-Token";
               VStr "X-1Password-Connect-Host"])].

Definition default_body : value :=
  VObj [("name"%string, VStr SERVER_NAME);
        ("version"%string, VStr SERVER_VERSION);
        ("description"%string, VStr "1Password Connect MCP Server");
        ("endpoints"%string,
         VObj [("mcp"%string,
                VStr "/mcp (POST) - Streamable HTTP MCP endpoint");
               ("health"%string, VStr "/health - Health check")]);
        ("authentication"%string,
         VObj [("description"%string,
                VStr "Pass tenant credentials via request headers");
               ("required_headers"%string,
                VObj [("X-1Password-Connect-Token"%string,
                       VStr "Your 1Password Connect server token");
                      ("X-1Password-Connect-Host"%string,
                       VStr "URL of your Connect server (e.g., http://localhost:8080)")])]);
        ("tools"%string,
         VArr [VStr "1password_list_vaults - List all vaults";
               VStr "1password_get_vault - Get vault details";
               VStr "1password_list_items - List items in a vault";
               VStr "1password_get_item - Get item details";
               VStr "1password_create_item - Create a new item";
               VStr "1password_update_item - Update an item (full replace)";
               VStr "1password_patch_item - Patch an item (partial update)";
               VStr "1password_delete_item - Delete an item";
               VStr "1password_list_files - List files attached to an item";
               VStr "1password_get_file - Get file details";
               VStr "1password_get_file_content - Download file content";
               VStr "1password_list_activity - Get API activity log";
               VStr "1password_get_health - Get server health status";
               VStr "1password_heartbeat - Ping the server";
               VStr "1password_test_connection - Test the connection"])].

(** The fetch handler of the worker. *)
Definition fetch_handler (request : Request) : FetchResult :=
  if String.eqb request.(req_pathname) "/health" then
    Respond (new_Response
               (Json.stringify (VObj [("status"%string, VStr "ok");
                                      ("server"%string, VStr SERVER_NAME)]))
               200 json_headers)
  else if String.eqb request.(req_pathname) "/mcp"
          && String.eqb request.(req_method) "POST" then
    let credentials := parseTenantCredentials request in
    match validateCredentials credentials with
    | Threw error =>
        Respond (new_Response (Json.stringify (unauthorized_body error))
                   401 json_headers)
    | Returned _ =>
        let server := createStatelessServer credentials in
        Handle server request
    end
  else if String.eqb request.(req_pathname) "/sse" then
    Respond (new_Response
               (Some "SSE endpoint requires Durable Objects. Enable in wrangler.jsonc."%string)
               501 ∅)
  else
    Respond (new_Response (Json.stringify default_body) 200 json_headers).

End Worker.
Export Worker.

(* ===================================================================== *)
(** ** utils/errors.ts: retryability and the record of an error *)
(* ===================================================================== *)

Module ErrorUtils.

(** [s.startsWith(search)] and [s.includes(search)]. *)
Fixpoint starts_with (search s : string) : bool :=
  match search, s with
  | EmptyString, _ => true
  | String a search', String b s' => Ascii.eqb a b && starts_with search' s'
  | String _ _, EmptyString => false
  end.

Fixpoint includes (s search : string) : bool :=
  starts_with search s
  || match s with
     | String _ r => includes r search
     | EmptyString => false
     end.

(** [e instanceof OnePasswordApiError]: the class and its subclasses. *)
Definition instanceof_OnePasswordApiError (e : Error) : bool :=
  match e.(cls) with
  | OnePasswordApiErrorC | RateLimitErrorC | AuthenticationErrorC
  | AuthorizationErrorC | NotFoundErrorC | ValidationErrorC => true
  | ErrorC | TypeErrorC | SyntaxErrorC => false
  end.

Definition isRetryableError (error : Thrown) : bool :=
  match error with
  | ThrowError e =>
      if instanceof_OnePasswordApiError e then default false e.(retryable)
      else
        includes e.(message) "network"
        || includes e.(message) "timeout"
        || includes e.(message) "ECONNRESET"
  | ThrowValue _ => false
  end.

(** A field that may be [undefined]. *)
Definition field {A} (f : A -> value) (o : option A) : value :=
  match o with
  | Some a => f a
  | None => VUndefined
  end.

(** A number as a property value; NaN and the infinities, which
    [JSON.stringify] writes as [null], are given as [null]. *)
Definition number_value (n : number) : value :=
  match n with
  | Num z => VNum z
  | NaN | Infinity _ => VNull
  end.

Section formatErrorForLogging.
(** Two fields that the record of errors does not carry: [error.stack]
    and the [details] of a ValidationError. *)
Variable stack_of : Error -> value.
Variable details_of : Error -> value.

Definition formatErrorForLogging (error : Thrown) : Outcome value :=
  match error with
  | ThrowError e =>
      if instanceof_OnePasswordApiError e then
        Returned
          (VObj ([("name"%string, VStr e.(name));
                  ("message"%string, VStr e.(message));
                  ("code"%string, field VStr e.(code));
                  ("statusCode"%string, field VNum e.(statusCode));
                  ("retryable"%string, field VBool e.(retryable))]
                 ++ match e.(cls) with
                    | RateLimitErrorC =>
                        [("retryAfterSeconds"%string,
                          field number_value e.(retryAfterSeconds))]
                    | _ => []
                    end
                 ++ match e.(cls) with
                    | ValidationErrorC => [("details"%string, details_of e)]
                    | _ => []
                    end))
      else
        Returned
          (VObj [("name"%string, VStr e.(name));
                 ("message"%string, VStr e.(message));
                 ("stack"%string, stack_of e)])
  | ThrowValue v =>
      text ← ToString v;
      Returned (VObj [("error"%string, VStr text)])
  end.

(** [formatError] of utils/formatters.ts. *)
Definition formatError (error : Thrown) : Outcome ToolResponse :=
  errorInfo ← formatErrorForLogging error;
  message ←
    match error with
    | ThrowError e =>
        if instanceof_OnePasswordApiError e then
          let message := "Error: " +:+ e.(message) in
          if default false e.(retryable)
          then Returned (message +:+ " (retryable)")
          else Returned message
        else Returned ("Error: " +:+ e.(message))
    | ThrowValue v =>
        text ← ToString v;
        Returned ("Error: " +:+ text)
    end;
  Returned
    {| content :=
         [{| type := "text";
             text := Json.stringify_indent 2
                       (VObj [("error"%string, VStr message);
                              ("details"%string, errorInfo)]) |}];
       isError := Some true |}.
End formatErrorForLogging.

End ErrorUtils.
Export ErrorUtils.

(* ===================================================================== *)
(** ** utils/formatters.ts: file sizes *)
(* ===================================================================== *)

Module FileSize.

Section Platform.
(** [Number::toString] of the quotient [num / den] when that is 10^21 or
    more in magnitude and so written with an exponent. *)
Variable exponent_form : Z -> Z -> string.

(** [String(n)] and [`${n}`] for a number [n] that is an integer. *)
Definition Number_toString (n : Z) : string :=
  if 10 ^ 21 <=? Z.abs n then exponent_form n 1 else String_of_Z n.

(** [(num / den).toFixed(1)] for a quotient that is not negative: below
    10^21 the nearest number of tenths, the larger one of two that are as
    near, and the text of [Number::toString] from there on. The quotients
    below divide an integer by a power of two, which is exact. *)
Definition toFixed1 (num den : Z) : string :=
  if 10 ^ 21 * den <=? num then exponent_form num den
  else
    let tenths := (20 * num + den) / (2 * den) in
    String_of_Z (tenths / 10) +:+ "." +:+ String_of_Z (tenths mod 10).

(** [bytes] is a size that is an integer. *)
Definition formatFileSize (bytes : Z) : string :=
  if bytes <? 1024 then Number_toString bytes +:+ " B"
  else if bytes <? 1024 * 1024 then toFixed1 bytes 1024 +:+ " KB"
  else if bytes <? 1024 * 1024 * 1024 then
    toFixed1 bytes (1024 * 1024) +:+ " MB"
  else toFixed1 bytes (1024 * 1024 * 1024) +:+ " GB".
End Platform.

End FileSize.
Export FileSize.

(* ===================================================================== *)
(** ** types/env.ts: numeric settings *)
(* ===================================================================== *)

Module EnvVars.

Inductive EnvKey :=
| CHARACTER_LIMIT
| DEFAULT_PAGE_SIZE
| MAX_PAGE_SIZE
| AI.

(** The bindings as the worker is given them: a text, [undefined] when
    the variable is not configured, or another value. *)
Record Env := mkEnv {
  env_CHARACTER_LIMIT : value;
  env_DEFAULT_PAGE_SIZE : value;
  env_MAX_PAGE_SIZE : value;
  env_AI : value;
}.

(** [env[key]] *)
Definition env_get (env : Env) (key : EnvKey) : value :=
  match key with
  | CHARACTER_LIMIT => env.(env_CHARACTER_LIMIT)
  | DEFAULT_PAGE_SIZE => env.(env_DEFAULT_PAGE_SIZE)
  | MAX_PAGE_SIZE => env.(env_MAX_PAGE_SIZE)
  | AI => env.(env_AI)
  end.

Definition getEnvNumber (env : Env) (key : EnvKey) (defaultValue : number)
  : number :=
  match env_get env key with
  | VStr value =>
      let parsed := parseInt10 value in
      match parsed with
      | NaN => defaultValue
      | Num _ | Infinity _ => parsed
      end
  | _ => defaultValue
  end.

Definition getCharacterLimit (env : Env) : number :=
  getEnvNumber env CHARACTER_LIMIT (Num 50000).

Definition getDefaultPageSize (env : Env) : number :=
  getEnvNumber env DEFAULT_PAGE_SIZE (Num 20).

Definition getMaxPageSize (env : Env) : number :=
  getEnvNumber env MAX_PAGE_SIZE (Num 100).

End EnvVars.
Export EnvVars.

(* ===================================================================== *)
(** ** index.ts and tools/: more handlers *)
(* ===================================================================== *)

Module MoreTools.

(** The object [{ connected, message }] of a connection status. *)
Definition status_value (s : ConnectionStatus) : value :=
  VObj [("connected"%string, VBool s.(connected));
        ("message"%string, VStr s.(status_message))].


Section Handlers.
Variable encodeURIComponent : string -> string.
Variable form_urlencode : string -> string.
Variable JSON_parse : string -> Outcome value.
Variable formatAsMarkdown : value -> string -> string.
Variable formatError : Thrown -> Outcome ToolResponse.

(** The handler of [1password_test_connection] (index.ts). *)
Definition test_connection_handler (client : OnePasswordClientImpl)
  : M ToolResponse :=
  try_catch_async
    (result ← testConnection JSON_parse client;
     mret {| content :=
               [{| type := "text";
                   text := Json.stringify_indent 2 (status_value result) |}];
             isError := None |})
    (fun error =>
       mret {| content :=
                 [{| type := "text";
                     text := Some ("Connection failed: "
                                     +:+ message_or "Unknown error" error) |}];
               isError := Some true |}).


(** The handler of [1password_delete_item] (tools/items.ts). *)
Definition delete_item_handler (client : OnePasswordClientImpl)
    (vaultId itemId : string) : M ToolResponse :=
  try_catch_async
    (_ ← deleteItem encodeURIComponent JSON_parse client vaultId itemId;
     mret {| content :=
               [{| type := "text";
                   text := Json.stringify_indent 2
                             (VObj [("success"%string, VBool true);
                                    ("message"%string,
                                     VStr ("Item " +:+ itemId
                                             +:+ " deleted from vault "
                                             +:+ vaultId))]) |}];
             isError := None |})
    (fun error => lift (formatError error)).
End Handlers.

End MoreTools.
Export MoreTools.

(* ===================================================================== *)
(** * Vocabulary of the properties *)
(* ===================================================================== *)

(** JSON values and their normal forms, the pieces of a JSON text, the
    requests that the client issues, and the data of the concrete runs. *)

Section Vocabulary.
Import Json.

(** [k] is not the name of a property in [l]. *)
Fixpoint fresh (k : string) (l : list (string * value)) : bool :=
  match l with
  | [] => true
  | (k', _) :: r => negb (String.eqb k k') && fresh k r
  end.

(** No two properties of an object have the same name, at any depth: the
    invariant of the representation of objects by lists. *)
Fixpoint well_keyed (v : value) : bool :=
  match v with
  | VArr l => forallb well_keyed l
  | VObj l =>
      (fix go (l : list (string * value)) : bool :=
         match l with
         | [] => true
         | (k, x) :: r => fresh k r && well_keyed x && go r
         end) l
  | _ => true
  end.

(** No [undefined] inside. *)
Fixpoint defined (v : value) : bool :=
  match v with
  | VUndefined => false
  | VArr l => forallb defined l
  | VObj l =>
      (fix go (l : list (string * value)) : bool :=
         match l with
         | [] => true
         | (_, x) :: r => defined x && go r
         end) l
  | _ => true
  end.

(** A JSON value: what [JSON.parse] can return. *)
Definition is_json (v : value) : bool := well_keyed v && defined v.

(** The value that the text of [v] denotes: [undefined] is [null] in an
    array and is left out of an object. *)
Fixpoint norm (v : value) : value :=
  match v with
  | VArr l =>
      VArr (map (fun x => match x with
                          | VUndefined => VNull
                          | _ => norm x
                          end) l)
  | VObj l =>
      VObj ((fix go (l : list (string * value)) : list (string * value) :=
               match l with
               | [] => []
               | (k, x) :: r =>
                   match x with
                   | VUndefined => go r
                   | _ => (k, norm x) :: go r
                   end
               end) l)
  | _ => v
  end.

(** Only white space that [JSON.parse] skips. *)
Definition all_ws (w : list ascii) : bool := forallb is_ws w.

(** The next character cannot continue a number. *)
Definition tail_ok (rest : list ascii) : Prop :=
  match rest with
  | c :: _ => digit_of c = None
  | [] => True
  end.

(** The characters that a number, and that any JSON text, starts with. *)
Definition num_chars : list ascii := chars "-0123456789".
Definition start_chars : list ascii :=
  ("034"%char :: chars "ntf[{") ++ num_chars.

(** The white space before a part and before the closing bracket. *)
Definition sep (gap x : list ascii) : list ascii :=
  match gap with
  | [] => []
  | _ => "010"%char :: x
  end.

(** The text of an element of an array. *)
Definition pr (gap ind : list ascii) (x : value) : list ascii :=
  match ser gap ind x with
  | Some s => s
  | None => chars "null"
  end.

(** The value that the text of an element of an array denotes. *)
Definition norm_elem (x : value) : value :=
  match x with
  | VUndefined => VNull
  | _ => norm x
  end.

(** The property values that are not [undefined]. *)
Fixpoint present (l : list (string * value)) : list (string * value) :=
  match l with
  | [] => []
  | (k, x) :: r =>
      match x with
      | VUndefined => present r
      | _ => (k, x) :: present r
      end
  end.

(** The text of a member of an object. *)
Definition mem (gap ind : list ascii) (kv : string * value) : list ascii :=
  quote kv.1 ++ ":"%char
    :: match gap with [] => [] | _ => [" "%char] end ++ pr gap ind kv.2.

(** Reading back the text of a value, with enough fuel for its length
    and before any text that does not continue a number. *)
Definition Roundtrip (v : value) : Prop :=
  forall gap indent s fuel rest,
    well_keyed v = true -> all_ws gap = true -> all_ws indent = true ->
    ser gap indent v = Some s -> (length s <= fuel)%nat -> tail_ok rest ->
    parse_value fuel (s ++ rest) = Some (norm v, rest).

(** The headers of [getAuthHeaders] for a token. *)
Definition auth_headers (token : string) : gmap string string :=
  {[ "Authorization" := "Bearer " +:+ token;
     "Content-Type" := "application/json" ]}.

(** The call to [fetch] of [request] and [requestRaw], when there is
    one. *)
Definition issued (self : OnePasswordClientImpl) (endpoint : string)
    (options : RequestInit) : list FetchCall :=
  match getAuthHeaders self with
  | Returned auth =>
      [{| url := self.(baseUrl) +:+ endpoint;
          init := with_auth options auth |}]
  | Threw _ => []
  end.

(** The statuses that [request] maps to an error class of their own. *)
Definition mapped_status (s : Z) : bool :=
  (s =? 429) || (s =? 401) || (s =? 403) || (s =? 404).

(** [j] has no own property [k] (a value that is not an object has
    none). *)
Definition lacks (k : string) (j : value) : Prop :=
  match j with
  | VObj o => obj_get k o = None
  | _ => True
  end.

(** The request without the header [name]. *)
Definition omit_header (name : string) (request : Request) : Request :=
  {| req_method := request.(req_method);
     req_pathname := request.(req_pathname);
     req_headers := delete (lower name) request.(req_headers) |}.

(** The two credential headers, and their names as the 401 response
    lists them. *)
Definition token_header : string := "X-1Password-Connect-Token".
Definition host_header : string := "X-1Password-Connect-Host".

Definition required_headers : value :=
  VArr [VStr token_header; VStr host_header].

(** *** Data of the concrete runs *)

(** A tenant, its client and a network that answers every call alike. *)
Definition tenant : TenantCredentials :=
  {| connectToken := Some "token-a"%string;
     connectHost := Some "http://connect.test/"%string |}.

Definition tenant_client : OnePasswordClientImpl :=
  createOnePasswordClient tenant.

Definition answer (response : Response) : Net := fun _ => Returned response.

(** [JSON.parse] by the parser above. *)
Definition json_parse (text : string) : Outcome value :=
  match Json.parse text with
  | Some v => Returned v
  | None =>
      Threw (ThrowError
        {| cls := SyntaxErrorC; name := "SyntaxError";
           message := "Unexpected token in JSON";
           statusCode := None; code := None; retryable := None;
           retryAfterSeconds := None |})
  end.

(** On the unreserved characters of these runs, the encoders are the
    identity. *)
Definition unreserved (s : string) : string := s.

(** A stand-in for [formatError], which these runs do not reach. *)
Definition no_format_error (_ : Thrown) : Outcome ToolResponse :=
  Returned {| content := []; isError := Some true |}.

Definition rate_limited_with_date : Response :=
  {| status := 429;
     resp_headers := {[ "retry-after" := "Wed, 21 Oct 2015 07:28:00 GMT" ]};
     resp_body := "" |}.

Definition server_error_html : Response :=
  {| status := 500;
     resp_headers := ∅;
     resp_body := "<html>Internal Server Error</html>" |}.

Definition activity_items : list value :=
  [VObj [("requestId"%string, VStr "r1"); ("action"%string, VStr "READ")];
   VObj [("requestId"%string, VStr "r2")]].

Definition activity_answer : Response :=
  {| status := 200;
     resp_headers := {[ "content-type" := "application/json" ]};
     resp_body := default "" (Json.stringify (VArr activity_items)) |}.

Definition created_answer : Response :=
  {| status := 200; resp_headers := ∅; resp_body := "{}" |}.

(** The item that the handler of create_item passes for
    [vaultId = "v1"], [title = "Test"], [category = "LOGIN"]. *)
Definition test_item : list (string * value) :=
  [("title"%string, VStr "Test");
   ("category"%string, VStr "LOGIN");
   ("vault"%string, VObj [("id"%string, VStr "v1")]);
   ("fields"%string, VUndefined);
   ("sections"%string, VUndefined);
   ("urls"%string, VUndefined);
   ("tags"%string, VUndefined);
   ("favorite"%string, VUndefined)].

Definition replace_title : list value :=
  [VObj [("op"%string, VStr "replace");
         ("path"%string, VStr "/title");
         ("value"%string, VStr "New")]].


Definition empty_token_request : Request :=
  {| req_method := "POST";
     req_pathname := "/mcp";
     req_headers := {[ "x-1password-connect-token" := ""%string;
                       "x-1password-connect-host" := "http://connect.test"%string ]} |}.

Definition no_host_request : Request :=
  {| req_method := "POST";
     req_pathname := "/mcp";
     req_headers := {[ "x-1password-connect-token" := "token-a"%string ]} |}.

End Vocabulary.

(* ===================================================================== *)
(** * Vocabulary of the further properties *)
(* ===================================================================== *)

Section MoreVocabulary.

(** The outcome of a call of the interface, without its result. *)
Definition void {A} (m : M A) (net : Net) : Outcome unit :=
  match fst (m net) with
  | Returned _ => Returned tt
  | Threw t => Threw t
  end.

(** The client of credentials without a token. *)
Definition anonymous_client : OnePasswordClientImpl :=
  createOnePasswordClient
    {| connectToken := None;
       connectHost := Some "http://connect.test"%string |}.

(** A network that is down. *)
Definition unreachable : Net :=
  fun _ => Threw (ThrowError (new_TypeError "fetch failed")).

Definition configured_env : Env :=
  {| env_CHARACTER_LIMIT := VStr "25000";
     env_DEFAULT_PAGE_SIZE := VStr "many";
     env_MAX_PAGE_SIZE := VUndefined;
     env_AI := VUndefined |}.

Definition rate_limited_30 : Response :=
  {| status := 429;
     resp_headers := {[ "retry-after" := "30"%string ]};
     resp_body := "" |}.

Definition rate_limited_download : Response :=
  {| status := 429; resp_headers := ∅; resp_body := "slow down" |}.

Definition file_bytes : Response :=
  {| status := 200; resp_headers := ∅; resp_body := "not { json" |}.

Definition no_content : Response :=
  {| status := 204; resp_headers := ∅; resp_body := "" |}.

Definition empty_ok : Response :=
  {| status := 200; resp_headers := ∅; resp_body := "" |}.

Definition both_headers_request : Request :=
  {| req_method := "POST";
     req_pathname := "/mcp";
     req_headers :=
       {[ "x-1password-connect-token" := "token-a"%string;
          "x-1password-connect-host" := "http://connect.test"%string ]} |}.

Definition get_mcp_request : Request :=
  {| req_method := "GET"; req_pathname := "/mcp"; req_headers := ∅ |}.

(** An object that hides the [toString] it inherits, as the JSON text
    [{"toString":1}] denotes it; a health answer with such a name, and an
    error answer with such a message. *)
Definition without_text : value := VObj [("toString"%string, VNum 1)].

Definition health_without_text : Response :=
  {| status := 200;
     resp_headers := ∅;
     resp_body :=
       default "" (Json.stringify
                     (VObj [("name"%string, without_text);
                            ("version"%string, VStr "1.2.3")])) |}.

Definition error_without_text : Response :=
  {| status := 500;
     resp_headers := ∅;
     resp_body :=
       default "" (Json.stringify
                     (VObj [("message"%string, without_text)])) |}.

(** A network that rejects with a value that is no error and has no
    text. *)
Definition rejecting_without_text : Net :=
  fun _ => Threw (ThrowValue without_text).

(** A stand-in for the texts with an exponent, which the sizes of these
    runs do not reach. *)
Definition no_exponent_form (_ _ : Z) : string := "".

(** Stand-ins for the two fields that the record of errors does not
    carry. *)
Definition no_stack (_ : Error) : value := VUndefined.
Definition no_details (_ : Error) : value := VObj [].

(** The outcome of each call of the interface. *)
Definition call_outcome (encodeURIComponent form_urlencode : string -> string)
    (JSON_parse : string -> Outcome value) (self : OnePasswordClientImpl)
    (call : Call) (net : Net) : Outcome unit :=
  match call with
  | TestConnection => void (testConnection JSON_parse self) net
  | GetHealth => void (getHealth JSON_parse self) net
  | Heartbeat => void (heartbeat self) net
  | ListVaults filter =>
      void (listVaults form_urlencode JSON_parse self filter) net
  | GetVault vaultId =>
      void (getVault encodeURIComponent JSON_parse self vaultId) net
  | ListItems vaultId filter =>
      void (listItems encodeURIComponent form_urlencode JSON_parse self
              vaultId filter) net
  | GetItem vaultId itemId =>
      void (getItem encodeURIComponent JSON_parse self vaultId itemId) net
  | CreateItem vaultId item =>
      void (createItem encodeURIComponent JSON_parse self vaultId item) net
  | UpdateItem vaultId itemId item =>
      void (updateItem encodeURIComponent JSON_parse self vaultId itemId item)
        net
  | PatchItem vaultId itemId operations =>
      void (patchItem encodeURIComponent JSON_parse self vaultId itemId
              operations) net
  | DeleteItem vaultId itemId =>
      void (deleteItem encodeURIComponent JSON_parse self vaultId itemId) net
  | ListFiles vaultId itemId inlineContent =>
      void (listFiles encodeURIComponent form_urlencode JSON_parse self
              vaultId itemId inlineContent) net
  | GetFile vaultId itemId fileId inlineContent =>
      void (getFile encodeURIComponent form_urlencode JSON_parse self
              vaultId itemId fileId inlineContent) net
  | GetFileContent vaultId itemId fileId =>
      void (getFileContent encodeURIComponent self vaultId itemId fileId) net
  | ListActivity params =>
      void (listActivity form_urlencode JSON_parse self params) net
  end.

(** The text of what was thrown, as [formatError] reads it, and whether
    [formatError] marks it as retryable. *)
Definition thrown_text (t : Thrown) : Outcome string :=
  match t with
  | ThrowError e => Returned e.(message)
  | ThrowValue v => ToString v
  end.

Definition marked_retryable (t : Thrown) : bool :=
  match t with
  | ThrowError e =>
      instanceof_OnePasswordApiError e && default false e.(retryable)
  | ThrowValue _ => false
  end.

(** A handler returned a block, which is flagged as an error exactly when
    the call threw. *)
Definition reports {A} (handler : Outcome ToolResponse) (call : Outcome A)
  : Prop :=
  exists r,
    handler = Returned r
    /\ (r.(isError) = Some true <-> exists t, call = Threw t).

(** What a function of the platform throws is an error object, as what
    [fetch] rejects with and what [JSON.parse] throws are. *)
Definition throws_errors {A B} (f : A -> Outcome B) : Prop :=
  forall a t, f a = Threw t -> exists e, t = ThrowError e.

(** The request with other headers. *)
Definition with_headers (headers : gmap string string) (request : Request)
  : Request :=
  {| req_method := request.(req_method);
     req_pathname := request.(req_pathname);
     req_headers := headers |}.

(** The error of [getAuthHeaders] without a token. *)
Definition no_token_error : Error :=
  new_AuthenticationError
    "No Connect token provided. Include X-1Password-Connect-Token header.".

End MoreVocabulary.


(* ===================================================================== *)
(** * Properties *)
(* ===================================================================== *)

(** ** JSON texts: what [JSON.parse] reads back from [JSON.stringify] *)

Section JsonFacts.
Import Json.

Lemma skip_ws_app w s : all_ws w = true -> skip_ws (w ++ s) = skip_ws s.
Proof.
  induction w as [|c w IH]; simpl; [done|].
  intros [Hc Hw]%andb_prop. rewrite Hc. auto.
Qed.

Lemma skip_ws_head c s : is_ws c = false -> skip_ws (c :: s) = c :: s.
Proof. simpl. by intros ->. Qed.

Lemma all_ws_app w1 w2 :
  all_ws w1 = true -> all_ws w2 = true -> all_ws (w1 ++ w2) = true.
Proof. unfold all_ws. rewrite forallb_app. by intros -> ->. Qed.

Lemma all_ws_gap_of n : all_ws (gap_of n) = true.
Proof.
  unfold gap_of. induction (Nat.min 10 n); simpl; auto.
Qed.

(** *** Numbers *)

Lemma digit_of_uint_chars u rest :
  tail_ok rest -> parse_digits (uint_chars u ++ rest) = (u, rest).
Proof.
  intros Hrest. induction u; simpl; try (rewrite IHu; reflexivity).
  destruct rest as [|c r]; simpl in *; [done|]. by rewrite Hrest.
Qed.

Lemma nzhead_not_D0 u v : Decimal.nzhead u <> Decimal.D0 v.
Proof. induction u; simpl; congruence. Qed.

Lemma unorm_int_ok u : Decimal.unorm u = u -> int_ok u = true.
Proof.
  unfold Decimal.unorm. destruct u; simpl; try done.
  intros H. destruct (Decimal.nzhead u) eqn:E; try by inversion H.
  exfalso. eapply nzhead_not_D0. rewrite E. exact H.
Qed.

Lemma to_int_norm z : Decimal.norm (Z.to_int z) = Z.to_int z.
Proof. rewrite <- (DecimalZ.to_of (Z.to_int z)). by rewrite DecimalZ.of_to. Qed.

Lemma parse_number_Z_chars z rest :
  tail_ok rest -> parse_number (Z_chars z ++ rest) = Some (z, rest).
Proof.
  intros Hrest. unfold Z_chars.
  pose proof (to_int_norm z) as Hn. pose proof (DecimalZ.of_to z) as Hz.
  destruct (Z.to_int z) as [u|u] eqn:E.
  - simpl in Hn. injection Hn as Hn.
    pose proof (unorm_int_ok _ Hn) as Hok.
    unfold parse_number.
    destruct u; try done;
      simpl; rewrite digit_of_uint_chars by done;
      simpl in Hok |- *; try rewrite Hok; by rewrite <- Hz.
  - simpl in Hn.
    assert (Decimal.unorm u = u) as Hu.
    { unfold Decimal.unorm. destruct (Decimal.nzhead u); try congruence. }
    pose proof (unorm_int_ok _ Hu) as Hok.
    simpl. rewrite digit_of_uint_chars by done.
    by rewrite Hok, <- Hz.
Qed.

(** *** Strings *)

Lemma parse_string_quote_char c t :
  parse_string (quote_char c ++ t)
  = match parse_string t with
    | Some (u, r) => Some (c :: u, r)
    | None => None
    end.
Proof.
  destruct c as [[] [] [] [] [] [] [] []]; reflexivity.
Qed.

Lemma parse_string_quoted l rest :
  parse_string (flat_map quote_char l ++ "034"%char :: rest) = Some (l, rest).
Proof.
  induction l as [|c l IH]; [reflexivity|].
  change (flat_map quote_char (c :: l))
    with (quote_char c ++ flat_map quote_char l).
  rewrite <- app_assoc, parse_string_quote_char. by rewrite IH.
Qed.

Lemma quote_parse k rest :
  exists t, quote k ++ rest = "034"%char :: t
            /\ parse_string t = Some (chars k, rest).
Proof.
  unfold quote.
  exists (flat_map quote_char (chars k) ++ "034"%char :: rest).
  split; [|apply parse_string_quoted].
  simpl. by rewrite <- app_assoc.
Qed.

(** *** The first character of a text *)

Lemma uint_chars_head u :
  u <> Decimal.Nil ->
  exists c r, uint_chars u = c :: r /\ In c num_chars.
Proof.
  destruct u; [done|..]; intros _; do 2 eexists; (split; [reflexivity|]);
    cbv; tauto.
Qed.

Lemma Z_chars_head z :
  exists c r, Z_chars z = c :: r /\ In c num_chars.
Proof.
  unfold Z_chars. pose proof (to_int_norm z) as Hn.
  destruct (Z.to_int z) as [u|u].
  - apply uint_chars_head. intros ->. discriminate Hn.
  - do 2 eexists. split; [reflexivity|]. cbv; tauto.
Qed.

Lemma wrap_head o c gap sb ind partial :
  exists r, wrap o c gap sb ind partial = o :: r.
Proof. destruct partial, gap; simpl; eauto. Qed.

Lemma ser_head gap indent v s :
  ser gap indent v = Some s ->
  exists c r, s = c :: r /\ In c start_chars.
Proof.
  destruct v as [| |[]| | | |]; simpl; intros H; try discriminate;
    injection H as <-.
  1-3: do 2 eexists; (split; [reflexivity|]); cbv; tauto.
  - destruct (Z_chars_head n) as (c & r & -> & Hin).
    exists c, r. split; [done|].
    apply (in_or_app ("034"%char :: chars "ntf[{") num_chars). by right.
  - do 2 eexists; (split; [reflexivity|]); cbv; tauto.
  - edestruct wrap_head as [r ->].
    do 2 eexists; (split; [reflexivity|]); cbv; tauto.
  - edestruct wrap_head as [r ->].
    do 2 eexists; (split; [reflexivity|]); cbv; tauto.
Qed.

Lemma start_chars_spec c :
  In c start_chars ->
  is_ws c = false /\ Ascii.eqb c "]" = false /\ Ascii.eqb c "}" = false.
Proof.
  intros H. cbv in H.
  repeat (destruct H as [<-|H]; [by cbv|]). done.
Qed.

Lemma ser_None gap indent v : ser gap indent v = None -> v = VUndefined.
Proof. by destruct v as [| |[]| | | |]. Qed.

(** *** Unfolding the parser *)

Lemma parse_value_ws fuel w s :
  all_ws w = true -> parse_value fuel (w ++ s) = parse_value fuel s.
Proof.
  intros Hw. destruct fuel; [done|]. simpl. by rewrite skip_ws_app.
Qed.

Lemma parse_elems_ws fuel w s :
  all_ws w = true -> parse_elems fuel (w ++ s) = parse_elems fuel s.
Proof.
  intros Hw. destruct fuel; [done|]. simpl. by rewrite parse_value_ws.
Qed.

Lemma parse_members_ws fuel w s acc :
  all_ws w = true -> parse_members fuel (w ++ s) acc = parse_members fuel s acc.
Proof.
  intros Hw. destruct fuel; [done|]. simpl. by rewrite skip_ws_app.
Qed.

Lemma parse_value_number f z rest :
  tail_ok rest ->
  parse_value (S f) (Z_chars z ++ rest) = Some (VNum z, rest).
Proof.
  intros Hrest.
  transitivity ('(n, r') ← parse_number (Z_chars z ++ rest);
                Some (VNum n, r')).
  - destruct (Z_chars_head z) as (c & r & -> & Hin). cbv in Hin.
    repeat (destruct Hin as [<-|Hin]; [reflexivity|]). done.
  - by rewrite parse_number_Z_chars.
Qed.

(** *** Arrays and objects *)

Lemma all_ws_sep gap x : all_ws x = true -> all_ws (sep gap x) = true.
Proof. by destruct gap. Qed.

Lemma wrap_nonempty o c gap sb ind partial :
  partial <> [] ->
  wrap o c gap sb ind partial
  = o :: sep gap ind ++ join ("," :: sep gap ind)%char partial
      ++ sep gap sb ++ [c].
Proof.
  destruct partial as [|p partial]; [done|]. intros _.
  destruct gap; simpl; [|reflexivity].
  by destruct partial.
Qed.

Lemma ser_VArr gap indent l :
  ser gap indent (VArr l)
  = Some (wrap "[" "]" gap indent (indent ++ gap)
            (map (pr gap (indent ++ gap)) l)).
Proof. reflexivity. Qed.

Lemma ser_VObj gap indent l :
  ser gap indent (VObj l)
  = Some (wrap "{" "}" gap indent (indent ++ gap)
            (map (mem gap (indent ++ gap)) (present l))).
Proof.
  simpl. do 2 f_equal.
  induction l as [|[k x] l IH]; [reflexivity|].
  destruct x as [| |[]| | | |]; simpl; rewrite IH; reflexivity.
Qed.

Lemma norm_VArr l : norm (VArr l) = VArr (map norm_elem l).
Proof. reflexivity. Qed.

Lemma norm_VObj l :
  norm (VObj l) = VObj (map (fun kv => (kv.1, norm kv.2)) (present l)).
Proof.
  simpl. f_equal.
  induction l as [|[k x] l IH]; [reflexivity|].
  destruct x; simpl; rewrite IH; reflexivity.
Qed.

Lemma pr_length gap ind x : (1 <= length (pr gap ind x))%nat.
Proof.
  unfold pr. destruct (ser gap ind x) as [s|] eqn:E; [|simpl; lia].
  destruct (ser_head _ _ _ _ E) as (c & r & -> & _). simpl. lia.
Qed.

Lemma pr_head gap ind x :
  exists c r, pr gap ind x = c :: r /\ In c start_chars.
Proof.
  unfold pr. destruct (ser gap ind x) as [s|] eqn:E.
  - eapply ser_head, E.
  - do 2 eexists. split; [reflexivity|]. cbv; tauto.
Qed.

Lemma elem_parse gap ind x fuel rest :
  Roundtrip x -> well_keyed x = true ->
  all_ws gap = true -> all_ws ind = true ->
  (length (pr gap ind x) <= fuel)%nat -> tail_ok rest ->
  parse_value fuel (pr gap ind x ++ rest) = Some (norm_elem x, rest).
Proof.
  intros IH Hk Hg Hi Hfuel Hrest. unfold pr in *.
  destruct (ser gap ind x) as [s|] eqn:E.
  - rewrite (IH gap ind s fuel rest) by done.
    by destruct x.
  - apply ser_None in E as ->.
    destruct fuel; [simpl in Hfuel; lia|]. reflexivity.
Qed.

Lemma tail_ok_comma s : tail_ok (","%char :: s).
Proof. reflexivity. Qed.

Lemma tail_ok_close gap sb c s :
  c = "]"%char \/ c = "}"%char -> tail_ok (sep gap sb ++ c :: s).
Proof. destruct gap; intros [-> | ->]; reflexivity. Qed.

Lemma elems_parse gap ind sb l :
  l <> [] -> Forall Roundtrip l -> forallb well_keyed l = true ->
  all_ws gap = true -> all_ws ind = true -> all_ws sb = true ->
  forall fuel rest,
    (length (join ("," :: sep gap ind)%char (map (pr gap ind) l)) < fuel)%nat ->
    parse_elems fuel
      (join ("," :: sep gap ind)%char (map (pr gap ind) l)
         ++ sep gap sb ++ "]"%char :: rest)
    = Some (map norm_elem l, rest).
Proof.
  intros Hne HIH Hk Hg Hi Hsb.
  induction l as [|x l IHl]; [done|].
  apply Forall_cons in HIH as [Hx HIH].
  simpl in Hk. apply andb_prop in Hk as [Hkx Hk].
  intros fuel rest Hfuel. destruct fuel as [|f]; [lia|].
  destruct l as [|y l].
  - simpl in Hfuel |- *.
    rewrite elem_parse by (try done; try lia; by apply tail_ok_close; left).
    simpl. rewrite skip_ws_app by by apply all_ws_sep.
    reflexivity.
  - change (join ("," :: sep gap ind)%char (map (pr gap ind) (x :: y :: l)))
      with (pr gap ind x ++ ("," :: sep gap ind)%char
              ++ join ("," :: sep gap ind)%char (map (pr gap ind) (y :: l)))
      in *.
    specialize (IHl ltac:(done) HIH Hk).
    remember (join ("," :: sep gap ind)%char (map (pr gap ind) (y :: l)))
      as J eqn:EJ.
    rewrite !length_app in Hfuel. simpl in Hfuel.
    rewrite <- !app_assoc. simpl.
    rewrite elem_parse by (try done; try lia; apply tail_ok_comma).
    simpl.
    rewrite parse_elems_ws by by apply all_ws_sep.
    rewrite IHl by lia. reflexivity.
Qed.

Lemma parse_members_step f k body acc :
  parse_members (S f) (quote k ++ ":"%char :: body) acc
  = '(v, r3) ← parse_value f body;
    match skip_ws r3 with
    | c3 :: r4 =>
        if Ascii.eqb c3 "," then parse_members f r4 (obj_set k v acc)
        else if Ascii.eqb c3 "}" then Some (obj_set k v acc, r4)
        else None
    | [] => None
    end.
Proof.
  destruct (quote_parse k (":"%char :: body)) as (t & -> & Hp).
  simpl. rewrite Hp. simpl. unfold chars.
  rewrite string_of_list_ascii_of_string. reflexivity.
Qed.

Lemma obj_set_fresh k v (acc : list (string * value)) :
  k ∉ acc.*1 -> obj_set k v acc = acc ++ [(k, v)].
Proof.
  induction acc as [|[k' v'] acc IH]; [done|].
  rewrite fmap_cons, not_elem_of_cons. intros [Hne Hnin]. simpl.
  destruct (String.eqb_spec k k') as [->|_]; [done|].
  by rewrite IH.
Qed.

Lemma fold_obj_set (l acc : list (string * value)) :
  NoDup (acc.*1 ++ l.*1) ->
  fold_left (fun a kv => obj_set kv.1 (norm kv.2) a) l acc
  = acc ++ map (fun kv => (kv.1, norm kv.2)) l.
Proof.
  revert acc. induction l as [|[k x] l IH]; intros acc Hnd; simpl.
  - by rewrite app_nil_r.
  - rewrite fmap_cons in Hnd. simpl in Hnd.
    assert (k ∉ acc.*1) as Hk.
    { apply NoDup_app in Hnd as (_ & Hd & _). intros Hin.
      apply (Hd k Hin). left. }
    rewrite obj_set_fresh by done.
    rewrite IH.
    + by rewrite <- app_assoc.
    + rewrite fmap_app. simpl. by rewrite <- app_assoc.
Qed.

Lemma mem_app gap ind k x tail :
  mem gap ind (k, x) ++ tail
  = quote k ++ ":"%char
      :: (match gap with [] => [] | _ => [" "%char] end
            ++ pr gap ind x ++ tail).
Proof.
  unfold mem. cbn [fst snd].
  rewrite <- app_assoc. f_equal. cbn [app]. f_equal.
  by rewrite <- app_assoc.
Qed.

Lemma mem_length gap ind k x :
  (length (pr gap ind x) < length (mem gap ind (k, x)))%nat.
Proof.
  unfold mem. cbn [fst snd]. rewrite length_app. cbn [length].
  rewrite length_app. lia.
Qed.

Lemma members_parse gap ind sb l :
  l <> [] ->
  Forall (fun kv => Roundtrip kv.2) l ->
  Forall (fun kv => kv.2 <> VUndefined) l ->
  Forall (fun kv => well_keyed kv.2 = true) l ->
  all_ws gap = true -> all_ws ind = true -> all_ws sb = true ->
  forall fuel rest acc,
    (length (join ("," :: sep gap ind)%char (map (mem gap ind) l)) < fuel)%nat ->
    parse_members fuel
      (join ("," :: sep gap ind)%char (map (mem gap ind) l)
         ++ sep gap sb ++ "}"%char :: rest) acc
    = Some (fold_left (fun a kv => obj_set kv.1 (norm kv.2) a) l acc, rest).
Proof.
  intros Hne HIH Hdef Hk Hg Hi Hsb.
  induction l as [|[k x] l IHl]; [done|].
  apply Forall_cons in HIH as [Hx HIH].
  apply Forall_cons in Hdef as [Hdx Hdef].
  apply Forall_cons in Hk as [Hkx Hk]. simpl in Hx, Hdx, Hkx.
  assert (norm_elem x = norm x) as Hnx by by destruct x.
  assert (all_ws match gap with [] => [] | _ => [" "%char] end = true)
    as Hsp by by destruct gap.
  pose proof (mem_length gap ind k x) as Hlen.
  intros fuel rest acc Hfuel. destruct fuel as [|f]; [lia|].
  destruct l as [|y l].
  - change (join ("," :: sep gap ind)%char (map (mem gap ind) [(k, x)]))
      with (mem gap ind (k, x)) in *.
    rewrite mem_app, parse_members_step, parse_value_ws by done.
    rewrite elem_parse by (try done; try lia; by apply tail_ok_close; right).
    cbn [mbind option_bind].
    rewrite skip_ws_app by by apply all_ws_sep.
    cbn. by rewrite Hnx.
  - change (join ("," :: sep gap ind)%char (map (mem gap ind) ((k, x) :: y :: l)))
      with (mem gap ind (k, x) ++ ("," :: sep gap ind)%char
              ++ join ("," :: sep gap ind)%char (map (mem gap ind) (y :: l)))
      in *.
    specialize (IHl ltac:(done) HIH Hdef Hk).
    remember (join ("," :: sep gap ind)%char (map (mem gap ind) (y :: l)))
      as J eqn:EJ.
    rewrite !length_app in Hfuel. cbn [length] in Hfuel.
    rewrite <- !app_assoc. cbn [app].
    rewrite mem_app, parse_members_step, parse_value_ws by done.
    rewrite elem_parse by (try done; try lia; apply tail_ok_comma).
    cbn [mbind option_bind app skip_ws is_ws].
    cbn.
    rewrite parse_members_ws by by apply all_ws_sep.
    rewrite IHl by lia. by rewrite Hnx.
Qed.

Lemma join_pr_head sp gap ind l :
  l <> [] ->
  exists c r, join sp (map (pr gap ind) l) = c :: r /\ In c start_chars.
Proof.
  destruct l as [|x l]; [done|]. intros _.
  destruct (pr_head gap ind x) as (c & r & E & Hc).
  destruct l as [|y l]; simpl; rewrite E; eauto.
Qed.

Lemma join_mem_head sp gap ind l :
  l <> [] ->
  exists r, join sp (map (mem gap ind) l) = "034"%char :: r.
Proof.
  destruct l as [|[k x] l]; [done|]. intros _.
  destruct l as [|y l]; simpl; eauto.
Qed.

Lemma parse_value_array f w c r :
  all_ws w = true -> is_ws c = false -> Ascii.eqb c "]" = false ->
  parse_value (S f) ("["%char :: w ++ c :: r)
  = '(l, r'') ← parse_elems f (c :: r); Some (VArr l, r'').
Proof.
  intros Hw Hc Hb. cbn [parse_value skip_ws is_ws Ascii.eqb Bool.eqb orb].
  rewrite skip_ws_app, skip_ws_head by done. by rewrite Hb.
Qed.

Lemma parse_value_object f w c r :
  all_ws w = true -> is_ws c = false -> Ascii.eqb c "}" = false ->
  parse_value (S f) ("{"%char :: w ++ c :: r)
  = '(o, r'') ← parse_members f (c :: r) []; Some (VObj o, r'').
Proof.
  intros Hw Hc Hb. cbn [parse_value skip_ws is_ws Ascii.eqb Bool.eqb orb].
  rewrite skip_ws_app, skip_ws_head by done. by rewrite Hb.
Qed.

Lemma fresh_spec k (l : list (string * value)) :
  fresh k l = true -> k ∉ l.*1.
Proof.
  induction l as [|[k' x] l IH]; simpl.
  - intros _. apply not_elem_of_nil.
  - intros [Hne Hf]%andb_prop. rewrite not_elem_of_cons. split; [|auto].
    intros ->. by rewrite String.eqb_refl in Hne.
Qed.

Lemma well_keyed_VObj l :
  well_keyed (VObj l) = true ->
  NoDup l.*1 /\ Forall (fun kv => well_keyed kv.2 = true) l.
Proof.
  simpl. induction l as [|[k x] l IH].
  - intros _. split; constructor.
  - intros [[Hf Hx]%andb_prop Hl]%andb_prop.
    destruct (IH Hl) as [Hnd Hall]. split.
    + rewrite fmap_cons. constructor; [by apply fresh_spec|done].
    + by constructor.
Qed.

Lemma present_keys (l : list (string * value)) k :
  k ∈ (present l).*1 -> k ∈ l.*1.
Proof.
  induction l as [|[k' x] l IH]; [done|].
  rewrite fmap_cons. destruct x; simpl;
    rewrite ?fmap_cons, ?elem_of_cons; simpl; intuition.
Qed.

Lemma present_NoDup (l : list (string * value)) :
  NoDup l.*1 -> NoDup (present l).*1.
Proof.
  induction l as [|[k x] l IH]; [done|].
  rewrite fmap_cons. intros [Hk Hl]%NoDup_cons.
  assert (NoDup ((k, x) :: present l).*1).
  { rewrite fmap_cons. constructor; [|auto].
    intros Hin. by apply Hk, present_keys. }
  destruct x; simpl; auto.
Qed.

Lemma present_Forall (P : string * value -> Prop) l :
  Forall P l -> Forall P (present l).
Proof.
  induction 1 as [|[k x] l Hx Hl IH]; [constructor|].
  destruct x; simpl; auto.
Qed.

Lemma present_defined l :
  Forall (fun kv => kv.2 <> VUndefined) (present l).
Proof.
  induction l as [|[k x] l IH]; [constructor|].
  destruct x; simpl; auto.
Qed.

(** Every value reads back from its text as its normal form. *)
Lemma roundtrip_all v : Roundtrip v.
Proof.
  induction v as [| |b|n|s0|l IH|l IH] using value_ind;
    intros gap indent s fuel rest Hk Hg Hi Hser Hfuel Hrest.
  - discriminate Hser.
  - injection Hser as <-. destruct fuel; [simpl in Hfuel; lia|]. reflexivity.
  - destruct b; injection Hser as <-;
      (destruct fuel; [simpl in Hfuel; lia|]); reflexivity.
  - injection Hser as <-.
    destruct fuel.
    { destruct (Z_chars_head n) as (c & r & E & _). rewrite E in Hfuel.
      simpl in Hfuel. lia. }
    by apply parse_value_number.
  - injection Hser as <-. destruct fuel; [simpl in Hfuel; lia|].
    destruct (quote_parse s0 rest) as (t & -> & Hp).
    cbn [parse_value skip_ws is_ws Ascii.eqb Bool.eqb orb].
    rewrite Hp. cbn. unfold chars.
    by rewrite string_of_list_ascii_of_string.
  - rewrite ser_VArr in Hser. injection Hser as <-. rewrite norm_VArr.
    destruct fuel.
    { edestruct wrap_head as [r Er]. rewrite Er in Hfuel.
      simpl in Hfuel. lia. }
    destruct (decide (l = [])) as [->|Hne]; [reflexivity|].
    assert (map (pr gap (indent ++ gap)) l <> []) as Hne'
      by by destruct l.
    rewrite wrap_nonempty in Hfuel |- * by done.
    assert (all_ws (indent ++ gap) = true) as Hi' by by apply all_ws_app.
    pose proof (elems_parse gap (indent ++ gap) indent l Hne IH Hk Hg Hi' Hi
                  fuel rest) as Hel.
    destruct (join_pr_head ("," :: sep gap (indent ++ gap))%char
                gap (indent ++ gap) l Hne) as (c & r & E & Hc).
    apply start_chars_spec in Hc as (Hc1 & Hc2 & _).
    cbn [length] in Hfuel. rewrite !length_app in Hfuel.
    cbn [length] in Hfuel.
    rewrite E in *. cbn [length] in Hfuel, Hel.
    repeat first [rewrite <- app_assoc | progress cbn [app]].
    rewrite parse_value_array by (try done; by apply all_ws_sep).
    rewrite <- ?app_assoc in Hel. cbn [app] in Hel.
    rewrite Hel by lia. reflexivity.
  - rewrite ser_VObj in Hser. injection Hser as <-. rewrite norm_VObj.
    destruct fuel.
    { edestruct wrap_head as [r Er]. rewrite Er in Hfuel.
      simpl in Hfuel. lia. }
    destruct (decide (present l = [])) as [->|Hne]; [reflexivity|].
    assert (map (mem gap (indent ++ gap)) (present l) <> []) as Hne'
      by by destruct (present l).
    rewrite wrap_nonempty in Hfuel |- * by done.
    assert (all_ws (indent ++ gap) = true) as Hi' by by apply all_ws_app.
    apply well_keyed_VObj in Hk as [Hnd Hk].
    pose proof (members_parse gap (indent ++ gap) indent (present l) Hne
                  (present_Forall _ _ IH) (present_defined l)
                  (present_Forall _ _ Hk) Hg Hi' Hi fuel rest []) as Hel.
    destruct (join_mem_head ("," :: sep gap (indent ++ gap))%char
                gap (indent ++ gap) (present l) Hne) as (r & E).
    cbn [length] in Hfuel. rewrite !length_app in Hfuel.
    cbn [length] in Hfuel.
    rewrite E in *. cbn [length] in Hfuel, Hel.
    repeat first [rewrite <- app_assoc | progress cbn [app]].
    rewrite parse_value_object by (try done; by apply all_ws_sep).
    rewrite <- ?app_assoc in Hel. cbn [app] in Hel.
    rewrite Hel by lia.
    rewrite fold_obj_set by (by apply present_NoDup).
    reflexivity.
Qed.

(** [JSON.parse(JSON.stringify(v, null, space))] is the normal form of
    [v]. *)
Lemma parse_stringify space v s :
  well_keyed v = true ->
  stringify_indent space v = Some s ->
  parse s = Some (norm v).
Proof.
  unfold stringify_indent, parse. intros Hk Hs.
  destruct (ser (gap_of space) [] v) as [l|] eqn:E; [|done].
  injection Hs as <-. unfold chars.
  rewrite list_ascii_of_string_of_list_ascii.
  pose proof (roundtrip_all v (gap_of space) [] l (S (length l)) [] Hk
                (all_ws_gap_of space) eq_refl E ltac:(lia) I) as H.
  rewrite app_nil_r in H. by rewrite H.
Qed.

Lemma norm_defined v : defined v = true -> norm v = v.
Proof.
  induction v as [| |b|n|s0|l IH|l IH] using value_ind; try done.
  - simpl. intros Hd. f_equal.
    induction IH as [|x l Hx _ IHl]; [done|].
    simpl in Hd. apply andb_prop in Hd as [Hdx Hd].
    simpl. rewrite IHl by done. f_equal.
    destruct x; try done; by apply Hx.
  - simpl. intros Hd. f_equal.
    induction IH as [|[k x] l Hx _ IHl]; [done|].
    apply andb_prop in Hd as [Hdx Hd].
    rewrite IHl by done. simpl in Hx.
    destruct x; try done; by rewrite Hx.
Qed.

Lemma stringify_defined space v :
  v <> VUndefined -> is_Some (stringify_indent space v).
Proof.
  unfold stringify_indent. intros Hv.
  destruct (ser (gap_of space) [] v) eqn:E; [by eexists|].
  by apply ser_None in E.
Qed.
End JsonFacts.

(** ** The client *)

Section ClientFacts.
Variable encodeURIComponent : string -> string.
Variable form_urlencode : string -> string.
Variable JSON_parse : string -> Outcome value.

Local Abbreviation request := (Client.request JSON_parse).
Local Abbreviation requestRaw := (Client.requestRaw).
Local Abbreviation getHealth := (Client.getHealth JSON_parse).
Local Abbreviation testConnection := (Client.testConnection JSON_parse).
Local Abbreviation createItem := (Client.createItem encodeURIComponent JSON_parse).
Local Abbreviation patchItem := (Client.patchItem encodeURIComponent JSON_parse).
Local Abbreviation listActivity := (Client.listActivity form_urlencode JSON_parse).
Local Abbreviation activity_endpoint := (Client.activity_endpoint form_urlencode).
Local Abbreviation outbound :=
  (Client.outbound encodeURIComponent form_urlencode JSON_parse).

Lemma getAuthHeaders_token self :
  getAuthHeaders self
  = if truthy_str self.(credentials).(connectToken)
    then Returned (auth_headers (default "" self.(credentials).(connectToken)))
    else Threw (ThrowError (new_AuthenticationError
           "No Connect token provided. Include X-1Password-Connect-Token header.")).
Proof. unfold getAuthHeaders. by destruct (truthy_str _). Qed.

Lemma request_log self endpoint options net :
  snd (request self endpoint options net) = issued self endpoint options.
Proof.
  unfold Client.request, issued, mbind, M_bind, lift, fetch, throw, lift.
  destruct (getAuthHeaders self) as [auth|t]; [|reflexivity].
  destruct (net _) as [response|t]; [|reflexivity].
  repeat match goal with
         | |- context [if ?b then _ else _] => destruct b
         end; try reflexivity.
  all: destruct (try_catch _ _) as [m|t]; [|reflexivity].
  all: by destruct (ToString m).
Qed.

Lemma requestRaw_log self endpoint options net :
  snd (requestRaw self endpoint options net) = issued self endpoint options.
Proof.
  unfold Client.requestRaw, issued, mbind, M_bind, lift, fetch, throw, lift.
  destruct (getAuthHeaders self) as [auth|t]; [|reflexivity].
  destruct (net _) as [response|t]; [|reflexivity].
  repeat match goal with
         | |- context [if ?b then _ else _] => destruct b
         end; reflexivity.
Qed.

Lemma heartbeat_log self net :
  snd (Client.heartbeat self net) = issued self "/heartbeat" no_options.
Proof.
  unfold Client.heartbeat, issued, mbind, M_bind, lift, fetch, throw, lift.
  destruct (getAuthHeaders self) as [auth|t]; [|reflexivity].
  assert (with_auth no_options auth
          = {| method := None; headers := Some auth; body := None |}) as ->.
  { unfold with_auth. simpl. by rewrite (left_id_L ∅ (∪)). }
  destruct (net _) as [response|t]; [|reflexivity].
  by destruct (negb (ok response)).
Qed.

(** The outcome of [request] when the client has a token and the
    backend answers every call with [response]. *)
Ltac answered Htok Hnet :=
  unfold Client.request, mbind, M_bind, lift, fetch, throw, lift;
  rewrite getAuthHeaders_token, Htok, Hnet.

Lemma error_message_default errorBody message :
  (exists t, JSON_parse errorBody = Threw t)
  \/ (exists j, JSON_parse errorBody = Returned j
                /\ lacks "message" j /\ lacks "error" j) ->
  try_catch (error_message JSON_parse errorBody message)
    (fun _ => Returned message) = Returned message.
Proof.
  unfold error_message, mbind, Outcome_bind.
  intros [[t ->]|(j & -> & Hm & He)]; [reflexivity|].
  destruct j; simpl in *; try reflexivity.
  by rewrite Hm, He.
Qed.

(** The errors of the statuses 401, 403, 404 and 429, the last with the
    seconds of a [Retry-After] header that is missing, empty or starts
    with an integer. *)
Lemma request_status_errors self endpoint options net response :
  truthy_str self.(credentials).(connectToken) = true ->
  (forall call, net call = Returned response) ->
  (response.(status) = 401 ->
   fst (request self endpoint options net)
   = Threw (ThrowError
       {| cls := AuthenticationErrorC; name := "AuthenticationError";
          message := "Authentication failed. Check your Connect token.";
          statusCode := Some 401; code := Some "AUTHENTICATION_FAILED"%string;
          retryable := Some false; retryAfterSeconds := None |}))
  /\ (response.(status) = 403 ->
      fst (request self endpoint options net)
      = Threw (ThrowError
          {| cls := AuthorizationErrorC; name := "AuthorizationError";
             message :=
               "Authorization failed. Check your service account permissions.";
             statusCode := Some 403;
             code := Some "AUTHORIZATION_FAILED"%string;
             retryable := Some false; retryAfterSeconds := None |}))
  /\ (response.(status) = 404 ->
      fst (request self endpoint options net)
      = Threw (ThrowError
          {| cls := NotFoundErrorC; name := "NotFoundError";
             message := "Resource with ID '" +:+ endpoint +:+ "' not found";
             statusCode := Some 404; code := Some "NOT_FOUND"%string;
             retryable := Some false; retryAfterSeconds := None |}))
  /\ (response.(status) = 429 ->
      exists seconds,
        fst (request self endpoint options net)
        = Threw (ThrowError
            {| cls := RateLimitErrorC; name := "RateLimitError";
               message := "Rate limit exceeded";
               statusCode := Some 429;
               code := Some "RATE_LIMIT_EXCEEDED"%string;
               retryable := Some true;
               retryAfterSeconds := Some seconds |})
        /\ match Headers_get "Retry-After" response.(resp_headers) with
           | None => seconds = Num 60
           | Some header =>
               if String.eqb header "" then seconds = Num 60
               else seconds = parseInt10 header
           end).
Proof.
  intros Htok Hnet. repeat split; intros Hs; answered Htok Hnet;
    rewrite Hs; cbn -[Headers_get parseInt10]; try reflexivity.
  eexists. split; [reflexivity|].
  destruct (Headers_get "Retry-After" (resp_headers response)) as [h|];
    [|reflexivity].
  simpl. by destruct (String.eqb h "").
Qed.

(** C8. A response that is not ok, with a status other than 401, 403,
    404 and 429 and a body that [JSON.parse] rejects or that has neither
    a [message] nor an [error] property, makes [request] throw an
    OnePasswordApiError whose message is ["API error: "] followed by the
    status; the failure of the parse is not what is thrown. *)
Theorem request_api_error_default_message
    self endpoint options net response :
  truthy_str self.(credentials).(connectToken) = true ->
  (forall call, net call = Returned response) ->
  ok response = false ->
  mapped_status response.(status) = false ->
  ((exists t, JSON_parse response.(resp_body) = Threw t)
   \/ (exists j, JSON_parse response.(resp_body) = Returned j
                 /\ lacks "message" j /\ lacks "error" j)) ->
  fst (request self endpoint options net)
  = Threw (ThrowError
      {| cls := OnePasswordApiErrorC;
         name := "OnePasswordApiError";
         message := "API error: " +:+ String_of_Z response.(status);
         statusCode := Some response.(status);
         code := Some "ONEPASSWORD_ERROR"%string;
         retryable := Some false;
         retryAfterSeconds := None |}).
Proof.
  intros Htok Hnet Hok Hmapped Hbody. answered Htok Hnet.
  unfold mapped_status in Hmapped.
  apply orb_false_elim in Hmapped as [Hmapped H404].
  apply orb_false_elim in Hmapped as [Hmapped H403].
  apply orb_false_elim in Hmapped as [H429 H401].
  rewrite H429, H401, H403, H404, Hok. cbn [negb].
  rewrite error_message_default by done. reflexivity.
Qed.

(** What a conversion to a string throws is the TypeError of an object
    that hides the [toString] it inherits. *)
Lemma ToString_threw v t :
  ToString v = Threw t -> t = ThrowError no_primitive_value.
Proof.
  revert t. induction v as [| | | | |l IH|o IH] using value_ind;
    intros t; try discriminate.
  - cbn [ToString]. induction IH as [|x r Hx _ IHr]; [discriminate|].
    assert (forall t0,
               match x with
               | VUndefined | VNull => Returned ""%string
               | _ => ToString x
               end = Threw t0 -> t0 = ThrowError no_primitive_value)
      as Hfirst by (destruct x; try discriminate; apply Hx).
    destruct (match x with
              | VUndefined | VNull => Returned ""%string
              | _ => ToString x
              end) as [s|t0]; [|intros [= <-]; by apply Hfirst].
    destruct r as [|y r]; [discriminate|].
    match type of IHr with
    | ?e = _ -> _ => destruct e as [rest|t1]
    end; [discriminate|].
    intros [= <-]. by apply IHr.
  - cbn [ToString]. destruct (obj_get "toString" o); congruence.
Qed.

(** C4 (amended). [testConnection] returns a status record whatever
    [getHealth] does. When [getHealth] throws, the record is not connected
    and carries the message of the error (or "Connection failed" for a
    thrown value that is not an error). When [getHealth] returns a value
    that has properties and whose name and version have a text, the record
    is connected and its message contains those texts; a name and a
    version that are strings are their own texts. When [getHealth] returns
    [undefined] or [null], or a name or a version without a text, the
    record is not connected and carries the message of the TypeError. *)
Theorem testConnection_never_raises self net :
  exists r,
    fst (testConnection self net) = Returned r
    /\ (forall t, fst (getHealth self net) = Threw t ->
        r = {| connected := false;
               status_message := message_or "Connection failed" t |})
    /\ (forall e, fst (getHealth self net) = Threw (ThrowError e) ->
        r = {| connected := false; status_message := e.(message) |})
    /\ (forall h name version n v,
          fst (getHealth self net) = Returned h ->
          get_prop h "name" = Returned name ->
          get_prop h "version" = Returned version ->
          ToString name = Returned n -> ToString version = Returned v ->
          r = {| connected := true;
                 status_message :=
                   "Successfully connected to 1Password Connect server ("
                     +:+ n +:+ " v" +:+ v +:+ ")" |})
    /\ (forall o n v,
          fst (getHealth self net) = Returned (VObj o) ->
          obj_get "name" o = Some (VStr n) ->
          obj_get "version" o = Some (VStr v) ->
          r = {| connected := true;
                 status_message :=
                   "Successfully connected to 1Password Connect server ("
                     +:+ n +:+ " v" +:+ v +:+ ")" |})
    /\ (fst (getHealth self net) = Returned VUndefined ->
        r = {| connected := false;
               status_message :=
                 "Cannot read properties of undefined (reading 'name')" |})
    /\ (fst (getHealth self net) = Returned VNull ->
        r = {| connected := false;
               status_message :=
                 "Cannot read properties of null (reading 'name')" |})
    /\ (forall h name version t,
          fst (getHealth self net) = Returned h ->
          get_prop h "name" = Returned name ->
          get_prop h "version" = Returned version ->
          ToString name = Threw t \/ ToString version = Threw t ->
          r = {| connected := false;
                 status_message :=
                   "Cannot convert object to primitive value" |}).
Proof.
  unfold Client.testConnection, try_catch_async, mbind, M_bind, lift.
  destruct (getHealth self net) as [[h|t] log]; cbn [fst].
  2: { cbn. eexists. split; [reflexivity|].
       repeat split; intros; simplify_eq; reflexivity. }
  destruct (get_prop h "name") as [name|t] eqn:En.
  2: { destruct h; cbn in En; simplify_eq; cbn; eexists;
         (split; [reflexivity|]); repeat split; intros; simplify_eq;
         reflexivity. }
  assert (exists version, get_prop h "version" = Returned version)
    as [version Ev] by (destruct h; by eauto).
  assert (forall o n v,
             h = VObj o -> obj_get "name" o = Some (VStr n) ->
             obj_get "version" o = Some (VStr v) ->
             ToString name = Returned n /\ ToString version = Returned v)
    as Hstrings.
  { intros o n v -> Hn Hv. cbn in En, Ev. rewrite Hn in En. rewrite Hv in Ev.
    by simplify_eq. }
  assert (h <> VUndefined /\ h <> VNull) as [Hu Hn]
    by (split; intros ->; discriminate En).
  rewrite Ev.
  destruct (ToString name) as [n|t] eqn:Etn.
  2: { apply ToString_threw in Etn as Ht. subst t. cbn.
       eexists. split; [reflexivity|].
       repeat split; intros; simplify_eq; try reflexivity; try congruence.
       edestruct Hstrings as [? _]; [done..|congruence]. }
  destruct (ToString version) as [v|t] eqn:Etv.
  2: { apply ToString_threw in Etv as Ht. subst t. cbn.
       eexists. split; [reflexivity|].
       repeat split; intros; simplify_eq; try reflexivity; try congruence.
       edestruct Hstrings as [_ ?]; [done..|congruence]. }
  cbn. eexists. split; [reflexivity|].
  repeat split; intros; simplify_eq; try reflexivity; try congruence.
  - edestruct Hstrings as [? ?]; [done..|congruence].
  - match goal with H : _ \/ _ |- _ => destruct H end; congruence.
Qed.

(** C5. What [listActivity] returns has [hasMore = false] and, when its
    items are an array, the length of that array as its [count], for
    every [limit] and [offset]; and it does return such a page, for
    every array that the backend answers with. *)
Theorem listActivity_page self params net :
  (forall page,
      fst (listActivity self params net) = Returned page ->
      page.(hasMore) = false
      /\ forall l, page.(items) = VArr l ->
                   page.(count) = VNum (Z.of_nat (length l)))
  /\ (forall response l,
        truthy_str self.(credentials).(connectToken) = true ->
        (forall call, net call = Returned response) ->
        ok response = true -> response.(status) <> 204 ->
        JSON_parse response.(resp_body) = Returned (VArr l) ->
        fst (listActivity self params net)
        = Returned {| items := VArr l;
                      count := VNum (Z.of_nat (length l));
                      hasMore := false |}).
Proof.
  split.
  - intros page. unfold Client.listActivity.
    unfold mbind at 1, M_bind at 1.
    destruct (request self (activity_endpoint params) no_options net)
      as [[its|t] log]; [|done].
    unfold mbind, M_bind, lift, mret, M_ret.
    destruct its; cbn; intros H; simplify_eq; split; try done.
    intros l0 [= ->]. reflexivity.
  - intros response l Htok Hnet Hok H204 Hbody.
    unfold Client.listActivity. unfold mbind at 1, M_bind at 1.
    assert (fst (request self (activity_endpoint params) no_options net)
            = Returned (VArr l)) as Hreq.
    { answered Htok Hnet.
      unfold ok in Hok. apply andb_prop in Hok as [Hlo Hhi].
      assert ((status response =? 429) = false) as -> by lia.
      assert ((status response =? 401) = false) as -> by lia.
      assert ((status response =? 403) = false) as -> by lia.
      assert ((status response =? 404) = false) as -> by lia.
      assert ((status response =? 204) = false) as -> by lia.
      unfold ok. rewrite Hlo, Hhi. cbn. by rewrite Hbody. }
    destruct (request self (activity_endpoint params) no_options net)
      as [o log]. cbn in Hreq. subst o. reflexivity.
Qed.

(** *** The payloads of createItem and patchItem *)

Lemma issued_token self endpoint options token :
  self.(credentials).(connectToken) = Some token -> token <> ""%string ->
  issued self endpoint options
  = [{| url := self.(baseUrl) +:+ endpoint;
        init := with_auth options (auth_headers token) |}].
Proof.
  intros Htok Hne. unfold issued. rewrite getAuthHeaders_token, Htok.
  simpl. by destruct (String.eqb_spec token "").
Qed.

Lemma truthy_str_Some o :
  truthy_str o = true -> exists s, o = Some s /\ s <> ""%string.
Proof.
  destruct o as [s|]; [|done]. simpl.
  destruct (String.eqb_spec s ""); [done|]. eauto.
Qed.

Lemma fresh_obj_set k k' v l :
  k <> k' -> fresh k l = true -> fresh k (obj_set k' v l) = true.
Proof.
  intros Hne. induction l as [|[k1 v1] l IH]; simpl.
  - intros _. destruct (String.eqb_spec k k'); done.
  - intros [H1 H2]%andb_prop.
    destruct (String.eqb_spec k' k1) as [->|Hk]; simpl.
    + rewrite H2. by destruct (String.eqb_spec k k1).
    + by rewrite H1, IH.
Qed.

Lemma well_keyed_obj_set k v l :
  well_keyed (VObj l) = true -> well_keyed v = true ->
  well_keyed (VObj (obj_set k v l)) = true.
Proof.
  intros Hl Hv. induction l as [|[k1 v1] l IH]; simpl in *.
  - by rewrite Hv.
  - apply andb_prop in Hl as [[Hf Hv1]%andb_prop Hl].
    destruct (String.eqb_spec k k1) as [->|Hne]; simpl.
    + by rewrite Hf, Hv, Hl.
    + rewrite fresh_obj_set, Hv1, IH by done. done.
Qed.

Lemma obj_get_norm_obj_set k v l sent :
  v <> VUndefined ->
  norm (VObj (obj_set k v l)) = VObj sent ->
  obj_get k sent = Some (norm v).
Proof.
  intros Hv. rewrite norm_VObj. intros [= <-].
  induction l as [|[k1 v1] l IH]; simpl.
  - destruct v; try done; simpl; by rewrite String.eqb_refl.
  - destruct (String.eqb_spec k k1) as [->|Hne]; simpl.
    + destruct v; try done; simpl; by rewrite String.eqb_refl.
    + destruct v1; simpl; try done;
        by destruct (String.eqb_spec k k1).
Qed.



(** C7. The one request of [patchItem] has the method PATCH, the content
    type of JSON Patch and, as its body, the text that [JSON.stringify]
    gives for the array of operations; read back, that text is the array
    itself, element by element. *)
Theorem patchItem_forwards self vaultId itemId operations net :
  truthy_str self.(credentials).(connectToken) = true ->
  exists call b,
    snd (patchItem self vaultId itemId operations net) = [call]
    /\ call.(init).(method) = Some "PATCH"%string
    /\ call.(init).(headers) ≫= (fun h => h !! "Content-Type"%string)
       = Some "application/json-patch+json"%string
    /\ call.(init).(body) = Some b
    /\ Json.stringify (VArr operations) = Some b
    /\ (is_json (VArr operations) = true ->
        Json.parse b = Some (VArr operations)).
Proof.
  intros (token & Htok & Hne)%truthy_str_Some.
  unfold Client.patchItem.
  rewrite request_log, (issued_token _ _ _ token) by done.
  destruct (stringify_defined 0 (VArr operations)) as [b Hb]; [done|].
  eexists _, b. split; [reflexivity|].
  split; [reflexivity|]. split.
  { cbn [init headers with_auth default mbind option_bind].
    by rewrite (lookup_union_Some_l _ _ _ "application/json-patch+json"%string)
      by apply lookup_singleton_eq. }
  split; [done|]. split; [done|].
  intros [Hwk Hdef]%andb_prop.
  rewrite (parse_stringify 0 (VArr operations) b Hwk Hb).
  by rewrite norm_defined.
Qed.

(** *** Tenant isolation *)

Lemma or_undefined_truthy o : truthy_str (or_undefined o) = truthy_str o.
Proof. unfold or_undefined. by destruct (truthy_str o) eqn:E. Qed.

Lemma or_undefined_id o : truthy_str o = true -> or_undefined o = o.
Proof. unfold or_undefined. by intros ->. Qed.

(** Credentials that pass the validation are the two headers as they
    are. *)
Lemma validated_credentials request u :
  validateCredentials (parseTenantCredentials request) = Returned u ->
  parseTenantCredentials request
  = {| connectToken :=
         Headers_get "X-1Password-Connect-Token" request.(req_headers);
       connectHost :=
         Headers_get "X-1Password-Connect-Host" request.(req_headers) |}.
Proof.
  unfold validateCredentials, parseTenantCredentials.
  cbn [connectToken connectHost]. rewrite !or_undefined_truthy.
  destruct (truthy_str (Headers_get "X-1Password-Connect-Token" _)) eqn:Ht;
    [|done].
  destruct (truthy_str (Headers_get "X-1Password-Connect-Host" _)) eqn:Hh;
    [|done].
  intros _. by rewrite !or_undefined_id.
Qed.

Lemma bind_log {A B} (m : M A) (f : A -> M B) net :
  (forall a, snd (f a net) = []) ->
  snd ((m ≫= f) net) = snd (m net).
Proof.
  intros Hf. unfold mbind, M_bind.
  destruct (m net) as [[a|t] log]; [|reflexivity].
  specialize (Hf a). destruct (f a net) as [o log']. simpl in *.
  subst log'. apply app_nil_r.
Qed.

Lemma try_catch_async_log {A} (m : M A) (h : Thrown -> M A) net :
  (forall t, snd (h t net) = []) ->
  snd (try_catch_async m h net) = snd (m net).
Proof.
  intros Hh. unfold try_catch_async.
  destruct (m net) as [[a|t] log]; [reflexivity|].
  specialize (Hh t). destruct (h t net) as [o log']. simpl in *.
  subst log'. apply app_nil_r.
Qed.

(** Every call of the interface makes the call to [fetch] of one
    endpoint, with options that set no [Authorization] header. *)
Lemma outbound_issued call :
  exists endpoint options,
    default ∅ options.(headers) !! "Authorization"%string = None
    /\ forall self net, outbound self call net = issued self endpoint options.
Proof.
  destruct call; do 2 eexists;
    (split; [|intros self net; cbn [Client.outbound]]).
  all: try apply request_log.
  all: try apply requestRaw_log.
  all: try apply heartbeat_log.
  all: try reflexivity.
  2: { unfold Client.testConnection.
       rewrite try_catch_async_log by done.
       rewrite bind_log; [apply request_log|].
       intros h. unfold mbind, M_bind, lift.
       destruct (get_prop h "name") as [name|]; [|done].
       destruct (ToString name); [|done].
       destruct (get_prop h "version") as [version|]; [|done].
       by destruct (ToString version). }
  1: reflexivity.
  2: { unfold Client.deleteItem. rewrite bind_log by done.
       apply request_log. }
  1: reflexivity.
  2: { unfold Client.listActivity. rewrite bind_log; [apply request_log|].
       intros its. unfold mbind, M_bind, lift.
       by destruct (get_prop its "length"). }
  reflexivity.
Qed.

(** [replace(/\/$/, '')] on a host that ends in a slash, and on one that
    does not. *)
Lemma replace_final_slash_added h : replace_final_slash (h +:+ "/") = h.
Proof.
  induction h as [|c r IH]; [reflexivity|].
  change (String c r +:+ "/") with (String c (r +:+ "/")).
  destruct r as [|c' r']; [reflexivity|].
  change (replace_final_slash (String c (String c' r' +:+ "/")))
    with (String c (replace_final_slash (String c' r' +:+ "/"))).
  by rewrite IH.
Qed.

Lemma replace_final_slash_other h c :
  c <> "/"%char ->
  replace_final_slash (h +:+ String c "") = h +:+ String c "".
Proof.
  intros Hc. induction h as [|c0 r IH].
  - simpl. by destruct (Ascii.eqb_spec c "/").
  - change (String c0 r +:+ String c "") with (String c0 (r +:+ String c "")).
    destruct r as [|c' r'].
    + simpl in *. by rewrite IH.
    + change (replace_final_slash (String c0 (String c' r' +:+ String c "")))
        with (String c0 (replace_final_slash (String c' r' +:+ String c ""))).
      by rewrite IH.
Qed.

Lemma app_not_empty h c : h +:+ String c "" <> ""%string.
Proof. by destruct h. Qed.

Lemma bearer_inj t t' : "Bearer " +:+ t = "Bearer " +:+ t' -> t = t'.
Proof. apply String.app_inj. Qed.

Lemma with_auth_Authorization options token :
  default ∅ options.(headers) !! "Authorization"%string = None ->
  (with_auth options (auth_headers token)).(headers)
    ≫= (fun h => h !! "Authorization"%string)
  = Some ("Bearer " +:+ token).
Proof.
  intros Hnone. cbn [with_auth headers mbind option_bind].
  rewrite lookup_union_r by done.
  unfold auth_headers. apply lookup_insert_eq.
Qed.

(** The calls to [fetch] of a client built from credentials. *)
Lemma outbound_credentials call :
  exists endpoint,
    forall c net,
      match c.(connectToken) with
      | Some token =>
          if String.eqb token "" then
            outbound (createOnePasswordClient c) call net = []
          else
            exists r,
              outbound (createOnePasswordClient c) call net = [r]
              /\ r.(url) = (createOnePasswordClient c).(baseUrl) +:+ endpoint
              /\ r.(init).(headers) ≫= (fun h => h !! "Authorization"%string)
                 = Some ("Bearer " +:+ token)
      | None => outbound (createOnePasswordClient c) call net = []
      end.
Proof.
  destruct (outbound_issued call) as (endpoint & options & Hopt & Hout).
  exists endpoint. intros c net. rewrite Hout.
  destruct (connectToken c) as [token|] eqn:Htok.
  - destruct (String.eqb_spec token "") as [->|Hne].
    + unfold issued. rewrite getAuthHeaders_token. simpl. by rewrite Htok.
    + rewrite (issued_token _ _ _ token) by done.
      eexists. split; [reflexivity|]. split; [reflexivity|].
      by apply with_auth_Authorization.
  - unfold issued. rewrite getAuthHeaders_token. simpl. by rewrite Htok.
Qed.

(** C1. The base URL of the client built from credentials is their host,
    without its final slash if it has one, followed by [/v1] (with the
    local placeholder for a host that is missing, empty or only a slash),
    so it depends on the host alone; every call of the interface sends,
    when the credentials have a token, one request to that base URL
    followed by an endpoint that the call alone determines, with that
    token as its bearer, and no request otherwise; the requests are the
    same whatever the network answers; a request never carries the token
    of other credentials; and the client that serves an inbound request is
    built from the two headers of that request. *)
Theorem tenant_isolation :
  (forall c c',
      c.(connectHost) = c'.(connectHost) ->
      (createOnePasswordClient c).(baseUrl)
      = (createOnePasswordClient c').(baseUrl))
  /\ (forall call, exists endpoint, forall c net,
        match c.(connectToken) with
        | Some token =>
            if String.eqb token "" then
              outbound (createOnePasswordClient c) call net = []
            else
              exists r,
                outbound (createOnePasswordClient c) call net = [r]
                /\ r.(url)
                   = (createOnePasswordClient c).(baseUrl) +:+ endpoint
                /\ r.(init).(headers)
                     ≫= (fun h => h !! "Authorization"%string)
                   = Some ("Bearer " +:+ token)
        | None => outbound (createOnePasswordClient c) call net = []
        end)
  /\ (forall c call net net',
        outbound (createOnePasswordClient c) call net
        = outbound (createOnePasswordClient c) call net')
  /\ (forall c c' call net r token',
        r ∈ outbound (createOnePasswordClient c) call net ->
        c'.(connectToken) = Some token' ->
        c.(connectToken) <> Some token' ->
        r.(init).(headers) ≫= (fun h => h !! "Authorization"%string)
        <> Some ("Bearer " +:+ token'))
  /\ (forall request server request',
        fetch_handler request = Handle server request' ->
        request' = request
        /\ server.(client)
           = createOnePasswordClient
               {| connectToken :=
                    Headers_get "X-1Password-Connect-Token"
                      request.(req_headers);
                  connectHost :=
                    Headers_get "X-1Password-Connect-Host"
                      request.(req_headers) |})
  /\ (forall c h,
        c.(connectHost) = Some (h +:+ "/") -> h <> ""%string ->
        (createOnePasswordClient c).(baseUrl) = h +:+ "/v1")
  /\ (forall c h a,
        c.(connectHost) = Some (h +:+ String a "") -> a <> "/"%char ->
        (createOnePasswordClient c).(baseUrl) = (h +:+ String a "") +:+ "/v1")
  /\ (forall c,
        c.(connectHost) = None \/ c.(connectHost) = Some ""%string
        \/ c.(connectHost) = Some "/"%string ->
        (createOnePasswordClient c).(baseUrl) = "http://localhost:8080/v1"%string).
Proof.
  split; [|split; [|split; [|split; [|split; [|split; [|split]]]]]].
  6: { intros c h Hhost Hne.
       unfold createOnePasswordClient, new_OnePasswordClientImpl.
       cbn [baseUrl]. rewrite Hhost.
       cbn [fmap option_fmap option_map]. rewrite replace_final_slash_added.
       cbn [truthy_str default].
       by destruct (String.eqb_spec h "") as [E|_]. }
  6: { intros c h a Hhost Hne.
       unfold createOnePasswordClient, new_OnePasswordClientImpl.
       cbn [baseUrl]. rewrite Hhost.
       cbn [fmap option_fmap option_map].
       rewrite replace_final_slash_other by done.
       cbn [truthy_str default].
       destruct (String.eqb_spec (h +:+ String a "") "") as [E|_]; [|done].
       by apply app_not_empty in E. }
  6: { intros c Hhost.
       unfold createOnePasswordClient, new_OnePasswordClientImpl.
       cbn [baseUrl]. by destruct Hhost as [-> | [-> | ->]]. }
  - intros c c' Hhost. unfold createOnePasswordClient,
      new_OnePasswordClientImpl. cbn [baseUrl]. by rewrite Hhost.
  - apply outbound_credentials.
  - intros c call net net'.
    destruct (outbound_issued call) as (endpoint & options & _ & Hout).
    by rewrite !Hout.
  - intros c c' call net r token' Hin Htok' Hdiff Hauth.
    destruct (outbound_credentials call) as (endpoint & Hout).
    specialize (Hout c net).
    destruct (connectToken c) as [token|].
    + destruct (String.eqb token "").
      * rewrite Hout in Hin. by apply elem_of_nil in Hin.
      * destruct Hout as (r0 & Hr0 & _ & Hbearer).
        rewrite Hr0 in Hin. apply list_elem_of_singleton in Hin as ->.
        rewrite Hbearer in Hauth.
        assert (token = token') as -> by (apply bearer_inj; congruence).
        done.
    + rewrite Hout in Hin. by apply elem_of_nil in Hin.
  - intros request server request'. unfold fetch_handler.
    destruct (String.eqb _ "/health"); [done|].
    destruct (_ && _); [|by destruct (String.eqb _ "/sse")].
    destruct (validateCredentials _) eqn:Hv; [|done].
    intros [= <- <-]. split; [done|]. cbn [createStatelessServer client].
    f_equal. by eapply validated_credentials.
Qed.
End ClientFacts.

(** ** The worker *)

Section WorkerFacts.

Lemma validate_missing c :
  c.(connectToken) = None \/ c.(connectHost) = None ->
  validateCredentials c
  = Threw (ThrowError (new_Error
      "Missing X-1Password-Connect-Token header. Provide your Connect server token."))
  \/ validateCredentials c
     = Threw (ThrowError (new_Error
         "Missing X-1Password-Connect-Host header. Provide your Connect server URL (e.g., http://localhost:8080).")).
Proof.
  unfold validateCredentials. intros [H|H].
  - rewrite H. by left.
  - destruct (truthy_str (connectToken c)); [|by left].
    rewrite H. by right.
Qed.

Lemma unauthorized_response request :
  request.(req_pathname) = "/mcp"%string ->
  request.(req_method) = "POST"%string ->
  (parseTenantCredentials request).(connectToken) = None
  \/ (parseTenantCredentials request).(connectHost) = None ->
  exists response payload,
    fetch_handler request = Respond response
    /\ response.(status) = 401
    /\ Json.parse response.(resp_body) = Some (VObj payload)
    /\ obj_get "required_headers" payload = Some required_headers.
Proof.
  intros Hpath Hmethod Hmiss. unfold fetch_handler.
  rewrite Hpath, Hmethod. cbn [String.eqb Ascii.eqb Bool.eqb andb].
  destruct (validate_missing _ Hmiss) as [-> | ->];
    eexists _, _; (split; [reflexivity|]); split; try reflexivity;
    split; vm_compute; reflexivity.
Qed.

(** C3. A POST to [/mcp] without one of the two credential headers is
    answered by the worker itself, with the status 401 and a JSON body
    whose [required_headers] are the names of both headers; no server
    and no client are built. *)
Theorem mcp_missing_credentials_unauthorized request :
  request.(req_pathname) = "/mcp"%string ->
  request.(req_method) = "POST"%string ->
  Headers_get token_header request.(req_headers) = None
  \/ Headers_get host_header request.(req_headers) = None ->
  exists response payload,
    fetch_handler request = Respond response
    /\ response.(status) = 401
    /\ Json.parse response.(resp_body) = Some (VObj payload)
    /\ obj_get "required_headers" payload = Some required_headers.
Proof.
  intros Hpath Hmethod Hmiss. apply unauthorized_response; [done..|].
  unfold parseTenantCredentials. cbn [connectToken connectHost].
  destruct Hmiss as [H|H]; [left|right];
    unfold token_header, host_header in H; by rewrite H.
Qed.

Lemma lower_token_header : lower token_header = "x-1password-connect-token"%string.
Proof. reflexivity. Qed.

Lemma lower_host_header : lower host_header = "x-1password-connect-host"%string.
Proof. reflexivity. Qed.

Lemma parse_omit_empty request name :
  name = token_header \/ name = host_header ->
  Headers_get name request.(req_headers) = Some ""%string ->
  parseTenantCredentials (omit_header name request)
  = parseTenantCredentials request.
Proof.
  unfold parseTenantCredentials, omit_header, Headers_get.
  cbn [req_headers].
  change (lower "X-1Password-Connect-Token") with (lower token_header).
  change (lower "X-1Password-Connect-Host") with (lower host_header).
  intros [-> | ->] Hempty; rewrite Hempty, lookup_delete_eq.
  - by rewrite lookup_delete_ne by done.
  - by rewrite lookup_delete_ne by done.
Qed.

(** C10. A credential header that is the empty string gives the same
    credentials as the request without that header: the field is
    [undefined], the validation throws, and the worker answers the request
    as it answers the one without the header, which for a POST to [/mcp]
    is the 401 response. *)
Theorem empty_credential_header_as_absent request name :
  name = token_header \/ name = host_header ->
  Headers_get name request.(req_headers) = Some ""%string ->
  parseTenantCredentials request
  = parseTenantCredentials (omit_header name request)
  /\ (name = token_header ->
      (parseTenantCredentials request).(connectToken) = None)
  /\ (name = host_header ->
      (parseTenantCredentials request).(connectHost) = None)
  /\ (exists error,
        validateCredentials (parseTenantCredentials request) = Threw error)
  /\ fetch_handler request = fetch_handler (omit_header name request)
  /\ (request.(req_pathname) = "/mcp"%string ->
      request.(req_method) = "POST"%string ->
      exists response payload,
        fetch_handler request = Respond response
        /\ response.(status) = 401
        /\ Json.parse response.(resp_body) = Some (VObj payload)
        /\ obj_get "required_headers" payload = Some required_headers).
Proof.
  intros Hname Hempty.
  pose proof (parse_omit_empty request name Hname Hempty) as Hparse.
  assert ((name = token_header ->
           (parseTenantCredentials request).(connectToken) = None)
          /\ (name = host_header ->
              (parseTenantCredentials request).(connectHost) = None))
    as [Htok Hhost].
  { unfold parseTenantCredentials. cbn [connectToken connectHost].
    split; intros ->; unfold token_header, host_header in Hempty;
      by rewrite Hempty. }
  assert ((parseTenantCredentials request).(connectToken) = None
          \/ (parseTenantCredentials request).(connectHost) = None) as Hmiss.
  { destruct Hname; [left|right]; auto. }
  split; [done|]. split; [done|]. split; [done|]. split.
  { destruct (validate_missing _ Hmiss) as [-> | ->]; eauto. }
  split.
  - unfold fetch_handler. cbn [omit_header req_pathname req_method].
    rewrite Hparse.
    destruct (String.eqb _ "/health"); [done|].
    destruct (_ && _); [|done].
    by destruct (validate_missing _ Hmiss) as [-> | ->].
  - intros Hpath Hmethod. by apply unauthorized_response.
Qed.

End WorkerFacts.

(** ** The formatter *)

Section FormatterFacts.
Variable formatAsMarkdown : value -> string -> string.


End FormatterFacts.

(** ** Concrete runs *)

Section Runs.

(** C2. On a 429 response whose [Retry-After] header is a date, the
    RateLimitError that [request] throws carries NaN seconds, not 60. *)
Theorem request_429_date_retry_after_is_NaN JSON_parse endpoint options :
  fst (Client.request JSON_parse tenant_client endpoint options
         (answer rate_limited_with_date))
  = Threw (ThrowError
      {| cls := RateLimitErrorC; name := "RateLimitError";
         message := "Rate limit exceeded";
         statusCode := Some 429;
         code := Some "RATE_LIMIT_EXCEEDED"%string;
         retryable := Some true;
         retryAfterSeconds := Some NaN |}).
Proof. reflexivity. Qed.

(** C4, as first stated, fails: [getHealth] succeeds on the answer 204,
    with [undefined], and on a health object whose name has no text, and
    [testConnection] reports that it is not connected, with the message of
    the TypeError that reading the name throws. *)
Lemma testConnection_success_not_connected :
  (fst (Client.getHealth json_parse tenant_client (answer no_content))
   = Returned VUndefined
   /\ fst (Client.testConnection json_parse tenant_client (answer no_content))
      = Returned
          {| connected := false;
             status_message :=
               "Cannot read properties of undefined (reading 'name')" |})
  /\ (fst (Client.getHealth json_parse tenant_client
             (answer health_without_text))
      = Returned (VObj [("name"%string, without_text);
                        ("version"%string, VStr "1.2.3")])
      /\ fst (Client.testConnection json_parse tenant_client
                (answer health_without_text))
         = Returned
             {| connected := false;
                status_message :=
                  "Cannot convert object to primitive value" |}).
Proof. repeat split; vm_compute; reflexivity. Qed.

Lemma request_api_error_default_message_witness :
  fst (Client.request json_parse tenant_client "/vaults" no_options
         (answer server_error_html))
  = Threw (ThrowError
      {| cls := OnePasswordApiErrorC;
         name := "OnePasswordApiError";
         message := "API error: 500";
         statusCode := Some 500;
         code := Some "ONEPASSWORD_ERROR"%string;
         retryable := Some false;
         retryAfterSeconds := None |}).
Proof.
  apply (request_api_error_default_message json_parse tenant_client "/vaults"
           no_options (answer server_error_html) server_error_html).
  - reflexivity.
  - intros call. reflexivity.
  - reflexivity.
  - reflexivity.
  - left. eexists. vm_compute. reflexivity.
Defined.

Lemma listActivity_page_witness :
  fst (Client.listActivity unreserved json_parse tenant_client
         (Some {| limit := Some 10; offset := Some 0 |})
         (answer activity_answer))
  = Returned {| items := VArr activity_items;
                count := VNum 2;
                hasMore := false |}.
Proof.
  apply (proj2 (listActivity_page unreserved json_parse tenant_client
                  (Some {| limit := Some 10; offset := Some 0 |})
                  (answer activity_answer)) activity_answer activity_items).
  - reflexivity.
  - intros call. reflexivity.
  - reflexivity.
  - simpl. lia.
  - vm_compute. reflexivity.
Defined.


Lemma patchItem_forwards_witness :
  exists call b,
    snd (Client.patchItem unreserved json_parse tenant_client "v1" "i1"
           replace_title (answer created_answer)) = [call]
    /\ call.(init).(method) = Some "PATCH"%string
    /\ call.(init).(headers) ≫= (fun h => h !! "Content-Type"%string)
       = Some "application/json-patch+json"%string
    /\ call.(init).(body) = Some b
    /\ Json.stringify (VArr replace_title) = Some b
    /\ Json.parse b = Some (VArr replace_title).
Proof.
  destruct (patchItem_forwards unreserved json_parse tenant_client "v1" "i1"
              replace_title (answer created_answer))
    as (call & b & Hlog & Hmethod & Htype & Hbody & Htext & Hparse).
  - reflexivity.
  - exists call, b. repeat split; try assumption.
    apply Hparse. reflexivity.
Defined.

Lemma mcp_missing_credentials_unauthorized_witness :
  exists response payload,
    fetch_handler no_host_request = Respond response
    /\ response.(status) = 401
    /\ Json.parse response.(resp_body) = Some (VObj payload)
    /\ obj_get "required_headers" payload = Some required_headers.
Proof.
  apply (mcp_missing_credentials_unauthorized no_host_request).
  - reflexivity.
  - reflexivity.
  - right. vm_compute. reflexivity.
Defined.

Lemma empty_credential_header_as_absent_witness :
  fetch_handler empty_token_request
  = fetch_handler (omit_header token_header empty_token_request).
Proof.
  apply (empty_credential_header_as_absent empty_token_request token_header).
  - left. reflexivity.
  - vm_compute. reflexivity.
Defined.


(** The texts of [JSON.stringify], without and with indentation. *)
Example stringify_compact :
  Json.stringify (VArr [VNum 1; VArr [VBool true; VUndefined]; VNum (-20)])
  = Some "[1,[true,null],-20]"%string.
Proof. reflexivity. Qed.

Example stringify_indented :
  Json.stringify_indent 2 (VArr [VNum 1; VArr [VBool true; VNull]; VArr []])
  = Some "[
  1,
  [
    true,
    null
  ],
  []
]"%string.
Proof. reflexivity. Qed.

Example parse_skips_white_space :
  Json.parse " [ 1 , [ ] ,null, { } ] "
  = Some (VArr [VNum 1; VArr []; VNull; VObj []]).
Proof. reflexivity. Qed.

Example parse_rejects :
  Json.parse "[1,]" = None /\ Json.parse "01" = None
  /\ Json.parse "<html>" = None /\ Json.parse "" = None.
Proof. repeat split; reflexivity. Qed.

(** One call of the interface by the client of a tenant: one request,
    to the host of the tenant, with the token of the tenant. *)
Example get_vault_request :
  map (fun call =>
         (call.(url),
          call.(init).(headers) ≫= (fun h => h !! "Authorization"%string)))
    (Client.outbound unreserved unreserved json_parse tenant_client
       (GetVault "v1") (answer created_answer))
  = [("http://connect.test/v1/vaults/v1"%string,
      Some "Bearer token-a"%string)].
Proof. vm_compute. reflexivity. Qed.

(** The scenario of create_item: the handler called with
    [vaultId = "v1"], [title = "Test"], [category = "LOGIN"] sends one
    request, whose body has the vault [{id: "v1"}]. *)
Example create_item_scenario :
  map (fun call => (call.(url), call.(init).(method), call.(init).(body)))
    (snd (create_item_handler unreserved json_parse no_format_error
            tenant_client "v1" "Test" "LOGIN"
            VUndefined VUndefined VUndefined VUndefined VUndefined
            (answer created_answer)))
  = [("http://connect.test/v1/vaults/v1/items"%string,
      Some "POST"%string,
      Json.stringify
        (VObj [("title"%string, VStr "Test");
               ("category"%string, VStr "LOGIN");
               ("vault"%string, VObj [("id"%string, VStr "v1")])]))].
Proof. vm_compute. reflexivity. Qed.

(** The scenario of patch_item: the one operation is the body. *)
Example patch_item_scenario :
  map (fun call => (call.(url), call.(init).(method), call.(init).(body)))
    (snd (patch_item_handler unreserved json_parse no_format_error
            tenant_client "v1" "i1" replace_title (answer created_answer)))
  = [("http://connect.test/v1/vaults/v1/items/i1"%string,
      Some "PATCH"%string,
      Json.stringify (VArr replace_title))].
Proof. vm_compute. reflexivity. Qed.

End Runs.

(* ===================================================================== *)
(** * Further properties of the code *)
(* ===================================================================== *)

(** ** Numbers read from texts *)

Section NumberFacts.

Lemma trim_start_head c r :
  is_str_ws c = false -> trim_start (c :: r) = c :: r.
Proof. simpl. by intros ->. Qed.

Lemma uint_chars_parse u :
  Json.parse_digits (uint_chars u) = (u, []).
Proof.
  rewrite <- (app_nil_r (uint_chars u)). by apply digit_of_uint_chars.
Qed.

Lemma num_chars_not_ws c : In c num_chars -> is_str_ws c = false.
Proof.
  intros H. cbv in H. repeat (destruct H as [<-|H]; [by cbv|]). done.
Qed.

Lemma uint_chars_unsigned u :
  u <> Decimal.Nil ->
  exists c r, uint_chars u = c :: r
              /\ In c num_chars
              /\ Ascii.eqb c "-" = false /\ Ascii.eqb c "+" = false.
Proof.
  destruct u; [done|..]; intros _; do 2 eexists;
    (split; [reflexivity|]); (split; [cbv; tauto|]); by cbv.
Qed.

(** [parseInt] reads the decimal text of an integer as the number of
    that integer. *)
Lemma parseInt10_String_of_Z z :
  parseInt10 (String_of_Z z) = round_to_double z.
Proof.
  unfold parseInt10, String_of_Z, Json.chars.
  rewrite list_ascii_of_string_of_list_ascii. unfold Z_chars.
  pose proof (to_int_norm z) as Hn. pose proof (DecimalZ.of_to z) as Hz.
  destruct (Z.to_int z) as [u|u] eqn:E.
  - assert (u <> Decimal.Nil) as Hu by (intros ->; discriminate Hn).
    destruct (uint_chars_unsigned u Hu) as (c & r & Ec & Hin & Hm & Hp).
    pose proof (uint_chars_parse u) as Hd. rewrite Ec in Hd |- *.
    rewrite trim_start_head by by apply num_chars_not_ws.
    rewrite Hm, Hp, Hd. cbn [fst].
    simpl in Hz. rewrite <- Hz. by destruct u.
  - assert (u <> Decimal.Nil) as Hu.
    { intros ->. discriminate Hn. }
    rewrite trim_start_head by done. cbn [Ascii.eqb Bool.eqb].
    rewrite uint_chars_parse. cbn [fst].
    simpl in Hz. rewrite <- Hz. by destruct u.
Qed.

(** An integer below 2^53 in magnitude is a number as it is. *)
Lemma round_to_double_safe z :
  Z.abs z < 2 ^ 53 -> round_to_double z = Num z.
Proof.
  intros Hz. unfold round_to_double.
  by destruct (Z.ltb_spec (Z.abs z) (2 ^ 53)); [|lia].
Qed.

Lemma round_to_double_not_NaN z : round_to_double z <> NaN.
Proof.
  unfold round_to_double.
  repeat match goal with
         | |- context [if ?b then _ else _] => destruct b
         end; discriminate.
Qed.

Lemma String_of_Z_not_empty z : String_of_Z z <> ""%string.
Proof.
  unfold String_of_Z. destruct (Z_chars_head z) as (c & r & -> & _). done.
Qed.

(** X1. [getEnvNumber] returns the default when the binding is not a
    text or is a text that [parseInt] reads no integer from, and what
    [parseInt] reads from the text otherwise; so it returns NaN for no
    binding, unless the default is NaN. *)
Theorem getEnvNumber_never_NaN env key defaultValue :
  (defaultValue <> NaN -> getEnvNumber env key defaultValue <> NaN)
  /\ ((forall s, env_get env key <> VStr s) ->
      getEnvNumber env key defaultValue = defaultValue)
  /\ (forall s, env_get env key = VStr s -> parseInt10 s = NaN ->
                getEnvNumber env key defaultValue = defaultValue)
  /\ (forall s, env_get env key = VStr s -> parseInt10 s <> NaN ->
                getEnvNumber env key defaultValue = parseInt10 s).
Proof.
  unfold getEnvNumber. split; [|split; [|split]].
  - intros Hd. destruct (env_get env key); try done.
    by destruct (parseInt10 s).
  - intros Hs. destruct (env_get env key) as [| | | |s| |]; try done.
    by destruct (Hs s).
  - by intros s -> ->.
  - intros s -> Hs. by destruct (parseInt10 s).
Qed.

(** X2. A binding that is the decimal text of an integer of at most
    twenty digits gives the number of that integer, whatever the default:
    the integer itself when it is below 2^53 in magnitude. *)
Theorem getEnvNumber_decimal env key defaultValue z :
  env_get env key = VStr (String_of_Z z) ->
  (Z.abs z < 10 ^ 20 ->
   getEnvNumber env key defaultValue = round_to_double z)
  /\ (Z.abs z < 2 ^ 53 -> getEnvNumber env key defaultValue = Num z).
Proof.
  intros E. unfold getEnvNumber. rewrite E, parseInt10_String_of_Z.
  pose proof (round_to_double_not_NaN z) as Hz.
  split.
  - intros _. by destruct (round_to_double z).
  - intros Hsafe. by rewrite round_to_double_safe.
Qed.

End NumberFacts.

(** ** The client: failures and edge cases *)

Section ClientEdgeFacts.
Variable encodeURIComponent : string -> string.
Variable form_urlencode : string -> string.
Variable JSON_parse : string -> Outcome value.

Local Abbreviation request := (Client.request JSON_parse).
Local Abbreviation outbound :=
  (Client.outbound encodeURIComponent form_urlencode JSON_parse).
Local Abbreviation outcome_of :=
  (call_outcome encodeURIComponent form_urlencode JSON_parse).

Ltac run_request Htok Hnet :=
  unfold Client.request, Client.requestRaw, Client.heartbeat,
    mbind, M_bind, lift, fetch, throw, lift;
  rewrite getAuthHeaders_token, Htok, Hnet.

(** X3. On a 429 response whose [Retry-After] header is the decimal text
    of an integer of at most twenty digits, the RateLimitError carries the
    number of that integer: the integer itself when it is below 2^53 in
    magnitude. *)
Theorem request_429_decimal_retry_after
    self endpoint options net response n :
  truthy_str self.(credentials).(connectToken) = true ->
  (forall call, net call = Returned response) ->
  response.(status) = 429 ->
  Headers_get "Retry-After" response.(resp_headers) = Some (String_of_Z n) ->
  (Z.abs n < 10 ^ 20 ->
   fst (request self endpoint options net)
   = Threw (ThrowError
       (new_RateLimitError "Rate limit exceeded" (round_to_double n))))
  /\ (Z.abs n < 2 ^ 53 ->
      fst (request self endpoint options net)
      = Threw (ThrowError (new_RateLimitError "Rate limit exceeded" (Num n)))).
Proof.
  intros Htok Hnet Hs Hh.
  assert (fst (request self endpoint options net)
          = Threw (ThrowError
              (new_RateLimitError "Rate limit exceeded" (round_to_double n))))
    as Hthrown.
  { run_request Htok Hnet. rewrite Hs.
    cbn -[Headers_get parseInt10 new_RateLimitError].
    rewrite Hh. cbn [truthy_str default].
    destruct (String.eqb_spec (String_of_Z n) "") as [E|_].
    - by apply String_of_Z_not_empty in E.
    - cbn [negb id]. by rewrite parseInt10_String_of_Z. }
  split; [done|]. intros Hsafe. by rewrite Hthrown, round_to_double_safe.
Qed.

(** The message that [request] takes from the body of an error: the
    default, or a truthy [message] or [error] of the JSON of the body. *)
Lemma try_catch_message errorBody message :
  exists m,
    try_catch (error_message JSON_parse errorBody message)
      (fun _ => Returned message) = Returned m
    /\ (m = message
        \/ exists j,
             JSON_parse errorBody = Returned j
             /\ (get_prop j "message" = Returned m
                 \/ get_prop j "error" = Returned m)
             /\ truthy m = true).
Proof.
  unfold try_catch, error_message, mbind, Outcome_bind.
  destruct (JSON_parse errorBody) as [j|t]; [|by eauto].
  destruct (get_prop j "message") as [m|t] eqn:Em; [|by eauto].
  destruct (truthy m) eqn:Tm; [by eauto 10|].
  destruct (get_prop j "error") as [e|t] eqn:Ee; [|by eauto].
  destruct (truthy e) eqn:Te; by eauto 10.
Qed.

(** X4. For a response that is not ok, [request] throws an error, and
    [isRetryableError] holds of it exactly when the status is 429. The
    error is one of the taxonomy and carries the status, unless the status
    is none of 401, 403, 404 and 429 and the body is the JSON of a value
    whose truthy [message] (or [error]) has no text: what is thrown then is
    the TypeError of the conversion, in the constructor of the error. *)
Theorem request_error_retryable_iff_429 self endpoint options net response :
  truthy_str self.(credentials).(connectToken) = true ->
  (forall call, net call = Returned response) ->
  ok response = false ->
  exists e,
    fst (request self endpoint options net) = Threw (ThrowError e)
    /\ isRetryableError (ThrowError e) = (response.(status) =? 429)
    /\ (instanceof_OnePasswordApiError e = true
        /\ e.(statusCode) = Some response.(status)
        \/ e = no_primitive_value
           /\ mapped_status response.(status) = false
           /\ exists j m,
                JSON_parse response.(resp_body) = Returned j
                /\ (get_prop j "message" = Returned m
                    \/ get_prop j "error" = Returned m)
                /\ truthy m = true
                /\ ToString m = Threw (ThrowError no_primitive_value))
    /\ (mapped_status response.(status) = true
        \/ (exists t, JSON_parse response.(resp_body) = Threw t) ->
        instanceof_OnePasswordApiError e = true
        /\ e.(statusCode) = Some response.(status)).
Proof.
  intros Htok Hnet Hok. run_request Htok Hnet. rewrite Hok.
  unfold mapped_status.
  destruct (Z.eqb_spec (status response) 429) as [E|_].
  { rewrite E. eexists. split; [reflexivity|]. split; [done|]. by eauto. }
  destruct (Z.eqb_spec (status response) 401) as [E|_].
  { rewrite E. eexists. split; [reflexivity|]. split; [done|]. by eauto. }
  destruct (Z.eqb_spec (status response) 403) as [E|_].
  { rewrite E. eexists. split; [reflexivity|]. split; [done|]. by eauto. }
  destruct (Z.eqb_spec (status response) 404) as [E|_].
  { rewrite E. eexists. split; [reflexivity|]. split; [done|]. by eauto. }
  cbn [negb orb].
  destruct (try_catch_message response.(resp_body)
              (VStr ("API error: " +:+ String_of_Z response.(status))))
    as (m & -> & Hm).
  destruct (ToString m) as [text|t] eqn:Et.
  - eexists. split; [reflexivity|]. split; [done|]. split; [by left|].
    by intros _.
  - apply ToString_threw in Et as Ht. subst t.
    destruct Hm as [->|(j & Hj & Hprop & Htruthy)]; [discriminate Et|].
    eexists. split; [reflexivity|]. split; [done|]. split.
    + right. split; [done|]. split; [done|]. by eauto 10.
    + intros [?|[t Ht]]; [done|congruence].
Qed.

(** *** Failures before and at the network *)

Lemma void_threw {A} (m : M A) net t :
  fst (m net) = Threw t -> void m net = Threw t.
Proof. unfold void. by intros ->. Qed.

Lemma bind_threw {A B} (m : M A) (f : A -> M B) net t :
  fst (m net) = Threw t -> fst ((m ≫= f) net) = Threw t.
Proof.
  unfold mbind, M_bind. destruct (m net) as [[a|t'] log]; [done|].
  by intros [= ->].
Qed.

Lemma call_outcome_threw self net t :
  (forall endpoint options,
      fst (request self endpoint options net) = Threw t) ->
  (forall endpoint options,
      fst (Client.requestRaw self endpoint options net) = Threw t) ->
  fst (Client.heartbeat self net) = Threw t ->
  forall call, call <> TestConnection -> outcome_of self call net = Threw t.
Proof.
  intros Hreq Hraw Hbeat call Hcall.
  destruct call; try done; cbn [call_outcome];
    apply void_threw; try apply Hreq; try apply Hraw; try apply Hbeat.
  - apply bind_threw, Hreq.
  - apply bind_threw, Hreq.
Qed.

Lemma testConnection_threw self net t :
  fst (Client.getHealth JSON_parse self net) = Threw t ->
  fst (Client.testConnection JSON_parse self net)
  = Returned {| connected := false;
                status_message := message_or "Connection failed" t |}.
Proof.
  intros H. unfold Client.testConnection, try_catch_async, mbind, M_bind.
  destruct (Client.getHealth JSON_parse self net) as [o log].
  cbn [fst] in H. by subst o.
Qed.

Lemma request_no_token self endpoint options net :
  truthy_str self.(credentials).(connectToken) = false ->
  fst (request self endpoint options net) = Threw (ThrowError no_token_error).
Proof.
  intros Htok. unfold Client.request, mbind, M_bind, lift.
  by rewrite getAuthHeaders_token, Htok.
Qed.

Lemma requestRaw_no_token self endpoint options net :
  truthy_str self.(credentials).(connectToken) = false ->
  fst (Client.requestRaw self endpoint options net)
  = Threw (ThrowError no_token_error).
Proof.
  intros Htok. unfold Client.requestRaw, mbind, M_bind, lift.
  by rewrite getAuthHeaders_token, Htok.
Qed.

Lemma heartbeat_no_token self net :
  truthy_str self.(credentials).(connectToken) = false ->
  fst (Client.heartbeat self net) = Threw (ThrowError no_token_error).
Proof.
  intros Htok. unfold Client.heartbeat, mbind, M_bind, lift.
  by rewrite getAuthHeaders_token, Htok.
Qed.

(** X5. Without a token, every call of the interface but [testConnection]
    throws the AuthenticationError of [getAuthHeaders], [testConnection]
    reports its message, and nothing is sent. *)
Theorem no_token_no_request self call net :
  truthy_str self.(credentials).(connectToken) = false ->
  outbound self call net = []
  /\ (call <> TestConnection ->
      outcome_of self call net = Threw (ThrowError no_token_error))
  /\ fst (Client.testConnection JSON_parse self net)
     = Returned
         {| connected := false;
            status_message :=
              "No Connect token provided. Include X-1Password-Connect-Token header." |}.
Proof.
  intros Htok. split; [|split].
  - destruct (outbound_issued encodeURIComponent form_urlencode JSON_parse call)
      as (endpoint & options & _ & ->).
    unfold issued. by rewrite getAuthHeaders_token, Htok.
  - apply call_outcome_threw; intros;
      [by apply request_no_token | by apply requestRaw_no_token
      | by apply heartbeat_no_token].
  - rewrite (testConnection_threw self net (ThrowError no_token_error));
      [reflexivity|]. by apply request_no_token.
Qed.

Lemma request_rejected self endpoint options net t :
  truthy_str self.(credentials).(connectToken) = true ->
  (forall call, net call = Threw t) ->
  fst (request self endpoint options net) = Threw t.
Proof. intros Htok Hnet. by run_request Htok Hnet. Qed.

Lemma requestRaw_rejected self endpoint options net t :
  truthy_str self.(credentials).(connectToken) = true ->
  (forall call, net call = Threw t) ->
  fst (Client.requestRaw self endpoint options net) = Threw t.
Proof. intros Htok Hnet. by run_request Htok Hnet. Qed.

Lemma heartbeat_rejected self net t :
  truthy_str self.(credentials).(connectToken) = true ->
  (forall call, net call = Threw t) ->
  fst (Client.heartbeat self net) = Threw t.
Proof. intros Htok Hnet. by run_request Htok Hnet. Qed.

(** X6. When [fetch] rejects, every call of the interface but
    [testConnection] throws what [fetch] rejected with, unchanged, and
    [testConnection] reports its message. *)
Theorem transport_failure_propagates self call net t :
  truthy_str self.(credentials).(connectToken) = true ->
  (forall c, net c = Threw t) ->
  (call <> TestConnection -> outcome_of self call net = Threw t)
  /\ fst (Client.testConnection JSON_parse self net)
     = Returned {| connected := false;
                   status_message := message_or "Connection failed" t |}.
Proof.
  intros Htok Hnet. split.
  - apply call_outcome_threw; intros;
      [by apply request_rejected | by apply requestRaw_rejected
      | by apply heartbeat_rejected].
  - apply testConnection_threw. by apply request_rejected.
Qed.

(** *** Raw downloads and the heartbeat *)

(** X7. [getFileContent] returns the body of an ok response as it is,
    without parsing it; for a response that is not ok and whose status is
    not 401, 403 or 404 (429 included) it throws the generic error
    "API error: status", which is not retryable. *)
Theorem getFileContent_outcome self vaultId itemId fileId net response :
  truthy_str self.(credentials).(connectToken) = true ->
  (forall call, net call = Returned response) ->
  (ok response = true ->
   fst (Client.getFileContent encodeURIComponent self vaultId itemId fileId
          net)
   = Returned response.(resp_body))
  /\ (ok response = false ->
      response.(status) <> 401 -> response.(status) <> 403 ->
      response.(status) <> 404 ->
      exists e,
        fst (Client.getFileContent encodeURIComponent self vaultId itemId
               fileId net)
        = Threw (ThrowError e)
        /\ e.(cls) = OnePasswordApiErrorC
        /\ e.(message) = "API error: " +:+ String_of_Z response.(status)
        /\ e.(statusCode) = Some response.(status)
        /\ isRetryableError (ThrowError e) = false).
Proof.
  intros Htok Hnet. unfold Client.getFileContent. split.
  - intros Hok. run_request Htok Hnet. by rewrite Hok.
  - intros Hok H401 H403 H404. run_request Htok Hnet. rewrite Hok.
    destruct (Z.eqb_spec (status response) 401); [done|].
    destruct (Z.eqb_spec (status response) 403); [done|].
    destruct (Z.eqb_spec (status response) 404); [done|].
    eexists. split; [reflexivity|]. by repeat split.
Qed.

(** X8. [heartbeat] returns the text of an ok response; for every other
    status, 401 and 429 included, it throws the generic error
    "Heartbeat failed: status". *)
Theorem heartbeat_outcome self net response :
  truthy_str self.(credentials).(connectToken) = true ->
  (forall call, net call = Returned response) ->
  (ok response = true ->
   fst (Client.heartbeat self net) = Returned response.(resp_body))
  /\ (ok response = false ->
      fst (Client.heartbeat self net)
      = Threw (ThrowError
          {| cls := OnePasswordApiErrorC;
             name := "OnePasswordApiError";
             message := "Heartbeat failed: " +:+ String_of_Z response.(status);
             statusCode := Some response.(status);
             code := Some "ONEPASSWORD_ERROR"%string;
             retryable := Some false;
             retryAfterSeconds := None |})).
Proof.
  intros Htok Hnet. split; intros Hok; run_request Htok Hnet; by rewrite Hok.
Qed.

(** *** Deleting and updating *)

Lemma ok_statuses response :
  ok response = true ->
  (response.(status) =? 429) = false /\ (response.(status) =? 401) = false
  /\ (response.(status) =? 403) = false /\ (response.(status) =? 404) = false.
Proof.
  unfold ok. intros [Hlo Hhi]%andb_prop. repeat split; lia.
Qed.

(** X9. [deleteItem] sends one DELETE without a body. On the status 204
    it returns whatever the body is; on another ok status it returns
    exactly when [JSON.parse] accepts the body, and throws what
    [JSON.parse] throws otherwise. *)
Theorem deleteItem_outcome self vaultId itemId net response :
  truthy_str self.(credentials).(connectToken) = true ->
  (forall call, net call = Returned response) ->
  (exists call,
      snd (Client.deleteItem encodeURIComponent JSON_parse self vaultId itemId
             net) = [call]
      /\ call.(init).(method) = Some "DELETE"%string
      /\ call.(init).(body) = None)
  /\ (response.(status) = 204 ->
      fst (Client.deleteItem encodeURIComponent JSON_parse self vaultId itemId
             net) = Returned tt)
  /\ (ok response = true -> response.(status) <> 204 ->
      fst (Client.deleteItem encodeURIComponent JSON_parse self vaultId itemId
             net)
      = match JSON_parse response.(resp_body) with
        | Returned _ => Returned tt
        | Threw t => Threw t
        end).
Proof.
  intros Htok Hnet.
  destruct (truthy_str_Some _ Htok) as (token & Htoken & Hne).
  unfold Client.deleteItem. split; [|split].
  - rewrite bind_log by done.
    rewrite request_log, (issued_token _ _ _ token) by done.
    eexists. by repeat split.
  - intros Hs. unfold mbind at 1, M_bind at 1.
    run_request Htok Hnet. unfold ok. rewrite Hs. reflexivity.
  - intros Hok H204. unfold mbind at 1, M_bind at 1.
    run_request Htok Hnet.
    destruct (ok_statuses response Hok) as (-> & -> & -> & ->).
    rewrite Hok. cbn [negb].
    destruct (Z.eqb_spec (status response) 204); [done|].
    by destruct (JSON_parse (resp_body response)).
Qed.

Lemma obj_get_norm_obj_set_ne k k' v' l sent sent0 :
  k <> k' -> v' <> VUndefined ->
  norm (VObj (obj_set k' v' l)) = VObj sent ->
  norm (VObj l) = VObj sent0 ->
  obj_get k sent = obj_get k sent0.
Proof.
  intros Hne Hv. rewrite !norm_VObj. intros [= <-] [= <-].
  induction l as [|[k1 v1] l IH]; simpl.
  - destruct v'; try done; simpl; by destruct (String.eqb_spec k k').
  - destruct (String.eqb_spec k' k1) as [->|Hk]; simpl.
    + destruct v', v1; try done; simpl;
        destruct (String.eqb_spec k k1); try done.
    + destruct v1; simpl; try done;
        by destruct (String.eqb_spec k k1).
Qed.

(** X10. The one request of [updateItem vaultId itemId item] is a PUT
    whose body denotes an object with [id = itemId] and
    [vault = {id: vaultId}], whatever [item] has there. *)
Theorem updateItem_payload self vaultId itemId item net :
  truthy_str self.(credentials).(connectToken) = true ->
  well_keyed (VObj item) = true ->
  exists call b sent,
    snd (Client.updateItem encodeURIComponent JSON_parse self vaultId itemId
           item net) = [call]
    /\ call.(init).(method) = Some "PUT"%string
    /\ call.(init).(body) = Some b
    /\ Json.parse b = Some (VObj sent)
    /\ obj_get "id" sent = Some (VStr itemId)
    /\ obj_get "vault" sent = Some (VObj [("id"%string, VStr vaultId)]).
Proof.
  intros (token & Htok & Hne)%truthy_str_Some Hwk.
  unfold Client.updateItem.
  rewrite request_log, (issued_token _ _ _ token) by done.
  set (vault := VObj [("id"%string, VStr vaultId)]).
  set (withId := obj_set "id" (VStr itemId) item).
  set (payload := VObj (obj_set "vault" vault withId)).
  assert (well_keyed (VObj withId) = true) as Hw1
    by by apply well_keyed_obj_set.
  assert (well_keyed payload = true) as Hw2 by by apply well_keyed_obj_set.
  destruct (stringify_defined 0 payload) as [b Hb]; [done|].
  pose proof (parse_stringify 0 payload b Hw2 Hb) as Hparse.
  destruct (norm payload) as [| | | | | |sent] eqn:En;
    try (unfold payload in En; rewrite norm_VObj in En; discriminate En).
  destruct (norm (VObj withId)) as [| | | | | |sent0] eqn:En0;
    try (rewrite norm_VObj in En0; discriminate En0).
  eexists _, b, sent. split; [reflexivity|].
  split; [reflexivity|]. split; [done|]. split; [done|]. split.
  - rewrite (obj_get_norm_obj_set_ne "id" "vault" vault withId sent sent0)
      by done.
    by apply (obj_get_norm_obj_set "id" (VStr itemId) item).
  - by apply (obj_get_norm_obj_set "vault" vault withId).
Qed.

(** *** The base URL and optional arguments *)

(** X11. The base URL is the host with [/v1] after it; one final slash
    of the host is dropped, a host that ends otherwise is kept as it is,
    and a host that is missing, empty or only a slash gives the local
    placeholder. The token plays no part. *)
Theorem baseUrl_of_host token :
  (forall h,
      (createOnePasswordClient
         {| connectToken := token; connectHost := Some (h +:+ "/") |}).(baseUrl)
      = (if String.eqb h "" then "http://localhost:8080" else h) +:+ "/v1")
  /\ (forall h c,
        c <> "/"%char ->
        (createOnePasswordClient
           {| connectToken := token;
              connectHost := Some (h +:+ String c "") |}).(baseUrl)
        = (h +:+ String c "") +:+ "/v1")
  /\ (createOnePasswordClient
        {| connectToken := token; connectHost := None |}).(baseUrl)
     = "http://localhost:8080/v1"%string
  /\ (createOnePasswordClient
        {| connectToken := token; connectHost := Some ""%string |}).(baseUrl)
     = "http://localhost:8080/v1"%string.
Proof.
  unfold createOnePasswordClient, new_OnePasswordClientImpl.
  cbn [baseUrl credentials connectHost fmap option_fmap option_map].
  split; [|split; [|split]]; try reflexivity.
  - intros h. rewrite replace_final_slash_added. cbn [truthy_str default].
    by destruct (String.eqb h "").
  - intros h c Hc. rewrite replace_final_slash_other by done.
    cbn [truthy_str default].
    destruct (String.eqb_spec (h +:+ String c "") "") as [E|_]; [|done].
    by apply app_not_empty in E.
Qed.

Lemma usp_one_not_empty k v :
  usp_toString form_urlencode [(k, v)] <> ""%string.
Proof.
  simpl. destruct (form_urlencode k); [|done].
  by destruct (form_urlencode v).
Qed.

(** X12. An empty filter is no filter, and a [limit] or an [offset] of
    zero is none: the requests are those of the call without the
    argument. An [inlineContent] of [false] is sent: the URL differs from
    the one without the argument. *)
Theorem optional_arguments self net :
  Client.listVaults form_urlencode JSON_parse self (Some ""%string) net
  = Client.listVaults form_urlencode JSON_parse self None net
  /\ (forall vaultId,
        Client.listItems encodeURIComponent form_urlencode JSON_parse self
          vaultId (Some ""%string) net
        = Client.listItems encodeURIComponent form_urlencode JSON_parse self
            vaultId None net)
  /\ (forall o,
        Client.activity_endpoint form_urlencode
          (Some {| limit := Some 0; offset := o |})
        = Client.activity_endpoint form_urlencode
            (Some {| limit := None; offset := o |}))
  /\ (forall l,
        Client.activity_endpoint form_urlencode
          (Some {| limit := l; offset := Some 0 |})
        = Client.activity_endpoint form_urlencode
            (Some {| limit := l; offset := None |}))
  /\ Client.activity_endpoint form_urlencode None = "/activity"%string
  /\ (forall vaultId itemId b call call',
        outbound self (ListFiles vaultId itemId (Some b)) net = [call] ->
        outbound self (ListFiles vaultId itemId None) net = [call'] ->
        call.(url) <> call'.(url)).
Proof.
  repeat split; try reflexivity.
  intros vaultId itemId b call call'.
  cbn [Client.outbound]. unfold Client.listFiles.
  rewrite !request_log. unfold issued.
  destruct (getAuthHeaders self); [|done].
  intros [= <-] [= <-]. cbn [url].
  unfold Client.inline_query.
  pose proof (usp_one_not_empty "inline_content" (String_of_bool b)) as Hq.
  cbn [usp_set] in *.
  destruct (usp_toString form_urlencode _) as [|c q] eqn:E; [done|].
  cbn [truthy_str String.eqb negb].
  intros Heq. apply String.app_inj in Heq. apply String.app_inj in Heq.
  discriminate Heq.
Qed.

End ClientEdgeFacts.

(** ** Tool handlers *)

Section ToolFacts.
Variable encodeURIComponent : string -> string.
Variable form_urlencode : string -> string.
Variable JSON_parse : string -> Outcome value.
Variable formatAsMarkdown : value -> string -> string.
Variable stack_of : Error -> value.
Variable details_of : Error -> value.

Local Abbreviation formatError := (formatError stack_of details_of).

(** A handler that renders the result of a call and formats its failure
    returns in both cases, and sends what the call sends. *)
Lemma handler_outcome {A} (m : M A) (render : A -> ToolResponse)
    (onError : Thrown -> Outcome ToolResponse) net :
  fst (try_catch_async (a ← m; mret (render a))
         (fun error => lift (onError error)) net)
  = match fst (m net) with
    | Returned a => Returned (render a)
    | Threw t => onError t
    end
  /\ snd (try_catch_async (a ← m; mret (render a))
            (fun error => lift (onError error)) net)
     = snd (m net).
Proof.
  unfold try_catch_async, mbind, M_bind, mret, M_ret, lift.
  destruct (m net) as [[a|t] log]; cbn; by rewrite app_nil_r.
Qed.

(** [formatError] returns an error block for what has a text, and throws
    what the conversion to a text throws otherwise. *)
Lemma formatError_outcome error :
  match thrown_text error with
  | Returned _ => exists r, formatError error = Returned r
                            /\ r.(isError) = Some true
  | Threw t => formatError error = Threw t
  end.
Proof.
  unfold ErrorUtils.formatError, formatErrorForLogging, thrown_text,
    mbind, Outcome_bind.
  destruct error as [e|v].
  - destruct (instanceof_OnePasswordApiError e);
      [destruct (default false (retryable e))|]; by eexists.
  - destruct (ToString v); [by eexists|done].
Qed.

Lemma testConnection_returns self net :
  exists r, fst (Client.testConnection JSON_parse self net) = Returned r.
Proof.
  unfold Client.testConnection, try_catch_async, mbind, M_bind, lift.
  destruct (Client.getHealth JSON_parse self net) as [[h|t] log];
    [|cbn; eauto].
  destruct (get_prop h "name") as [name|t]; [|cbn; eauto].
  destruct (ToString name) as [n|t]; [|cbn; eauto].
  destruct (get_prop h "version") as [version|t]; [|cbn; eauto].
  destruct (ToString version) as [v|t]; cbn; eauto.
Qed.

Lemma parse_json_text v text :
  is_json v = true ->
  Json.stringify_indent 2 v = Some text ->
  Json.parse text = Some v.
Proof.
  intros [Hwk Hdef]%andb_prop Htext.
  rewrite (parse_stringify 2 v text Hwk Htext). by rewrite norm_defined.
Qed.

(** X15. The handler of test_connection never returns an error block:
    whatever the network does, its one text block is the JSON of the
    status that [testConnection] reports. *)
Theorem test_connection_handler_reports self net :
  exists status text,
    fst (Client.testConnection JSON_parse self net) = Returned status
    /\ fst (test_connection_handler JSON_parse self net)
       = Returned {| content := [{| type := "text"; text := Some text |}];
                     isError := None |}
    /\ Json.parse text = Some (status_value status).
Proof.
  destruct (testConnection_returns self net) as [status Hstatus].
  destruct (stringify_defined 2 (status_value status)) as [text Htext];
    [done|].
  exists status, text. split; [done|].
  unfold test_connection_handler, try_catch_async, mbind, M_bind, mret, M_ret.
  destruct (Client.testConnection JSON_parse self net) as [[st|t] log];
    cbn [fst] in Hstatus; [|discriminate Hstatus].
  injection Hstatus as ->. cbn [fst]. rewrite Htext.
  split; [done|]. by apply parse_json_text.
Qed.



(** On a platform that throws errors, what [request] throws is an error:
    one of the platform, one of the taxonomy or the TypeError of a
    conversion. *)
Lemma request_throws_errors self endpoint options net :
  throws_errors net -> throws_errors JSON_parse ->
  forall t,
    fst (Client.request JSON_parse self endpoint options net) = Threw t ->
    exists e, t = ThrowError e.
Proof.
  intros Hnet Hparse t.
  unfold Client.request, mbind, M_bind, lift, fetch, throw, lift.
  rewrite getAuthHeaders_token.
  destruct (truthy_str _); [|intros [= <-]; by eexists].
  destruct (net _) as [response|t0] eqn:Ecall;
    [|intros [= <-]; by eapply Hnet].
  repeat match goal with
         | |- context [if ?b then _ else _] => destruct b
         end; try (intros [= <-]; by eexists); try discriminate.
  - destruct (try_catch _ _) as [m|t0] eqn:Em.
    + destruct (ToString m) as [text|t1] eqn:Et;
        [intros [= <-]; by eexists|].
      apply ToString_threw in Et as ->. intros [= <-]. by eexists.
    + unfold try_catch in Em. by destruct (error_message _ _ _).
  - destruct (JSON_parse _) as [v|t0] eqn:Ev; [discriminate|].
    intros [= <-]. by eapply Hparse.
Qed.

Lemma deleteItem_throws_errors self vaultId itemId net :
  throws_errors net -> throws_errors JSON_parse ->
  forall t,
    fst (Client.deleteItem encodeURIComponent JSON_parse self vaultId itemId
           net) = Threw t ->
    exists e, t = ThrowError e.
Proof.
  intros Hnet Hparse t. unfold Client.deleteItem, mbind, M_bind.
  pose proof (request_throws_errors self
                (item_path encodeURIComponent vaultId itemId)
                {| method := Some "DELETE"%string; headers := None;
                   body := None |} net Hnet Hparse) as Hrequest.
  destruct (Client.request _ _ _ _ _) as [[v|t0] log]; [discriminate|].
  intros [= <-]. by apply Hrequest.
Qed.

(** A handler that formats the failure of its call: it sends what the
    call sends; it returns a block, flagged as an error exactly when the
    call threw, if what the call throws has a text; and it throws what the
    conversion throws if the call throws a value without a text. *)
Lemma formatting_handler {A} (m : M A) (render : A -> ToolResponse) net :
  (forall a, (render a).(isError) = None) ->
  let handler :=
    try_catch_async (a ← m; mret (render a))
      (fun error => lift (formatError error)) net in
  snd handler = snd (m net)
  /\ ((forall t, fst (m net) = Threw t ->
                 exists s, thrown_text t = Returned s) ->
      reports (fst handler) (fst (m net)))
  /\ ((forall t, fst (m net) = Threw t -> exists e, t = ThrowError e) ->
      reports (fst handler) (fst (m net)))
  /\ (forall v t,
        fst (m net) = Threw (ThrowValue v) -> ToString v = Threw t ->
        fst handler = Threw t).
Proof.
  intros Hrender handler. subst handler.
  rewrite (proj1 (handler_outcome _ _ _ net)),
    (proj2 (handler_outcome _ _ _ net)).
  split; [done|].
  assert ((forall t, fst (m net) = Threw t ->
                     exists s, thrown_text t = Returned s) ->
          reports match fst (m net) with
                  | Returned a => Returned (render a)
                  | Threw t => formatError t
                  end (fst (m net))) as Hreports.
  { unfold reports. destruct (fst (m net)) as [a|t].
    - intros _. eexists. split; [reflexivity|]. rewrite Hrender.
      split; [done|]. by intros [t Ht].
    - intros Htext. destruct (Htext t eq_refl) as [s Hs].
      pose proof (formatError_outcome t) as Hf. rewrite Hs in Hf.
      destruct Hf as (r & -> & Hr). exists r. split; [done|].
      split; by eauto. }
  split; [done|]. split.
  - intros Herrors. apply Hreports. intros t Ht.
    destruct (Herrors t Ht) as [e ->]. by eexists.
  - destruct (fst (m net)) as [a|t0]; [done|]. intros v t' [= ->] Hv.
    pose proof (formatError_outcome (ThrowValue v)) as Hf.
    cbn [thrown_text] in Hf. by rewrite Hv in Hf.
Qed.

Ltac formatted net :=
  match goal with
  | |- context [try_catch_async (mbind (fun a => mret (@?render a)) ?m) _ net] =>
      destruct (formatting_handler m render net (fun _ => eq_refl))
        as (Hlog & Htext & Herrors & Hthrows)
  end.

(** X17. The handlers of create_item, patch_item and delete_item send
    what the call of the client sends. When what that call throws has a
    text, as every error has, they do not throw: they return a block,
    which is an error block exactly when the call threw. So it is on a
    platform whose [fetch] and [JSON.parse] throw errors, for what the
    client throws is then an error. When the call throws a value that is
    no error and has no text, they throw the TypeError of the
    conversion. *)
Theorem item_handlers_never_throw self net :
  (forall vaultId title category fields sections urls tags favorite,
      let call :=
        Client.createItem encodeURIComponent JSON_parse self vaultId
          [("title"%string, VStr title);
           ("category"%string, VStr category);
           ("vault"%string, VObj [("id"%string, VStr vaultId)]);
           ("fields"%string, fields);
           ("sections"%string, sections);
           ("urls"%string, urls);
           ("tags"%string, tags);
           ("favorite"%string, favorite)] net in
      let handler :=
        create_item_handler encodeURIComponent JSON_parse formatError
          self vaultId title category fields sections urls tags favorite
          net in
      snd handler = snd call
      /\ ((forall t, fst call = Threw t ->
                     exists s, thrown_text t = Returned s) ->
          reports (fst handler) (fst call))
      /\ (throws_errors net -> throws_errors JSON_parse ->
          reports (fst handler) (fst call))
      /\ (forall v t,
            fst call = Threw (ThrowValue v) -> ToString v = Threw t ->
            fst handler = Threw t))
  /\ (forall vaultId itemId operations,
        let call :=
          Client.patchItem encodeURIComponent JSON_parse self vaultId itemId
            operations net in
        let handler :=
          patch_item_handler encodeURIComponent JSON_parse formatError
            self vaultId itemId operations net in
        snd handler = snd call
        /\ ((forall t, fst call = Threw t ->
                       exists s, thrown_text t = Returned s) ->
            reports (fst handler) (fst call))
        /\ (throws_errors net -> throws_errors JSON_parse ->
            reports (fst handler) (fst call))
        /\ (forall v t,
              fst call = Threw (ThrowValue v) -> ToString v = Threw t ->
              fst handler = Threw t))
  /\ (forall vaultId itemId,
        let call :=
          Client.deleteItem encodeURIComponent JSON_parse self vaultId itemId
            net in
        let handler :=
          delete_item_handler encodeURIComponent JSON_parse formatError
            self vaultId itemId net in
        snd handler = snd call
        /\ ((forall t, fst call = Threw t ->
                       exists s, thrown_text t = Returned s) ->
            reports (fst handler) (fst call))
        /\ (throws_errors net -> throws_errors JSON_parse ->
            reports (fst handler) (fst call))
        /\ (forall v t,
              fst call = Threw (ThrowValue v) -> ToString v = Threw t ->
              fst handler = Threw t)).
Proof.
  split; [|split]; intros; subst call handler.
  - unfold create_item_handler.
    formatted net.
    split; [done|]. split; [done|]. split; [|done].
    intros Hnet Hparse. apply Herrors.
    by apply request_throws_errors.
  - unfold patch_item_handler.
    formatted net.
    split; [done|]. split; [done|]. split; [|done].
    intros Hnet Hparse. apply Herrors.
    by apply request_throws_errors.
  - unfold delete_item_handler.
    formatted net.
    split; [done|]. split; [done|]. split; [|done].
    intros Hnet Hparse. apply Herrors.
    by apply deleteItem_throws_errors.
Qed.

End ToolFacts.

(** ** The rendering of failures *)

Section ErrorFormatFacts.
Variable stack_of : Error -> value.
Variable details_of : Error -> value.
Hypothesis stack_well_keyed : forall e, well_keyed (stack_of e) = true.
Hypothesis details_well_keyed : forall e, well_keyed (details_of e) = true.

Lemma formatErrorForLogging_object error s :
  thrown_text error = Returned s ->
  exists d,
    formatErrorForLogging stack_of details_of error = Returned (VObj d)
    /\ well_keyed (VObj d) = true.
Proof.
  destruct error as [e|v].
  - intros _. destruct e as [c n m sc co rt ra].
    unfold formatErrorForLogging, instanceof_OnePasswordApiError.
    cbn [cls name message statusCode code retryable retryAfterSeconds].
    destruct c; eexists; (split; [reflexivity|]);
      destruct sc, co, rt, ra as [[]|]; simpl;
      rewrite ?stack_well_keyed, ?details_well_keyed; reflexivity.
  - cbn [thrown_text formatErrorForLogging]. intros ->. by eexists.
Qed.

(** The text of the object that [formatError] builds reads back as an
    object with that [error] and with an object as its [details]. *)
Lemma error_block_parses msg d :
  well_keyed (VObj d) = true ->
  exists text payload d',
    Json.stringify_indent 2
      (VObj [("error"%string, VStr msg); ("details"%string, VObj d)])
    = Some text
    /\ Json.parse text = Some (VObj payload)
    /\ obj_get "error" payload = Some (VStr msg)
    /\ obj_get "details" payload = Some (VObj d').
Proof.
  intros Hwk.
  set (root := VObj [("error"%string, VStr msg); ("details"%string, VObj d)]).
  assert (well_keyed root = true) as Hroot.
  { unfold root. cbn [well_keyed fresh String.eqb Ascii.eqb Bool.eqb negb
      andb]. simpl in Hwk. by rewrite Hwk. }
  destruct (stringify_defined 2 root) as [text Htext]; [done|].
  pose proof (parse_stringify 2 root text Hroot Htext) as Hparse.
  destruct (norm (VObj d)) as [| | | | | |d'] eqn:En;
    try (rewrite norm_VObj in En; discriminate En).
  assert (norm root
          = VObj [("error"%string, VStr msg); ("details"%string, VObj d')])
    as Hnorm.
  { unfold root. rewrite norm_VObj. cbn [present map fst snd].
    by rewrite En. }
  rewrite Hnorm in Hparse.
  by exists text, [("error"%string, VStr msg); ("details"%string, VObj d')], d'.
Qed.

(** X18. For what has a text (the message of an error, the string of
    another value), [formatError] gives one text block flagged as an
    error. Its text is the JSON of an object whose [error] is "Error: "
    and that text, followed by " (retryable)" exactly for an error of the
    taxonomy whose [retryable] flag is set, and whose [details] are an
    object. For a thrown value without a text, such as an object with a
    property [toString] of its own, [formatError] throws the TypeError of
    the conversion. *)
Theorem formatError_block error :
  (forall s,
      thrown_text error = Returned s ->
      exists text payload d,
        formatError stack_of details_of error
        = Returned {| content := [{| type := "text"; text := Some text |}];
                      isError := Some true |}
        /\ Json.parse text = Some (VObj payload)
        /\ obj_get "error" payload
           = Some (VStr (if marked_retryable error
                         then ("Error: " +:+ s) +:+ " (retryable)"
                         else "Error: " +:+ s))
        /\ obj_get "details" payload = Some (VObj d))
  /\ (forall t,
        thrown_text error = Threw t ->
        formatError stack_of details_of error = Threw t
        /\ t = ThrowError no_primitive_value)
  /\ (forall e, error = ThrowError e ->
                thrown_text error = Returned e.(message))
  /\ (forall o x,
        error = ThrowValue (VObj o) -> obj_get "toString" o = Some x ->
        thrown_text error = Threw (ThrowError no_primitive_value)).
Proof.
  split; [|split; [|split]].
  - intros s Hs.
    destruct (formatErrorForLogging_object error s Hs) as (d & Hd & Hwk).
    unfold formatError, mbind, Outcome_bind. rewrite Hd.
    set (msg := if marked_retryable error
                then ("Error: " +:+ s) +:+ " (retryable)"
                else "Error: " +:+ s).
    destruct (error_block_parses msg d Hwk)
      as (text & payload & d' & Htext & Hparse & Herror & Hdetails).
    exists text, payload, d'. split; [|done].
    unfold msg, marked_retryable in *. destruct error as [e|v].
    + cbn [thrown_text] in Hs. injection Hs as <-.
      destruct (instanceof_OnePasswordApiError e);
        [destruct (default false (retryable e))|];
        cbn [andb] in Htext; cbv beta iota; by rewrite Htext.
    + cbn [thrown_text] in Hs. rewrite Hs. cbv beta iota. by rewrite Htext.
  - intros t Ht. split.
    + destruct error as [e|v]; [discriminate Ht|].
      cbn [thrown_text] in Ht.
      unfold formatError, formatErrorForLogging, mbind, Outcome_bind.
      by rewrite Ht.
    + destruct error as [e|v]; [discriminate Ht|].
      by apply ToString_threw in Ht.
  - by intros e ->.
  - intros o x -> Hx. cbn [thrown_text ToString]. by rewrite Hx.
Qed.

End ErrorFormatFacts.

(** ** The routes of the worker *)

Section RouteFacts.

Lemma mcp_post request :
  request.(req_pathname) = "/mcp"%string ->
  request.(req_method) = "POST"%string ->
  fetch_handler request
  = match validateCredentials (parseTenantCredentials request) with
    | Threw error =>
        Respond (new_Response (Json.stringify (unauthorized_body error))
                   401 json_headers)
    | Returned _ =>
        Handle (createStatelessServer (parseTenantCredentials request))
          request
    end.
Proof.
  intros Hpath Hmethod. unfold fetch_handler. by rewrite Hpath, Hmethod.
Qed.

(** X13. A POST to [/mcp] whose two credential headers are not empty is
    handed to a server built from those headers; otherwise it is answered
    401, with a message that names the token header when that one is
    missing or empty, and the host header only when the token is there. *)
Theorem mcp_post_dispatch request :
  request.(req_pathname) = "/mcp"%string ->
  request.(req_method) = "POST"%string ->
  let token := Headers_get token_header request.(req_headers) in
  let host := Headers_get host_header request.(req_headers) in
  if truthy_str token && truthy_str host then
    fetch_handler request
    = Handle (createStatelessServer
                {| connectToken := token; connectHost := host |}) request
  else
    exists response payload,
      fetch_handler request = Respond response
      /\ response.(status) = 401
      /\ Json.parse response.(resp_body) = Some (VObj payload)
      /\ obj_get "message" payload
         = Some (VStr (if truthy_str token
                       then "Missing X-1Password-Connect-Host header. Provide your Connect server URL (e.g., http://localhost:8080)."
                       else "Missing X-1Password-Connect-Token header. Provide your Connect server token.")).
Proof.
  intros Hpath Hmethod token host. rewrite mcp_post by done.
  unfold validateCredentials, parseTenantCredentials.
  cbn [connectToken connectHost]. rewrite !or_undefined_truthy.
  fold token_header host_header. fold token host.
  destruct (truthy_str token) eqn:Ht; cbn [negb andb].
  - destruct (truthy_str host) eqn:Hh; cbn [negb].
    + by rewrite !or_undefined_id.
    + eexists _, _. split; [reflexivity|]. split; [reflexivity|].
      split; vm_compute; reflexivity.
  - eexists _, _. split; [reflexivity|]. split; [reflexivity|].
    split; vm_compute; reflexivity.
Qed.

(** X14. A request that is not a POST to [/mcp] is answered by the
    worker itself, the same whatever its headers are, and never 401: with
    the status 501 on [/sse] (but not on [/health]) and 200 anywhere
    else. *)
Theorem other_routes_ignore_headers request headers' :
  request.(req_pathname) <> "/mcp"%string
  \/ request.(req_method) <> "POST"%string ->
  fetch_handler request = fetch_handler (with_headers headers' request)
  /\ exists response,
       fetch_handler request = Respond response
       /\ response.(status)
          = if String.eqb request.(req_pathname) "/sse" then 501 else 200.
Proof.
  intros Hroute. unfold fetch_handler, with_headers.
  cbn [req_pathname req_method].
  destruct (String.eqb_spec (req_pathname request) "/health") as [E|_].
  { rewrite E. split; [done|]. by eexists. }
  assert (String.eqb (req_pathname request) "/mcp"
          && String.eqb (req_method request) "POST" = false) as ->.
  { destruct Hroute as [H|H].
    - by destruct (String.eqb_spec (req_pathname request) "/mcp").
    - destruct (String.eqb_spec (req_method request) "POST"); [done|].
      apply andb_false_r. }
  destruct (String.eqb (req_pathname request) "/sse");
    (split; [done|]); by eexists.
Qed.

End RouteFacts.

(** ** File sizes *)

Section FileSizeFacts.
Variable exponent_form : Z -> Z -> string.

Local Abbreviation toFixed1 := (FileSize.toFixed1 exponent_form).
Local Abbreviation formatFileSize := (FileSize.formatFileSize exponent_form).

Lemma toFixed1_whole k den :
  0 < den -> 0 <= k < 10 ^ 21 ->
  toFixed1 (k * den) den = String_of_Z k +:+ ".0".
Proof.
  intros Hden Hk. unfold FileSize.toFixed1.
  destruct (Z.leb_spec (10 ^ 21 * den) (k * den)) as [Hbig|_]; [nia|].
  assert ((20 * (k * den) + den) / (2 * den) = 10 * k) as ->.
  { symmetry. apply (Z.div_unique _ _ _ den); lia. }
  rewrite (Z.mul_comm 10 k), Z.div_mul, Z.mod_mul by lia. reflexivity.
Qed.

(** X19. A size that is a whole number [k] of a unit is shown as [k.0]
    with that unit: KB and MB for [k] from 1 to 1023, GB for [k] from 1
    to below 10^21. From 10^21 GB on, the number is shown as
    [Number::toString] writes it, with an exponent. *)
Theorem formatFileSize_whole_units k :
  1 <= k ->
  (k < 1024 ->
   formatFileSize (k * 1024) = (String_of_Z k +:+ ".0") +:+ " KB"
   /\ formatFileSize (k * (1024 * 1024))
      = (String_of_Z k +:+ ".0") +:+ " MB")
  /\ (k < 10 ^ 21 ->
      round_to_double (k * (1024 * 1024 * 1024))
      = Num (k * (1024 * 1024 * 1024)) ->
      formatFileSize (k * (1024 * 1024 * 1024))
      = (String_of_Z k +:+ ".0") +:+ " GB")
  /\ (10 ^ 21 <= k ->
      formatFileSize (k * (1024 * 1024 * 1024))
      = exponent_form (k * (1024 * 1024 * 1024)) (1024 * 1024 * 1024)
          +:+ " GB").
Proof.
  intros Hk. unfold FileSize.formatFileSize.
  split; [intros Hlt; split|split].
  - destruct (Z.ltb_spec (k * 1024) 1024); [lia|].
    destruct (Z.ltb_spec (k * 1024) (1024 * 1024)); [|lia].
    by rewrite toFixed1_whole by lia.
  - destruct (Z.ltb_spec (k * (1024 * 1024)) 1024); [lia|].
    destruct (Z.ltb_spec (k * (1024 * 1024)) (1024 * 1024)); [lia|].
    destruct (Z.ltb_spec (k * (1024 * 1024)) (1024 * 1024 * 1024)); [|lia].
    by rewrite toFixed1_whole by lia.
  - intros Hlt _.
    destruct (Z.ltb_spec (k * (1024 * 1024 * 1024)) 1024); [lia|].
    destruct (Z.ltb_spec (k * (1024 * 1024 * 1024)) (1024 * 1024)); [lia|].
    destruct (Z.ltb_spec (k * (1024 * 1024 * 1024)) (1024 * 1024 * 1024));
      [lia|].
    by rewrite toFixed1_whole by lia.
  - intros Hbig.
    destruct (Z.ltb_spec (k * (1024 * 1024 * 1024)) 1024); [lia|].
    destruct (Z.ltb_spec (k * (1024 * 1024 * 1024)) (1024 * 1024)); [lia|].
    destruct (Z.ltb_spec (k * (1024 * 1024 * 1024)) (1024 * 1024 * 1024));
      [lia|].
    unfold FileSize.toFixed1.
    by destruct (Z.leb_spec (10 ^ 21 * (1024 * 1024 * 1024))
                   (k * (1024 * 1024 * 1024))); [|lia].
Qed.

End FileSizeFacts.

(** ** Concrete runs of the further properties *)

Section MoreRuns.

Lemma getEnvNumber_decimal_witness :
  getCharacterLimit configured_env = Num 25000.
Proof.
  apply (proj2 (getEnvNumber_decimal configured_env CHARACTER_LIMIT
                  (Num 50000) 25000 eq_refl)).
  reflexivity.
Defined.

(** [parseInt] rounds as a double does: the integer after 2^53 reads as
    2^53; a text that goes on after its digits reads as those digits. *)
Example parseInt10_examples :
  parseInt10 "9007199254740993" = Num 9007199254740992
  /\ parseInt10 "9007199254740995" = Num 9007199254740996
  /\ parseInt10 " -12px" = Num (-12)
  /\ parseInt10 "px" = NaN.
Proof. repeat split; vm_compute; reflexivity. Qed.

(** A text that is not a number, and a variable that is not set, give the
    default. *)
Example page_sizes_default :
  getDefaultPageSize configured_env = Num 20
  /\ getMaxPageSize configured_env = Num 100.
Proof. split; reflexivity. Qed.

Lemma request_429_decimal_retry_after_witness :
  fst (Client.request json_parse tenant_client "/vaults" no_options
         (answer rate_limited_30))
  = Threw (ThrowError (new_RateLimitError "Rate limit exceeded" (Num 30))).
Proof.
  apply (request_429_decimal_retry_after json_parse tenant_client "/vaults"
           no_options (answer rate_limited_30) rate_limited_30 30).
  - reflexivity.
  - intros call. reflexivity.
  - reflexivity.
  - vm_compute. reflexivity.
  - reflexivity.
Defined.

Lemma request_error_retryable_iff_429_witness :
  exists e,
    fst (Client.request json_parse tenant_client "/vaults" no_options
           (answer server_error_html)) = Threw (ThrowError e)
    /\ isRetryableError (ThrowError e) = false
    /\ instanceof_OnePasswordApiError e = true
    /\ e.(statusCode) = Some 500.
Proof.
  destruct (request_error_retryable_iff_429 json_parse tenant_client "/vaults"
              no_options (answer server_error_html) server_error_html)
    as (e & Hthrown & Hretry & _ & Hclass).
  - reflexivity.
  - intros call. reflexivity.
  - reflexivity.
  - exists e. split; [exact Hthrown|]. split; [exact Hretry|].
    apply Hclass. right. eexists. vm_compute. reflexivity.
Defined.

(** An error body whose message has no text: what [request] throws is
    the TypeError of the conversion, not an error of the taxonomy. *)
Example request_message_without_text :
  fst (Client.request json_parse tenant_client "/vaults" no_options
         (answer error_without_text))
  = Threw (ThrowError no_primitive_value).
Proof. vm_compute. reflexivity. Qed.

Lemma no_token_no_request_witness :
  Client.outbound unreserved unreserved json_parse anonymous_client
    (GetVault "v1") (answer created_answer) = []
  /\ (GetVault "v1" <> TestConnection ->
      call_outcome unreserved unreserved json_parse anonymous_client
        (GetVault "v1") (answer created_answer)
      = Threw (ThrowError no_token_error))
  /\ fst (Client.testConnection json_parse anonymous_client
            (answer created_answer))
     = Returned
         {| connected := false;
            status_message :=
              "No Connect token provided. Include X-1Password-Connect-Token header." |}.
Proof.
  apply (no_token_no_request unreserved unreserved json_parse anonymous_client
           (GetVault "v1") (answer created_answer)).
  reflexivity.
Defined.

Lemma transport_failure_propagates_witness :
  (DeleteItem "v1" "i1" <> TestConnection ->
   call_outcome unreserved unreserved json_parse tenant_client
     (DeleteItem "v1" "i1") unreachable
   = Threw (ThrowError (new_TypeError "fetch failed")))
  /\ fst (Client.testConnection json_parse tenant_client unreachable)
     = Returned {| connected := false; status_message := "fetch failed" |}.
Proof.
  apply (transport_failure_propagates unreserved unreserved json_parse
           tenant_client (DeleteItem "v1" "i1") unreachable
           (ThrowError (new_TypeError "fetch failed"))).
  - reflexivity.
  - intros c. reflexivity.
Defined.

Lemma getFileContent_outcome_witness :
  fst (Client.getFileContent unreserved tenant_client "v1" "i1" "f1"
         (answer file_bytes))
  = Returned file_bytes.(resp_body).
Proof.
  apply (proj1 (getFileContent_outcome unreserved tenant_client "v1" "i1" "f1"
                  (answer file_bytes) file_bytes eq_refl
                  (fun _ => eq_refl))).
  reflexivity.
Defined.

(** A download that is rate limited: a generic error, 429 as its status,
    not retryable. *)
Example rate_limited_download_error :
  fst (Client.getFileContent unreserved tenant_client "v1" "i1" "f1"
         (answer rate_limited_download))
  = Threw (ThrowError
      (new_OnePasswordApiError "API error: 429" (Some 429) None None)).
Proof. reflexivity. Qed.

Lemma heartbeat_outcome_witness :
  fst (Client.heartbeat tenant_client (answer rate_limited_30))
  = Threw (ThrowError
      {| cls := OnePasswordApiErrorC;
         name := "OnePasswordApiError";
         message := "Heartbeat failed: 429";
         statusCode := Some 429;
         code := Some "ONEPASSWORD_ERROR"%string;
         retryable := Some false;
         retryAfterSeconds := None |}).
Proof.
  apply (proj2 (heartbeat_outcome tenant_client (answer rate_limited_30)
                  rate_limited_30 eq_refl (fun _ => eq_refl))).
  reflexivity.
Defined.

Lemma deleteItem_outcome_witness :
  fst (Client.deleteItem unreserved json_parse tenant_client "v1" "i1"
         (answer no_content)) = Returned tt.
Proof.
  apply (proj1 (proj2 (deleteItem_outcome unreserved json_parse tenant_client
                         "v1" "i1" (answer no_content) no_content eq_refl
                         (fun _ => eq_refl)))).
  reflexivity.
Defined.

(** A 200 without a body makes [deleteItem] throw the SyntaxError of
    [JSON.parse]. *)
Example deleteItem_empty_200_throws :
  exists e,
    fst (Client.deleteItem unreserved json_parse tenant_client "v1" "i1"
           (answer empty_ok)) = Threw (ThrowError e)
    /\ e.(cls) = SyntaxErrorC.
Proof. eexists. split; reflexivity. Qed.

Lemma updateItem_payload_witness :
  exists call b sent,
    snd (Client.updateItem unreserved json_parse tenant_client "v1" "i1"
           test_item (answer created_answer)) = [call]
    /\ call.(init).(method) = Some "PUT"%string
    /\ call.(init).(body) = Some b
    /\ Json.parse b = Some (VObj sent)
    /\ obj_get "id" sent = Some (VStr "i1")
    /\ obj_get "vault" sent = Some (VObj [("id"%string, VStr "v1")]).
Proof.
  apply (updateItem_payload unreserved json_parse tenant_client "v1" "i1"
           test_item (answer created_answer)).
  - reflexivity.
  - reflexivity.
Defined.


Lemma item_handlers_never_throw_witness :
  reports
    (fst (delete_item_handler unreserved json_parse
            (formatError no_stack no_details) tenant_client "v1" "i1"
            unreachable))
    (fst (Client.deleteItem unreserved json_parse tenant_client "v1" "i1"
            unreachable)).
Proof.
  apply (proj1 (proj2 (proj2 (proj2 (proj2 (item_handlers_never_throw
                                              unreserved json_parse no_stack
                                              no_details tenant_client
                                              unreachable))
                                      "v1"%string "i1"%string)))).
  - intros call t [= <-]. by eexists.
  - intros text t. unfold json_parse.
    destruct (Json.parse text); [discriminate|]. intros [= <-]. by eexists.
Defined.

(** A rejection with a value without a text makes the handler throw. *)
Example delete_item_handler_throws :
  fst (delete_item_handler unreserved json_parse
         (formatError no_stack no_details) tenant_client "v1" "i1"
         rejecting_without_text)
  = Threw (ThrowError no_primitive_value).
Proof. vm_compute. reflexivity. Qed.

Lemma formatError_block_witness :
  exists text payload d,
    formatError no_stack no_details
      (ThrowError (new_RateLimitError "Rate limit exceeded" (Num 30)))
    = Returned {| content := [{| type := "text"; text := Some text |}];
                  isError := Some true |}
    /\ Json.parse text = Some (VObj payload)
    /\ obj_get "error" payload
       = Some (VStr "Error: Rate limit exceeded (retryable)")
    /\ obj_get "details" payload = Some (VObj d).
Proof.
  apply (proj1 (formatError_block no_stack no_details (fun _ => eq_refl)
                  (fun _ => eq_refl)
                  (ThrowError
                     (new_RateLimitError "Rate limit exceeded" (Num 30))))
           "Rate limit exceeded"%string).
  reflexivity.
Defined.

(** A thrown string is its own text; a thrown object that hides
    [toString] has none. *)
Example formatError_thrown_values :
  (exists text,
      formatError no_stack no_details (ThrowValue (VStr "boom"))
      = Returned {| content := [{| type := "text"; text := Some text |}];
                    isError := Some true |}
      /\ Json.parse text
         = Some (VObj [("error"%string, VStr "Error: boom");
                       ("details"%string,
                        VObj [("error"%string, VStr "boom")])]))
  /\ formatError no_stack no_details (ThrowValue without_text)
     = Threw (ThrowError no_primitive_value).
Proof. split; [eexists; split|]; vm_compute; reflexivity. Qed.

Lemma mcp_post_dispatch_witness :
  fetch_handler both_headers_request
  = Handle (createStatelessServer
              {| connectToken := Some "token-a"%string;
                 connectHost := Some "http://connect.test"%string |})
      both_headers_request.
Proof.
  apply (mcp_post_dispatch both_headers_request).
  - reflexivity.
  - reflexivity.
Defined.

Lemma other_routes_ignore_headers_witness :
  fetch_handler get_mcp_request
  = fetch_handler
      (with_headers both_headers_request.(req_headers) get_mcp_request)
  /\ exists response,
       fetch_handler get_mcp_request = Respond response
       /\ response.(status) = 200.
Proof.
  apply (other_routes_ignore_headers get_mcp_request
           both_headers_request.(req_headers)).
  right. discriminate.
Defined.

Lemma formatFileSize_whole_units_witness :
  formatFileSize no_exponent_form (2 * 1024) = "2.0 KB"%string
  /\ formatFileSize no_exponent_form (2 * (1024 * 1024)) = "2.0 MB"%string.
Proof.
  apply (proj1 (formatFileSize_whole_units no_exponent_form 2 ltac:(lia))).
  lia.
Defined.

(** Sizes below a unit, and the largest size shown in KB. *)
Example formatFileSize_examples :
  formatFileSize no_exponent_form 512 = "512 B"%string
  /\ formatFileSize no_exponent_form 1536 = "1.5 KB"%string
  /\ formatFileSize no_exponent_form (3 * 1024 * 1024 * 1024)
     = "3.0 GB"%string
  /\ formatFileSize no_exponent_form (1024 * 1024 - 1) = "1024.0 KB"%string.
Proof. repeat split; reflexivity. Qed.

End MoreRuns.
